(** * cli_driver: the outcome classifier, the result ledger and the scenario
      functions of [khulnasoft-ci/cli_driver.py]

    The driver shells out to an external command-line tool, decodes its
    standard output with [json.loads], compares one extracted field with an
    expected state and files a record in one of four module-level lists
    ([positive_tests] and [negative_tests], each with a "pass" and a "fail"
    list).  The embedding below follows the Python text function by function.

    Conventions.
    - A scenario function is a computation in the monad [M]: it threads the
      [World] (the four lists, the commands run so far, the random source)
      and either returns or raises a Python exception.  A raise keeps the
      world reached so far, as Python keeps the mutations of the global lists.
    - The external tool, the configuration module [cli_driver_config], the
      [Faker] generator, [os.getenv] and Python's [str] are not part of the
      file; they are gathered in the record [Env].
    - Calls to [logger] and [dump_response] only write to the log sinks; they
      neither touch the four lists nor change control flow and are left out.
      Where an argument of such a call can itself raise (a subscript), the
      subscript is kept.
    - A block the Python text repeats word for word is written once: the
      [image wait] precondition of the image scenarios is [wait_for_image],
      the first [try] of the two archive scenarios is [pick_archive_image],
      and each [for] loop that carries state is a [Fixpoint] of its own.
    - Default arguments are passed explicitly; the parameter [exit_on_fail]
      of [log_explicit_failure] is never read and is left out.
    - JSON numbers are integers here; floating-point payloads are outside the
      model. *)

From Stdlib Require Import String Ascii List ZArith Bool Lia DecimalString.
Import ListNotations.
Local Open Scope Z_scope.
Local Open Scope string_scope.
Set Warnings "-register-all".

(** ** Decoded values *)

(** What [json.loads] returns. *)
Inductive json : Type :=
| JNull
| JBool (b : bool)
| JInt (n : Z)
| JStr (s : string)
| JList (items : list json)
| JDict (entries : list (string * json)).

(** First binding of a key: the dictionary an entry list stands for. *)
Fixpoint dict_lookup {A : Type} (k : string) (d : list (string * A)) : option A :=
  match d with
  | [] => None
  | (k', v) :: rest => if k' =? k then Some v else dict_lookup k rest
  end.

Definition is_some {A : Type} (o : option A) : bool :=
  match o with Some _ => true | None => false end.

(** The keys of that dictionary, each once, in order of first appearance. *)
Definition dict_keys {A : Type} (d : list (string * A)) : list string :=
  rev (nodup string_dec (rev (map fst d))).

(** Python's [==] on decoded values.  [True == 1] and [False == 0] hold, as
    [bool] is a subclass of [int]; lists compare element by element;
    dictionaries compare as maps, whatever the order of their entries. *)
Fixpoint py_eq (a b : json) {struct a} : bool :=
  match a, b with
  | JNull, JNull => true
  | JBool x, JBool y => Bool.eqb x y
  | JBool x, JInt n => ((if x then 1 else 0) =? n)%Z
  | JInt n, JBool y => (n =? (if y then 1 else 0))%Z
  | JInt n, JInt m => (n =? m)%Z
  | JStr s, JStr t => s =? t
  | JList l, JList m =>
      (fix elems (l m : list json) {struct l} : bool :=
         match l, m with
         | [], [] => true
         | x :: l', y :: m' => py_eq x y && elems l' m'
         | _, _ => false
         end) l m
  | JDict d, JDict e =>
      (fix entries (seen : list string) (rest : list (string * json))
           {struct rest} : bool :=
         match rest with
         | [] => true
         | (k, v) :: rest' =>
             (if existsb (String.eqb k) seen then true
              else match dict_lookup k e with
                   | Some v' => py_eq v v'
                   | None => false
                   end)
             && entries (k :: seen) rest'
         end) [] d
      && forallb (fun kv => is_some (dict_lookup (fst kv) d)) e
  | _, _ => false
  end.

(** Truth value, as in [if not response:]. *)
Definition truthy (j : json) : bool :=
  match j with
  | JNull => false
  | JBool b => b
  | JInt n => negb (n =? 0)%Z
  | JStr s => negb (s =? "")
  | JList l => match l with [] => false | _ => true end
  | JDict d => match d with [] => false | _ => true end
  end.

(** A Python [str] is a sequence of code points; the bytes of a Rocq string
    are read as UTF-8 and grouped, each lead byte with the continuation
    bytes (10xxxxxx) that follow it. *)
Definition is_continuation (c : ascii) : bool :=
  match c with Ascii _ _ _ _ _ _ b6 b7 => b7 && negb b6 end.

Fixpoint group_points (s : string) : string * list string :=
  match s with
  | EmptyString => (EmptyString, [])
  | String c rest =>
      let '(pending, done) := group_points rest in
      if is_continuation c then (String c pending, done)
      else (EmptyString, String c pending :: done)
  end.

Definition code_points (s : string) : list string :=
  let '(pending, done) := group_points s in
  match pending with EmptyString => done | _ => pending :: done end.

(** [needle in haystack] on strings. *)
Fixpoint is_substring (needle haystack : string) : bool :=
  String.prefix needle haystack
  || match haystack with
     | EmptyString => false
     | String _ rest => is_substring needle rest
     end.

(** Induction on decoded values that reaches into lists and dictionaries. *)
Section JsonInduction.

Variable P : json -> Prop.
Hypothesis HNull : P JNull.
Hypothesis HBool : forall b, P (JBool b).
Hypothesis HInt : forall n, P (JInt n).
Hypothesis HStr : forall s, P (JStr s).
Hypothesis HList : forall l, Forall P l -> P (JList l).
Hypothesis HDict : forall d, Forall (fun kv => P (snd kv)) d -> P (JDict d).

Fixpoint json_nested_ind (j : json) : P j :=
  match j with
  | JNull => HNull
  | JBool b => HBool b
  | JInt n => HInt n
  | JStr s => HStr s
  | JList l =>
      HList l ((fix items (l : list json) : Forall P l :=
                  match l with
                  | [] => Forall_nil P
                  | x :: rest => Forall_cons x (json_nested_ind x) (items rest)
                  end) l)
  | JDict d =>
      HDict d ((fix entries (d : list (string * json))
                  : Forall (fun kv => P (snd kv)) d :=
                  match d with
                  | [] => Forall_nil _
                  | kv :: rest =>
                      Forall_cons kv (json_nested_ind (snd kv)) (entries rest)
                  end) d)
  end.

End JsonInduction.

(** ** Exceptions *)

(** The bytes captured from the tool's standard output, seen through
    [json.loads]: either they decode to a value or decoding raises. *)
Inductive stdout : Type :=
| Decodes (j : json)
| Undecodable.

Inductive exn : Type :=
| CalledProcessError (returncode : Z) (out : stdout)
| OSError
| JSONDecodeError
| AttributeError
| TypeError
| KeyError
| IndexError
| NameError (name : string)
| UnboundLocalError (name : string)
| SystemExit (code : Z).

(** [SystemExit] derives from [BaseException] only, so [except Exception]
    lets it through. *)
Definition is_Exception (e : exn) : bool :=
  match e with SystemExit _ => false | _ => true end.

(** [UnboundLocalError] is a subclass of [NameError]. *)
Definition is_NameError (e : exn) : bool :=
  match e with NameError _ | UnboundLocalError _ => true | _ => false end.

Definition is_CalledProcessError (e : exn) : bool :=
  match e with CalledProcessError _ _ => true | _ => false end.

Inductive result (A : Type) : Type :=
| Ok (a : A)
| Raise (e : exn).
Arguments Ok {A} a.
Arguments Raise {A} e.

Definition rbind {A B : Type} (r : result A) (k : A -> result B) : result B :=
  match r with Ok a => k a | Raise e => Raise e end.

(** ** Operations on decoded values *)

(** [response.get(key)] *)
Definition py_get (j : json) (key : string) : result json :=
  match j with
  | JDict d => Ok (match dict_lookup key d with Some v => v | None => JNull end)
  | _ => Raise AttributeError
  end.

(** [response[key]] with a string key *)
Definition py_item (j : json) (key : string) : result json :=
  match j with
  | JDict d => match dict_lookup key d with Some v => Ok v | None => Raise KeyError end
  | _ => Raise TypeError
  end.

(** [response[i]] with a non-negative integer literal *)
Definition py_index (j : json) (i : nat) : result json :=
  match j with
  | JList l => match nth_error l i with Some v => Ok v | None => Raise IndexError end
  | JStr s => match nth_error (code_points s) i with
              | Some c => Ok (JStr c)
              | None => Raise IndexError
              end
  | JDict _ => Raise KeyError
  | _ => Raise TypeError
  end.

(** [for x in response] *)
Definition py_iter (j : json) : result (list json) :=
  match j with
  | JList l => Ok l
  | JDict d => Ok (map JStr (dict_keys d))
  | JStr s => Ok (map JStr (code_points s))
  | _ => Raise TypeError
  end.

(** [len(response)] *)
Definition py_len (j : json) : result nat :=
  match j with
  | JList l => Ok (length l)
  | JDict d => Ok (length (dict_keys d))
  | JStr s => Ok (length (code_points s))
  | _ => Raise TypeError
  end.

(** [key in response] with a string key *)
Definition py_contains (key : string) (j : json) : result bool :=
  match j with
  | JDict d => Ok (is_some (dict_lookup key d))
  | JList l => Ok (existsb (py_eq (JStr key)) l)
  | JStr s => Ok (is_substring key s)
  | _ => Raise TypeError
  end.

Definition json_loads (out : stdout) : result json :=
  match out with
  | Decodes j => Ok j
  | Undecodable => Raise JSONDecodeError
  end.

(** Decimal rendering of a length, as [format] prints an [int]. *)
Definition str_nat (n : nat) : string := NilZero.string_of_uint (Nat.to_uint n).

(** Decimal rendering of an integer argument of [format]. *)
Definition str_int (z : Z) : string := NilZero.string_of_int (Z.to_int z).

(** ** The world a run acts on *)

(** [positive_tests] and [negative_tests], each a dictionary of two lists. *)
Record Ledger : Type := mkLedger {
  positive_pass : list string;
  positive_fail : list string;
  negative_pass : list string;
  negative_fail : list string
}.

Record World : Type := mkWorld {
  ledger : Ledger;
  calls : list string;    (* command lines handed to subprocess.run, oldest first *)
  entropy : list nat      (* what random.choice and Faker draw next *)
}.

Definition empty_ledger : Ledger := mkLedger [] [] [] [].

(** How one run of the external tool ends: it exits with a return code and
    some standard output, or the process could not be started at all. *)
Inductive proc_result : Type :=
| Exited (returncode : Z) (out : stdout)
| NotStarted.

(** The dictionary [fake_account_with_user] builds. *)
Record Account : Type := mkAccount {
  account_name : string;
  user : string;
  email : string;
  passw : string
}.

(** The [context] dictionary: the keys [run_cli_driver] fills in. *)
Record Context : Type := mkContext {
  ctx_user : string;
  ctx_password : string;
  ctx_api_url : string
}.

(** Everything the file takes from outside: the configuration module, the
    tool behind [subprocess.run] (its answer may depend on the commands run
    before), Python's [str] on decoded values and on exceptions, [Faker] and
    the process environment. *)
Record Env : Type := mkEnv {
  cmd_prefix : string;
  test_images : list string;
  malware_images : list string;
  metadata_types : list string;
  vulnerability_types : list string;
  default_system_wait_timeout : Z;
  default_system_wait_interval : Z;
  tool : list string -> string -> proc_result;
  py_str : json -> string;
  exn_str : exn -> string;
  faker : nat -> Account;
  getenv : string -> option string
}.

(** ** State and exceptions *)

Definition M (A : Type) : Type := World -> result A * World.

Definition ret {A : Type} (a : A) : M A := fun w => (Ok a, w).

Definition bind {A B : Type} (m : M A) (k : A -> M B) : M B :=
  fun w => match m w with
           | (Ok a, w') => k a w'
           | (Raise e, w') => (Raise e, w')
           end.

Definition raise {A : Type} (e : exn) : M A := fun w => (Raise e, w).

Definition lift {A : Type} (r : result A) : M A := fun w => (r, w).

(** [try: body  except Exception as e: handler] *)
Definition try_except {A : Type} (body : M A) (handler : exn -> M A) : M A :=
  fun w => match body w with
           | (Ok a, w') => (Ok a, w')
           | (Raise e, w') =>
               if is_Exception e then handler e w' else (Raise e, w')
           end.

Declare Scope py_scope.
Delimit Scope py_scope with py.
Notation "x <- c ;; k" := (bind c (fun x => k))
  (at level 100, c at next level, right associativity) : py_scope.
Notation "c ;; k" := (bind c (fun _ => k))
  (at level 100, right associativity) : py_scope.
Local Open Scope py_scope.

(** [for x in xs: body] without [break] *)
Fixpoint for_each {A : Type} (xs : list A) (body : A -> M unit) : M unit :=
  match xs with
  | [] => ret tt
  | x :: rest => body x ;; for_each rest body
  end.

Definition draw : M nat :=
  fun w => match entropy w with
           | [] => (Ok 0%nat, w)
           | n :: rest => (Ok n, mkWorld (ledger w) (calls w) rest)
           end.

(** [random.choice(xs)] on a Python list *)
Definition random_choice {A : Type} (xs : list A) : M A :=
  match xs with
  | [] => raise IndexError
  | x :: _ => n <- draw ;; ret (nth (n mod length xs) xs x)
  end.

(** [random.choice(response)] on a decoded value: [len], then a subscript
    with an integer. *)
Definition random_choice_json (j : json) : M json :=
  match j with
  | JList l => random_choice l
  | JStr s => random_choice (map JStr (code_points s))
  | JDict d => match d with [] => raise IndexError | _ => raise KeyError end
  | _ => raise TypeError
  end.

Definition update_ledger (f : Ledger -> Ledger) : M unit :=
  fun w => (Ok tt, mkWorld (f (ledger w)) (calls w) (entropy w)).

(** [positive_tests["pass"].append(r)] and its three siblings *)
Definition append_positive_pass (r : string) : M unit :=
  update_ledger (fun l => mkLedger (positive_pass l ++ [r]) (positive_fail l)
                                   (negative_pass l) (negative_fail l)).
Definition append_positive_fail (r : string) : M unit :=
  update_ledger (fun l => mkLedger (positive_pass l) (positive_fail l ++ [r])
                                   (negative_pass l) (negative_fail l)).
Definition append_negative_pass (r : string) : M unit :=
  update_ledger (fun l => mkLedger (positive_pass l) (positive_fail l)
                                   (negative_pass l ++ [r]) (negative_fail l)).
Definition append_negative_fail (r : string) : M unit :=
  update_ledger (fun l => mkLedger (positive_pass l) (positive_fail l)
                                   (negative_pass l) (negative_fail l ++ [r])).

(** ["{0} - {1}".format(action, message)] *)
Definition record_text (action message : string) : string :=
  action ++ " - " ++ message.

(** ** The classifier and the summary *)

Definition log_explicit_failure (test_type action message : string) : M unit :=
  if test_type =? "positive" then append_positive_fail (record_text action message)
  else append_negative_fail (record_text action message).

Definition log_results_simple (desired_state state : json)
    (test_type action message : string) : M unit :=
  if py_eq state desired_state then
    if test_type =? "positive" then append_positive_pass (record_text action message)
    else append_negative_fail (record_text action message)
  else
    if test_type =? "positive" then append_positive_fail (record_text action message)
    else append_negative_pass (record_text action message).

(** The listing goes to the logger; what remains is the exit decision. *)
Definition log_results_summary : M unit :=
  fun w =>
    if (0 <? length (positive_fail (ledger w)))%nat then (Raise (SystemExit 1), w)
    else if (0 <? length (negative_fail (ledger w)))%nat then (Raise (SystemExit 1), w)
    else (Ok tt, w).

(** The exit status the interpreter reports for the way a script ends: 0
    when it runs to its end, the argument of [sys.exit], and 1 after an
    uncaught exception. *)
Definition exit_status (r : result unit) : Z :=
  match r with
  | Ok _ => 0
  | Raise (SystemExit code) => code
  | Raise _ => 1
  end.

(** ** The scenario functions *)

Section Driver.

Variable E : Env.

Definition assemble_command (context : Context) (args : string) : string :=
  let user := " --u " ++ ctx_user context in
  let password := " --p " ++ ctx_password context in
  let api_url := " --url " ++ ctx_api_url context ++ " " in
  cmd_prefix E ++ user ++ password ++ api_url ++ args.

(** [subprocess.run(command.split(), check=True, stdout=subprocess.PIPE)],
    giving the [stdout] of the completed process.  With [check=True] a
    non-zero return code raises [CalledProcessError], which carries the
    captured output. *)
Definition subprocess_run (command : string) : M stdout :=
  fun w =>
    let w' := mkWorld (ledger w) (calls w ++ [command]) (entropy w) in
    match tool E (calls w) command with
    | Exited 0 out => (Ok out, w')
    | Exited returncode out => (Raise (CalledProcessError returncode out), w')
    | NotStarted => (Raise OSError, w')
    end.

Definition fake_account_with_user : M Account :=
  n <- draw ;; ret (faker E n).

(** *** Account commands *)

Definition account_add (context : Context) (name email test_type : string)
    (log : bool) : M unit :=
  let command :=
    assemble_command context (" account add --email " ++ email ++ " " ++ name) in
  try_except
    (completed_proc <- subprocess_run command ;;
     response <- lift (json_loads completed_proc) ;;
     state <- lift (py_get response "state") ;;
     if log then
       log_results_simple (JStr "enabled") state test_type "account_add"
         ("account: " ++ name ++ "; email: " ++ email ++ "; state: " ++ py_str E state)
     else ret tt)
    (fun e =>
       if log then
         log_explicit_failure test_type "account_add" ("failed to add account " ++ name)
       else ret tt).

Definition account_get (context : Context) (name test_type : string) : M unit :=
  let command := assemble_command context (" account get " ++ name) in
  try_except
    (completed_proc <- subprocess_run command ;;
     response <- lift (json_loads completed_proc) ;;
     state <- lift (py_get response "state") ;;
     log_results_simple (JStr "enabled") state test_type "account_get"
       ("account: " ++ name ++ "; state: " ++ py_str E state))
    (fun e =>
       log_explicit_failure test_type "account_get" ("failed to get account " ++ name)).

Definition account_del (context : Context) (name test_type : string) : M unit :=
  let command := assemble_command context (" account del --dontask " ++ name) in
  try_except
    (completed_proc <- subprocess_run command ;;
     response <- lift (json_loads completed_proc) ;;
     state <- lift (py_get response "state") ;;
     log_results_simple (JStr "deleting") state test_type "account_del"
       ("account: " ++ name ++ "; state: " ++ py_str E state))
    (fun e =>
       match e with
       | CalledProcessError _ out =>
           response <- lift (json_loads out) ;;
           message <- lift (py_get response "message") ;;
           if py_eq message
                (JStr "Invalid account state change requested. Cannot go from state enabled to state deleting")
           then
             log_results_simple (JStr "deleting") (JStr "enabled") test_type
               "account_del" ("could not delete account: " ++ name)
           else ret tt
       | _ =>
           log_explicit_failure test_type "account_del"
             ("failed to delete account " ++ name)
       end).

Definition account_user_add (context : Context)
    (account username userpass test_type : string) (log : bool) : M unit :=
  let command :=
    assemble_command context
      (" account user add --account " ++ account ++ " " ++ username ++ " " ++ userpass) in
  try_except
    (completed_proc <- subprocess_run command ;;
     response <- lift (json_loads completed_proc) ;;
     created <- lift (py_get response "created_at") ;;
     user <- lift (py_get response "username") ;;
     if log then
       if truthy created && truthy user then
         log_results_simple (JStr "ok") (JStr "ok") "positive" "account_user_add"
           ("user: " ++ py_str E user ++ " added at " ++ py_str E created)
       else
         log_results_simple (JStr "ok") (JStr "notok") "positive" "account_user_add"
           ("user not added; json response: " ++ py_str E response)
     else ret tt)
    (fun e =>
       if log then
         log_explicit_failure test_type "account_user_add"
           ("failed to add user " ++ username ++ " to account " ++ account)
       else ret tt).

Definition account_list (context : Context) (account_override : bool)
    (test_type : string) : M unit :=
  context <-
    (if account_override then
       acct <- fake_account_with_user ;;
       account_add context (account_name acct) (email acct) "positive" false ;;
       account_user_add context (account_name acct) (user acct) (passw acct)
         "positive" false ;;
       ret (mkContext (user acct) (passw acct) (ctx_api_url context))
     else ret context) ;;
  let command := assemble_command context " account list" in
  try_except
    (completed_proc <- subprocess_run command ;;
     response <- lift (json_loads completed_proc) ;;
     number_accounts <- lift (py_len response) ;;
     log_results_simple (JStr "ok") (JStr "ok") test_type "account_list"
       (str_nat number_accounts ++ " accounts found"))
    (fun e =>
       match e with
       | CalledProcessError _ out =>
           response <- lift (json_loads out) ;;
           if account_override then
             unauthorized <-
               (if py_eq response (JStr "Unauthorized") then ret true
                else httpcode <- lift (py_get response "httpcode") ;;
                     ret (py_eq httpcode (JInt 403))) ;;
             if (unauthorized : bool) then
               log_results_simple (JStr "ok") (JStr "notok") "negative"
                 "account_list" "non-admin user could not list accounts"
             else
               log_explicit_failure test_type "account_list" "failed to list accounts"
           else ret tt
       | _ => log_explicit_failure test_type "account_list" "failed to list accounts"
       end).

(** *** Image commands *)

(** The body of [for image in config.test_images] in [image_get]; [images]
    is the list the loop appends to. *)
Fixpoint image_get_loop (context : Context) (test_type : string)
    (return_images log : bool) (todo : list string) (images : list json)
    : M (list json) :=
  match todo with
  | [] => ret images
  | image :: rest =>
      let command := assemble_command context (" image get " ++ image) in
      images' <-
        try_except
          (completed_proc <- subprocess_run command ;;
           images' <-
             (if return_images then
                decoded <- lift (json_loads completed_proc) ;;
                ret (images ++ [decoded])%list
              else ret images) ;;
           (if log then
              log_results_simple (JStr "ok") (JStr "ok") test_type "image_get"
                ("got image " ++ image)
            else ret tt) ;;
           ret images')
          (fun e =>
             log_explicit_failure test_type "image_get"
               ("failed to get image " ++ image) ;;
             ret images) ;;
      image_get_loop context test_type return_images log rest images'
  end.

(** Returns [images] when [return_images] is set and [None] otherwise. *)
Definition image_get (context : Context) (test_type : string)
    (return_images log : bool) : M (option (list json)) :=
  images <- image_get_loop context test_type return_images log (test_images E) [] ;;
  if return_images then ret (Some images) else ret None.

Definition random_image_data (context : Context) : M json :=
  images <- image_get context "positive" true false ;;
  match images with
  | Some l => random_choice l
  | None => raise TypeError
  end.

(** [image_data[0]["image_detail"][0][field]] *)
Definition image_detail_field (image_data : json) (field : string) : result json :=
  rbind (py_index image_data 0) (fun first =>
  rbind (py_item first "image_detail") (fun details =>
  rbind (py_index details 0) (fun detail =>
  py_item detail field))).

(** The precondition step shared by the image scenarios: run [image wait]
    and tell whether it came back without an exception. *)
Definition wait_for_image (context : Context) (image : string) : M bool :=
  let wait_command := assemble_command context (" image wait " ++ image) in
  try_except (subprocess_run wait_command ;; ret true) (fun e => ret false).

(** The first [try] of the two archive scenarios: pick an image known to the
    service and read its name and digest. *)
Definition pick_archive_image (context : Context) (test_type action : string)
    : M (option (string * json)) :=
  try_except
    (image_data <- random_image_data context ;;
     repo <- lift (image_detail_field image_data "repo") ;;
     tag <- lift (image_detail_field image_data "tag") ;;
     let image := py_str E repo ++ ":" ++ py_str E tag in
     image_sha <- lift (image_detail_field image_data "digest") ;;
     ret (Some (image, image_sha)))
    (fun e =>
       log_explicit_failure test_type action ("error " ++ exn_str E e) ;;
       ret None).

Definition analysis_archive_images_add (context : Context) (test_type : string)
    : M unit :=
  picked <- pick_archive_image context test_type "analysis_archive_images_add" ;;
  match picked with
  | None => ret tt
  | Some (image, image_sha) =>
      ready <- wait_for_image context image ;;
      if ready then
        try_except
          (let command :=
             assemble_command context
               (" analysis-archive images add " ++ py_str E image_sha) in
           completed_proc <- subprocess_run command ;;
           response <- lift (json_loads completed_proc) ;;
           first <- lift (py_index response 0) ;;
           status <- lift (py_item first "status") ;;
           log_results_simple (JStr "archived") status test_type
             "analysis_archive_images_add" ("archived image " ++ image))
          (fun e => ret tt)
      else ret tt
  end.

Definition analysis_archive_images_del (context : Context) (test_type : string)
    : M unit :=
  picked <- pick_archive_image context test_type "analysis_archive_images_del" ;;
  match picked with
  | None => ret tt
  | Some (image, image_sha) =>
      ready <- wait_for_image context image ;;
      if ready then
        try_except
          (let command :=
             assemble_command context
               (" analysis-archive images del " ++ py_str E image_sha) in
           completed_proc <- subprocess_run command ;;
           response <- lift (json_loads completed_proc) ;;
           if negb (truthy response) then
             log_results_simple (JStr "ok") (JStr "ok") test_type
               "analysis_archive_images_del"
               ("deleted image " ++ image ++ " from archive")
           else ret tt)
          (fun e =>
             match e with
             | CalledProcessError _ out =>
                 response <- lift (json_loads out) ;;
                 status_code <- lift (py_get response "httpcode") ;;
                 message <- lift (py_get response "message") ;;
                 log_results_simple (JStr "ok") (JStr "ok") test_type
                   "analysis_archive_images_del"
                   ("Attempted to delete image " ++ image
                    ++ " from archive, but it was not in the archive; message: "
                    ++ py_str E status_code ++ " HTTP status code: "
                    ++ py_str E message)
             | _ => ret tt
             end)
      else ret tt
  end.

Definition evaluate_check (context : Context) (test_type : string) : M unit :=
  image <- random_choice (test_images E) ;;
  ready <- wait_for_image context image ;;
  if ready then
    try_except
      (let command := assemble_command context (" evaluate check " ++ image) in
       completed_proc <- subprocess_run command ;;
       response <- lift (json_loads completed_proc) ;;
       if negb (truthy response) then
         log_explicit_failure test_type "evaluate_check"
           ("could not evaluate image " ++ image)
       else
         log_results_simple (JStr "ok") (JStr "ok") test_type "evaluate_check"
           ("evaluated image " ++ image))
      (fun e => ret tt)
  else ret tt.

(** The body of [for content in response] in [image_content]. *)
Fixpoint image_content_loop (context : Context) (image content_type : string)
    (todo : list json) : M unit :=
  match todo with
  | [] => ret tt
  | content :: rest =>
      (if negb (content_type =? "all") && negb (py_eq content (JStr content_type))
       then ret tt
       else
         let command :=
           assemble_command context
             (" image content " ++ image ++ " " ++ py_str E content) in
         completed_proc <- subprocess_run command ;;
         response <- lift (json_loads completed_proc) ;;
         found <- lift (py_get response "content") ;;
         _ <- lift (py_len found) ;;
         ret tt) ;;
      image_content_loop context image content_type rest
  end.

Definition image_content (context : Context) (test_type content_type : string)
    : M unit :=
  image <- (if content_type =? "malware" then random_choice (malware_images E)
            else random_choice (test_images E)) ;;
  ready <- wait_for_image context image ;;
  if ready then
    tested <-
      try_except
        (let command := assemble_command context (" image content " ++ image) in
         completed_proc <- subprocess_run command ;;
         response <- lift (json_loads completed_proc) ;;
         if negb (truthy response) then
           log_explicit_failure test_type "image_content"
             ("no content types for image " ++ image) ;;
           ret false
         else
           contents <- lift (py_iter response) ;;
           image_content_loop context image content_type contents ;;
           ret true)
        (fun e => ret false) ;;
    if (tested : bool) then
      log_results_simple (JStr "ok") (JStr "ok") test_type "image_content"
        (content_type ++ " content type(s) tested successfully")
    else ret tt
  else ret tt.

Definition image_del (context : Context) (force : bool) (test_type : string)
    : M unit :=
  image <- random_choice (test_images E) ;;
  let command :=
    if force then assemble_command context (" image del --force " ++ image)
    else assemble_command context (" image del " ++ image) in
  ready <- wait_for_image context image ;;
  if ready then
    try_except
      (completed_proc <- subprocess_run command ;;
       response <- lift (json_loads completed_proc) ;;
       status <- lift (py_get response "status") ;;
       log_results_simple (JStr "deleting") status test_type "image_del"
         ("delete image " ++ image))
      (fun e =>
         match e with
         | CalledProcessError _ out =>
             response <- lift (json_loads out) ;;
             message <- lift (py_get response "message") ;;
             if py_eq message
                  (JStr "cannot delete image that is the latest of its tags, and has active subscription")
             then
               if force then
                 log_explicit_failure test_type "image_del"
                   ("could not delete image: " ++ image)
               else
                 log_results_simple (JStr "ok") (JStr "notok") test_type "image_del"
                   ("could not delete image without forcing: " ++ image ++ " (good)")
             else ret tt
         | _ => log_explicit_failure test_type "image_del" "failed to delete image"
         end)
  else ret tt.

(** The body of [for key in config.metadata_types] in [image_metadata];
    the result is the flag [failed]. *)
Fixpoint image_metadata_loop (context : Context) (test_type image : string)
    (response : json) (todo : list string) (failed : bool) : M bool :=
  match todo with
  | [] => ret failed
  | key :: rest =>
      present <- lift (py_contains key response) ;;
      failed <-
        (if negb present then
           log_explicit_failure test_type "image_metadata"
             (key ++ " metadata type was not found for " ++ image) ;;
           ret true
         else ret failed) ;;
      let subcommand :=
        assemble_command context (" image metadata " ++ image ++ " " ++ key) in
      sub_proc <- subprocess_run subcommand ;;
      sub_json <- lift (json_loads sub_proc) ;;
      m_type <- lift (py_item sub_json "metadata_type") ;;
      failed <-
        (if negb (truthy m_type) || negb (py_eq m_type (JStr key)) then
           log_explicit_failure test_type "image_metadata"
             (py_str E m_type ++ " was not expected metadata type " ++ key
              ++ " for image " ++ image) ;;
           ret true
         else ret failed) ;;
      image_metadata_loop context test_type image response rest failed
  end.

Definition image_metadata (context : Context) (test_type : string) : M unit :=
  image <- random_choice (test_images E) ;;
  let command := assemble_command context (" image metadata " ++ image) in
  ready <- wait_for_image context image ;;
  if ready then
    try_except
      (completed_proc <- subprocess_run command ;;
       response <- lift (json_loads completed_proc) ;;
       failed <- image_metadata_loop context test_type image response
                   (metadata_types E) false ;;
       if negb failed then
         log_results_simple (JStr "ok") (JStr "ok") test_type "image_metadata"
           "all expected metadata keys found"
       else ret tt)
      (fun e =>
         log_explicit_failure test_type "image_metadata"
           ("failed to get image metadata for " ++ image))
  else ret tt.

(** The body of [for key in config.vulnerability_types] in [image_vuln]. *)
Fixpoint image_vuln_loop (context : Context) (test_type image : string)
    (todo : list string) (failed : bool) : M bool :=
  match todo with
  | [] => ret failed
  | key :: rest =>
      let command :=
        assemble_command context (" image vuln " ++ image ++ " " ++ key) in
      completed_proc <- subprocess_run command ;;
      response <- lift (json_loads completed_proc) ;;
      vuln_type <- lift (py_get response "vulnerability_type") ;;
      vulnerabilities <- lift (py_get response "vulnerabilities") ;;
      num_vulns <- lift (py_len vulnerabilities) ;;
      failed <-
        (if negb (truthy vuln_type) || negb (py_eq vuln_type (JStr key)) then
           log_explicit_failure test_type "image_vuln"
             (py_str E vuln_type ++ " was not expected vuln type " ++ key
              ++ " for image " ++ image) ;;
           ret true
         else
           log_results_simple (JStr "ok") (JStr "ok") test_type "image_vuln"
             ("found " ++ str_nat num_vulns ++ " vuln of type " ++ key
              ++ " for image " ++ image) ;;
           ret failed) ;;
      image_vuln_loop context test_type image rest failed
  end.

Definition image_vuln (context : Context) (test_type : string) : M unit :=
  image <- random_choice (test_images E) ;;
  ready <- wait_for_image context image ;;
  if ready then
    try_except
      (failed <- image_vuln_loop context test_type image
                   (vulnerability_types E) false ;;
       if negb failed then
         log_results_simple (JStr "ok") (JStr "ok") test_type "image_vuln"
           "all expected metadata keys found"
       else ret tt)
      (fun e =>
         log_explicit_failure test_type "image_vuln"
           ("failed to get vuln data for image " ++ image))
  else ret tt.

Definition image_wait (context : Context) (timeout interval : Z)
    (test_type : string) : M unit :=
  image <- random_choice (test_images E) ;;
  let command :=
    assemble_command context
      (" image wait " ++ image ++ " --timeout " ++ str_int timeout
       ++ " --interval " ++ str_int interval) in
  ready <- wait_for_image context image ;;
  if ready then
    try_except
      (completed_proc <- subprocess_run command ;;
       response <- lift (json_loads completed_proc) ;;
       first <- lift (py_index response 0) ;;
       status <- lift (py_item first "analysis_status") ;;
       log_results_simple (JStr "analyzed") status test_type "image_wait"
         ("waited for image " ++ image))
      (fun e => ret tt)
  else ret tt.

(** [image_deletion]: the group run after the other image commands. *)
Definition image_deletion (context : Context) : M unit :=
  image_del context false "negative" ;;
  image_del context true "positive".

(** *** Subscription commands *)

(** Returns the subscription, or [None] when anything went wrong. *)
Definition subscription_get_one (context : Context) : M json :=
  let command := assemble_command context " subscription list" in
  try_except
    (completed_proc <- subprocess_run command ;;
     response <- lift (json_loads completed_proc) ;;
     sub <- random_choice_json response ;;
     ret sub)
    (fun e => ret JNull).

Definition subscription_list (context : Context) (test_type : string) : M unit :=
  let command := assemble_command context " subscription list" in
  try_except
    (completed_proc <- subprocess_run command ;;
     response <- lift (json_loads completed_proc) ;;
     number_subs <- lift (py_len response) ;;
     _ <- lift (py_iter response) ;;
     log_results_simple (JStr "ok") (JStr "ok") test_type "subscription_list"
       (str_nat number_subs ++ " subscriptions found"))
    (fun e =>
       log_explicit_failure test_type "subscription_list"
         "failed to list subscriptions").

Definition subscription_activate (context : Context) (test_type : string)
    : M unit :=
  sub <- subscription_get_one context ;;
  sub_key <- lift (py_item sub "subscription_key") ;;
  sub_type <- lift (py_item sub "subscription_type") ;;
  let command :=
    assemble_command context
      (" subscription activate " ++ py_str E sub_type ++ " " ++ py_str E sub_key) in
  try_except
    (completed_proc <- subprocess_run command ;;
     response <- lift (json_loads completed_proc) ;;
     first <- lift (py_index response 0) ;;
     sub_active <- lift (py_item first "active") ;;
     log_results_simple (JBool true) sub_active test_type "subscription_activate"
       ("subscription " ++ py_str E sub_type ++ "/" ++ py_str E sub_key
        ++ " should be active"))
    (fun e =>
       log_explicit_failure test_type "subscription_activate"
         "failed to activate subscription").

Definition subscription_deactivate (context : Context) (test_type : string)
    : M unit :=
  sub <- subscription_get_one context ;;
  sub_key <- lift (py_item sub "subscription_key") ;;
  sub_type <- lift (py_item sub "subscription_type") ;;
  let command :=
    assemble_command context
      (" subscription deactivate " ++ py_str E sub_type ++ " " ++ py_str E sub_key) in
  try_except
    (completed_proc <- subprocess_run command ;;
     response <- lift (json_loads completed_proc) ;;
     first <- lift (py_index response 0) ;;
     sub_active <- lift (py_item first "active") ;;
     log_results_simple (JBool false) sub_active test_type "subscription_deactivate"
       ("subscription " ++ py_str E sub_type ++ "/" ++ py_str E sub_key
        ++ " should not be active"))
    (fun e =>
       log_explicit_failure test_type "subscription_deactivate"
         "failed to deactivate subscription").

Definition subscription (context : Context) : M unit :=
  subscription_list context "positive" ;;
  subscription_activate context "positive" ;;
  subscription_deactivate context "positive".

(** *** System commands *)

(** Returns the decoded list of feeds when [return_feeds] is set and
    nothing went wrong, and [None] otherwise.  With [log] set, the debug
    listing subscripts every feed and group before the record is filed. *)
Definition system_feeds_list (context : Context) (test_type : string)
    (return_feeds log : bool) : M json :=
  let command := assemble_command context " system feeds list" in
  try_except
    (completed_proc <- subprocess_run command ;;
     response <- lift (json_loads completed_proc) ;;
     (if log then
        _ <- lift (py_index response 0) ;;
        feeds <- lift (py_iter response) ;;
        for_each feeds (fun feed =>
          _ <- lift (py_item feed "name") ;;
          groups <- lift (rbind (py_item feed "groups") py_iter) ;;
          for_each groups (fun group =>
            _ <- lift (py_item group "name") ;;
            _ <- lift (py_item group "record_count") ;;
            ret tt))
      else ret tt) ;;
     number_feeds <- lift (py_len response) ;;
     (if log then
        log_results_simple (JStr "ok") (JStr "ok") test_type "system_feeds_list"
          (str_nat number_feeds ++ " feeds found")
      else ret tt) ;;
     if return_feeds then ret response else ret JNull)
    (fun e =>
       (if log then
          log_explicit_failure test_type "system_feeds_list" "failed to list feeds"
        else ret tt) ;;
       ret JNull).

(** The inner loop [for group in feed["groups"]] with its [break]: [stop]
    is the test that breaks, [group] the loop variable as bound so far
    ([None] while it has never been assigned).  The result is the variable
    after the loop. *)
Fixpoint scan_groups (stop : json -> bool) (groups : list json)
    (group : option json) : result (option json) :=
  match groups with
  | [] => Ok group
  | g :: rest =>
      rbind (py_item g "enabled") (fun enabled =>
      if stop enabled then Ok (Some g) else scan_groups stop rest (Some g))
  end.

(** The outer loop [for feed in feeds]; it has no [break] of its own, so it
    always runs to the last feed.  The result is the pair of loop variables
    after the loops. *)
Fixpoint scan_feeds (stop : json -> bool) (feeds : list json)
    (feed group : option json) : result (option json * option json) :=
  match feeds with
  | [] => Ok (feed, group)
  | f :: rest =>
      rbind (py_item f "groups") (fun found =>
      rbind (py_iter found) (fun groups =>
      rbind (scan_groups stop groups group) (fun group' =>
      scan_feeds stop rest (Some f) group')))
  end.

(** Reading a local variable: an unassigned one raises. *)
Definition read_local (name : string) (v : option json) : result json :=
  match v with
  | Some j => Ok j
  | None => Raise (UnboundLocalError name)
  end.

Definition system_feeds_config_toggle (context : Context) (test_type : string)
    (enable : bool) : M unit :=
  let action := if enable then "enabling" else "disabling" in
  let looking_for := if enable then "disabled" else "enabled" in
  let end_state := if enable then "enabled" else "disabled" in
  let toggle_flag := if enable then "--enable" else "--disable" in
  feeds <- system_feeds_list context "positive" true false ;;
  if negb (truthy feeds) then
    log_explicit_failure test_type "system_feeds_config_toggle" "No feeds available"
  else
    feed_list <- lift (py_iter feeds) ;;
    vars <- lift (scan_feeds (fun enabled => negb (py_eq enabled (JBool enable)))
                    feed_list None None) ;;
    let '(feed, group) := vars in
    group_value <- lift (read_local "group" group) ;;
    enabled <- lift (py_item group_value "enabled") ;;
    if py_eq enabled (JBool enable) then
      log_explicit_failure test_type "system_feeds_config_toggle"
        ("failed to find a " ++ looking_for ++ " group in any feed")
    else
      feed_value <- lift (read_local "feed" feed) ;;
      feed_name <- lift (py_item feed_value "name") ;;
      group_name <- lift (py_item group_value "name") ;;
      let command :=
        assemble_command context
          (" system feeds config --group " ++ py_str E group_name ++ " "
           ++ toggle_flag ++ " " ++ py_str E feed_name) in
      try_except
        (completed_proc <- subprocess_run command ;;
         response <- lift (json_loads completed_proc) ;;
         first <- lift (py_index response 0) ;;
         now_enabled <- lift (py_item first "enabled") ;;
         if py_eq now_enabled (JBool enable) then
           log_results_simple (JStr "ok") (JStr "ok") test_type
             "system_feeds_config_toggle"
             (end_state ++ " feed " ++ py_str E feed_name ++ " group "
              ++ py_str E group_name)
         else
           log_explicit_failure test_type "system_feeds_config_toggle"
             ("failed " ++ action ++ " feed " ++ py_str E feed_name ++ " group "
              ++ py_str E group_name))
        (fun e =>
           log_explicit_failure test_type "system_feeds_config_toggle"
             ("failed " ++ action ++ " feed/group")).

(** In the handler the message is built from [action], a name this function
    never assigns and the module does not define: building it raises. *)
Definition system_feeds_delete (context : Context) (test_type : string) : M unit :=
  feeds <- system_feeds_list context "positive" true false ;;
  if negb (truthy feeds) then
    log_explicit_failure test_type "system_feeds_delete" "No feeds available"
  else
    feed_list <- lift (py_iter feeds) ;;
    vars <- lift (scan_feeds (fun enabled => py_eq enabled (JBool false))
                    feed_list None None) ;;
    let '(feed, group) := vars in
    feed_value <- lift (read_local "feed" feed) ;;
    feed_name <- lift (py_item feed_value "name") ;;
    group_value <- lift (read_local "group" group) ;;
    group_name <- lift (py_item group_value "name") ;;
    let command :=
      assemble_command context
        (" system feeds delete --group " ++ py_str E group_name ++ " "
         ++ py_str E feed_name) in
    try_except
      (completed_proc <- subprocess_run command ;;
       response <- lift (json_loads completed_proc) ;;
       first <- lift (py_index response 0) ;;
       enabled <- lift (py_item first "enabled") ;;
       if py_eq enabled (JBool false) then
         log_results_simple (JStr "ok") (JStr "ok") test_type "system_feeds_delete"
           ("Deleted feed " ++ py_str E feed_name ++ " group " ++ py_str E group_name)
       else
         log_explicit_failure test_type "system_feeds_delete"
           ("Failed deleting feed " ++ py_str E feed_name ++ " group "
            ++ py_str E group_name))
      (fun e => raise (NameError "action")).

Definition system_wait (context : Context) (log : bool) : M unit :=
  image <- random_choice (test_images E) ;;
  let wait := default_system_wait_timeout E in
  let interval := default_system_wait_interval E in
  let command :=
    assemble_command context
      (" system wait --timeout " ++ str_int wait ++ " --interval " ++ str_int interval) in
  try_except
    (_ <- subprocess_run command ;;
     if log then
       log_results_simple (JStr "ok") (JStr "ok") "positive" "system_wait"
         "waited for system"
     else ret tt)
    (fun e => ret tt).

(** *** Registry commands *)

(** ["{0}".format(os.getenv(name))]: an unset variable prints as [None]. *)
Definition str_getenv (name : string) : string :=
  match getenv E name with Some v => v | None => "None" end.

(** [registry_add] has no [test_type] parameter and the module defines no
    such name: the call that mentions it raises before anything is filed. *)
Definition registry_add (context : Context) : M unit :=
  let reg := str_getenv "REGISTRY_URL" in
  let reg_user := str_getenv "REGISTRY_USER" in
  let reg_token := str_getenv "REGISTRY_TOKEN" in
  let command :=
    assemble_command context
      (" registry add " ++ reg ++ " " ++ reg_user ++ " " ++ reg_token) in
  try_except
    (completed_proc <- subprocess_run command ;;
     response <- lift (json_loads completed_proc) ;;
     first <- lift (py_index response 0) ;;
     reg_name <- lift (py_item first "registry_name") ;;
     _ <- lift (rbind (py_index response 0) (fun r => py_item r "registry_type")) ;;
     _ <- lift (rbind (py_index response 0) (fun r => py_item r "registry_user")) ;;
     log_results_simple (JStr "ok") (JStr "ok") "positive" "registry_add"
       ("added registry " ++ py_str E reg_name))
    (fun e =>
       match e with
       | CalledProcessError _ out =>
           response <- lift (json_loads out) ;;
           message <- lift (py_get response "message") ;;
           if py_eq message (JStr "registry already exists in DB") then
             log_results_simple (JStr "ok") (JStr "notok") "negative" "registry_add"
               ("registry " ++ reg ++ " already exists")
           else raise (NameError "test_type")
       | _ => ret tt
       end).

(** *** The entry point *)

(** [run_cli_driver] with a command on the command line: [func] is the
    module function that [getattr] finds under that name. *)
Definition run_cli_driver (func : Context -> M unit) (context : Context) : M unit :=
  system_wait context false ;;
  func context ;;
  log_results_summary.

End Driver.

(** ** The ledger as the specification speaks of it *)

Inductive bucket : Type :=
| PositivePass
| PositiveFail
| NegativePass
| NegativeFail.

Definition bucket_of (b : bucket) (l : Ledger) : list string :=
  match b with
  | PositivePass => positive_pass l
  | PositiveFail => positive_fail l
  | NegativePass => negative_pass l
  | NegativeFail => negative_fail l
  end.

(** One record appended to one bucket, the other three untouched. *)
Definition file (b : bucket) (r : string) (l : Ledger) : Ledger :=
  match b with
  | PositivePass =>
      mkLedger (positive_pass l ++ [r]) (positive_fail l) (negative_pass l) (negative_fail l)
  | PositiveFail =>
      mkLedger (positive_pass l) (positive_fail l ++ [r]) (negative_pass l) (negative_fail l)
  | NegativePass =>
      mkLedger (positive_pass l) (positive_fail l) (negative_pass l ++ [r]) (negative_fail l)
  | NegativeFail =>
      mkLedger (positive_pass l) (positive_fail l) (negative_pass l) (negative_fail l ++ [r])
  end.

Definition filed (b : bucket) (r : string) (w : World) : World :=
  mkWorld (file b r (ledger w)) (calls w) (entropy w).

(** Number of records in the four buckets together. *)
Definition total (l : Ledger) : nat :=
  (length (positive_pass l) + length (positive_fail l)
   + length (negative_pass l) + length (negative_fail l))%nat.

(** The fail bucket of a declared polarity. *)
Definition fail_bucket (test_type : string) : bucket :=
  if test_type =? "positive" then PositiveFail else NegativeFail.

(** A failure no plain scenario anticipates: the process did not start, it
    exited with a non-zero code, or its output does not decode. *)
Definition unanticipated_failure (p : proc_result) : bool :=
  match p with
  | Exited 0 (Decodes _) => false
  | _ => true
  end.

(** The command of the readiness poll. *)
Definition wait_command (E : Env) (context : Context) (image : string) : string :=
  assemble_command E context (" image wait " ++ image).

(** The readiness poll of the image scenarios fails when [image wait] does
    not come back with return code 0. *)
Definition poll_fails (E : Env) (context : Context) (history : list string)
    (image : string) : bool :=
  match tool E history (wait_command E context image) with
  | Exited 0 _ => false
  | _ => true
  end.

(** The world with one more command on record. *)
Definition called (command : string) (w : World) : World :=
  mkWorld (ledger w) (calls w ++ [command]) (entropy w).

(** ** Payloads and fixtures for concrete runs *)

(** Feeds and their groups, by what the scans read of them. *)
Record Group : Type := mkGroup { group_name : string; group_enabled : bool }.
Record Feed : Type := mkFeed { feed_name : string; feed_groups : list Group }.

(** A listing cut down to the keys the scans read. *)
Definition group_json (g : Group) : json :=
  JDict [("name", JStr (group_name g)); ("enabled", JBool (group_enabled g))].

Definition feed_json (f : Feed) : json :=
  JDict [("name", JStr (feed_name f));
         ("groups", JList (map group_json (feed_groups f)))].

(** A rendering for the runs below; it is Python's [str] on the scalars,
    and no container is rendered in these runs. *)
Definition scalar_str (j : json) : string :=
  match j with
  | JNull => "None"
  | JBool true => "True"
  | JBool false => "False"
  | JInt n => str_int n
  | JStr s => s
  | JList _ => ""
  | JDict _ => ""
  end.

Definition env_of (images : list string) (t : list string -> string -> proc_result)
    : Env :=
  mkEnv "cli" images [] [] [] (-1) 5 t scalar_str (fun _ => "error")
        (fun _ => mkAccount "acme" "alice" "alice@example.com" "secret")
        (fun _ => None).

Definition admin : Context := mkContext "admin" "foobar" "http://localhost/v1".

Definition fresh : World := mkWorld empty_ledger [] [].

(** Tools for the runs: each answers by the sub-command it is asked for. *)

(** Every command succeeds with an empty object, except that [account del]
    is rejected with the given body. *)
Definition account_del_rejected (body : stdout) : list string -> string -> proc_result :=
  fun _ command =>
    if is_substring " account del " command then Exited 1 body
    else Exited 0 (Decodes (JDict [])).

(** The message [account_del] looks for in a rejection. *)
Definition state_change_message : string :=
  "Invalid account state change requested. Cannot go from state enabled to state deleting".

Definition state_change_body : stdout :=
  Decodes (JDict [("message", JStr state_change_message); ("httpcode", JInt 400)]).

Definition not_found_body : stdout :=
  Decodes (JDict [("message", JStr "Account not found"); ("httpcode", JInt 404)]).

(** [account list] is rejected with a structured body. *)
Definition account_list_rejected : list string -> string -> proc_result :=
  fun _ command =>
    if is_substring " account list" command
    then Exited 1 (Decodes (JDict [("message", JStr "Internal error"); ("httpcode", JInt 500)]))
    else Exited 0 (Decodes (JDict [])).

(** [image wait] succeeds and [image del] dies without printing JSON. *)
Definition image_del_crashes : list string -> string -> proc_result :=
  fun _ command =>
    if is_substring " image del " command then Exited 2 Undecodable
    else Exited 0 (Decodes (JDict [])).

(** [subscription list] is down; everything else answers. *)
Definition subscription_list_down : list string -> string -> proc_result :=
  fun _ command =>
    if is_substring " subscription list" command then Exited 1 Undecodable
    else Exited 0 (Decodes (JDict [])).

(** [registry add] is rejected for a reason other than a duplicate. *)
Definition registry_add_rejected : list string -> string -> proc_result :=
  fun _ command =>
    if is_substring " registry add " command
    then Exited 1 (Decodes (JDict [("message", JStr "bad credentials")]))
    else Exited 0 (Decodes (JDict [])).

(** [image get] knows the first image only, and [image wait] fails. *)
Definition one_image_known : list string -> string -> proc_result :=
  fun _ command =>
    if is_substring " image get alpine" command then
      Exited 0 (Decodes (JList [JDict [("image_detail",
        JList [JDict [("repo", JStr "alpine"); ("tag", JStr "latest");
                      ("digest", JStr "sha256:0")]])]]))
    else Exited 1 Undecodable.

(** [system feeds list] answers with the given feeds, cut down; any other
    command succeeds with a one-element list. *)
Definition feeds_are (feeds : list Feed) : list string -> string -> proc_result :=
  fun _ command =>
    if is_substring " system feeds list" command
    then Exited 0 (Decodes (JList (map feed_json feeds)))
    else Exited 0 (Decodes (JList [JDict [("enabled", JBool false)]])).

(** [image wait] comes back and [evaluate check] is rejected. *)
Definition evaluate_check_rejected : list string -> string -> proc_result :=
  fun _ command =>
    if is_substring " evaluate check " command
    then Exited 1 (Decodes (JDict [("message", JStr "Internal error"); ("httpcode", JInt 500)]))
    else Exited 0 (Decodes (JDict [])).

(** Every command fails. *)
Definition nothing_works : list string -> string -> proc_result :=
  fun _ _ => Exited 1 Undecodable.

(** ** The feed and group a scan of the listing ends on *)

(** The loop variable [group] after [for group in feed["groups"]] with a
    [break] on the first disabled group: that group, or the last group when
    none is disabled, or what it was before when the feed has no group. *)
Fixpoint after_groups (groups : list Group) (group : option Group) : option Group :=
  match groups with
  | [] => group
  | g :: rest => if group_enabled g then after_groups rest (Some g) else Some g
  end.

(** The loop variables [feed] and [group] after the two nested loops. *)
Fixpoint after_feeds (feeds : list Feed) (feed : option Feed) (group : option Group)
    : option Feed * option Group :=
  match feeds with
  | [] => (feed, group)
  | f :: rest => after_feeds rest (Some f) (after_groups (feed_groups f) group)
  end.

(** The command [system_feeds_delete] builds for a feed and a group. *)
Definition feeds_delete_command (E : Env) (context : Context) (f : Feed) (g : Group)
    : string :=
  assemble_command E context
    (" system feeds delete --group " ++ py_str E (JStr (group_name g)) ++ " "
     ++ py_str E (JStr (feed_name f))).

(** A computation that runs no command: the record of calls is as before. *)
Definition keeps_calls {A : Type} (m : M A) : Prop :=
  forall w, calls (snd (m w)) = calls w.

(** A computation that files nothing: the ledger is as before. *)
Definition keeps_ledger {A : Type} (m : M A) : Prop :=
  forall w, ledger (snd (m w)) = ledger w.

(** A computation whose exceptions are all instances of [Exception], so
    that [except Exception] stops them. *)
Definition raises_only_exceptions {A : Type} (m : M A) : Prop :=
  forall w e w', m w = (Raise e, w') -> is_Exception e = true.

Definition fails_only_with_exceptions {A : Type} (r : result A) : Prop :=
  forall e, r = Raise e -> is_Exception e = true.

(** The outcome of a scenario that was skipped at its poll, seen from the
    world [w] in which it started: it returned, the ledger is the one of
    [w], and the one command run since is the poll for one of [images]. *)
Definition skipped_at_poll (E : Env) (context : Context) (images : list string)
    (w : World) (outcome : result unit * World) : Prop :=
  fst outcome = Ok tt
  /\ ledger (snd outcome) = ledger w
  /\ exists image, In image images
       /\ calls (snd outcome) = (calls w ++ [wait_command E context image])%list.

(** The same for the two archive scenarios, seen from the outcome [prepared]
    of their first step, which picks the image: the scenario returned, the
    ledger is as that step left it, and the poll for the picked image is the
    one command run since (none when no image could be picked). *)
Definition skipped_after_pick (E : Env) (context : Context)
    (prepared : result (option (string * json)) * World)
    (outcome : result unit * World) : Prop :=
  fst outcome = Ok tt
  /\ ledger (snd outcome) = ledger (snd prepared)
  /\ calls (snd outcome)
     = (calls (snd prepared)
        ++ match fst prepared with
           | Ok (Some (image, _)) => [wait_command E context image]
           | _ => []
           end)%list.

(** The images [image_content] chooses from. *)
Definition content_images (E : Env) (content_type : string) : list string :=
  if content_type =? "malware" then malware_images E else test_images E.

(** The record [image_get] files when it cannot get an image. *)
Definition image_get_failure (r : string) : Prop :=
  exists image, r = record_text "image_get" ("failed to get image " ++ image).

(** A ledger with more positive-fail records and nothing else changed. *)
Definition with_positive_fails (failed : list string) (l : Ledger) : Ledger :=
  mkLedger (positive_pass l) (positive_fail l ++ failed)
           (negative_pass l) (negative_fail l).

(** An archive scenario skipped at its poll: if the poll for the picked
    image fails, the scenario ends as [skipped_after_pick] says, and when an
    image was picked the ledger differs from the one of [w] by the failures
    of [image_get] alone. *)
Definition archive_skipped_at_poll (E : Env) (context : Context)
    (test_type action : string) (scenario : M unit) (w : World) : Prop :=
  match pick_archive_image E context test_type action w with
  | (Ok (Some (image, _)), w1) => poll_fails E context (calls w1) image = true
  | _ => True
  end ->
  skipped_after_pick E context
    (pick_archive_image E context test_type action w) (scenario w)
  /\ forall picked w1,
       pick_archive_image E context test_type action w = (Ok (Some picked), w1) ->
       exists failed,
         Forall image_get_failure failed
         /\ ledger (snd (scenario w)) = with_positive_fails failed (ledger w).

(** ** The rest of the catalog *)

(** The scenario functions that the sections above leave out.  Three more
    lists of the configuration module come in as parameters, and
    [root_context] is the module-level dictionary that [run_cli_driver]
    fills and the account group copies from. *)

Section Catalog.

Variable E : Env.
Variable repositories : list string.
Variable registries : list string.
Variable clean_images : list string.
Variable root_context : Context.

(** *** Account commands *)

Definition account_disable (context : Context) (name test_type : string) : M unit :=
  let command := assemble_command E context (" account disable " ++ name) in
  try_except
    (completed_proc <- subprocess_run E command ;;
     response <- lift (json_loads completed_proc) ;;
     state <- lift (py_get response "state") ;;
     log_results_simple (JStr "disabled") state test_type "account_disable"
       ("account: " ++ name ++ "; state: " ++ py_str E state))
    (fun e =>
       log_explicit_failure test_type "account_disable"
         ("failed to disable account " ++ name)).

Definition account_enable (context : Context) (name test_type : string) : M unit :=
  let command := assemble_command E context (" account enable " ++ name) in
  try_except
    (completed_proc <- subprocess_run E command ;;
     response <- lift (json_loads completed_proc) ;;
     state <- lift (py_get response "state") ;;
     log_results_simple (JStr "enabled") state test_type "account_enable"
       ("account: " ++ name ++ "; state: " ++ py_str E state))
    (fun e =>
       log_explicit_failure test_type "account_enable"
         ("failed to enable account " ++ name)).

(** The set-up shared by the account user scenarios and [account_whoami]:
    a fake account, added with a user, both without logging. *)
Definition add_fake_account_with_user (context : Context) : M Account :=
  acct <- fake_account_with_user E ;;
  account_add E context (account_name acct) (email acct) "positive" false ;;
  account_user_add E context (account_name acct) (user acct) (passw acct)
    "positive" false ;;
  ret acct.

Definition account_user_list (context : Context) (test_type : string) : M unit :=
  let command := assemble_command E context " account user list" in
  (* case 1: default user list *)
  try_except
    (completed_proc <- subprocess_run E command ;;
     response <- lift (json_loads completed_proc) ;;
     number_users <- lift (py_len response) ;;
     if (0 <? number_users)%nat then
       log_results_simple (JStr "ok") (JStr "ok") test_type "account_user_list"
         (str_nat number_users ++ " users found")
     else
       log_results_simple (JStr "ok") (JStr "notok") "positive" "account_user_list"
         "no users found")
    (fun e =>
       log_explicit_failure test_type "account_user_list" "failed list users w/admin") ;;
  (* case 2: user list for account w/no users; the name and the email
     come from a [Faker] of their own, here one draw *)
  try_except
    (named <- fake_account_with_user E ;;
     account_add E context (account_name named) (email named) "positive" false ;;
     let command :=
       assemble_command E context
         (" account user list --account " ++ account_name named) in
     completed_proc <- subprocess_run E command ;;
     response <- lift (json_loads completed_proc) ;;
     number_users <- lift (py_len response) ;;
     if negb (0 <? number_users)%nat then
       log_results_simple (JStr "ok") (JStr "notok") "negative" "account_user_list"
         "no users found (good)"
     else
       log_results_simple (JStr "ok") (JStr "notok") "positive" "account_user_list"
         (str_nat number_users ++ " users found"))
    (fun e =>
       log_explicit_failure test_type "account_user_list"
         "failed to list users w/admin for account w/no users") ;;
  (* case 3: user list for account with users *)
  try_except
    (acct <- add_fake_account_with_user context ;;
     let command :=
       assemble_command E context
         (" account user list --account " ++ account_name acct) in
     completed_proc <- subprocess_run E command ;;
     response <- lift (json_loads completed_proc) ;;
     number_users <- lift (py_len response) ;;
     if (0 <? number_users)%nat then
       log_results_simple (JStr "ok") (JStr "ok") "positive" "account_user_list"
         (str_nat number_users ++ " users found")
     else
       log_results_simple (JStr "ok") (JStr "notok") "positive" "account_user_list"
         "no users found")
    (fun e =>
       log_explicit_failure test_type "account_user_list"
         "failed to list users w/admin for account w/a user") ;;
  (* case 4: list users in an account, using a non-admin user *)
  _ <- add_fake_account_with_user context ;;
  acct <- fake_account_with_user E ;;
  let context := mkContext (user acct) (passw acct) (ctx_api_url context) in
  let command :=
    assemble_command E context
      (" account user list --account " ++ account_name acct) in
  try_except
    (completed_proc <- subprocess_run E command ;;
     response <- lift (json_loads completed_proc) ;;
     number_users <- lift (py_len response) ;;
     log_results_simple (JStr "ok") (JStr "ok") "negative" "account_user_list"
       (str_nat number_users ++ " users found - but should have thrown an exception"))
    (fun e =>
       match e with
       | CalledProcessError _ out =>
           response <- lift (json_loads out) ;;
           unauthorized <-
             (if py_eq response (JStr "Unauthorized") then ret true
              else httpcode <- lift (py_get response "httpcode") ;;
                   ret (py_eq httpcode (JInt 403))) ;;
           if (unauthorized : bool) then
             log_results_simple (JStr "ok") (JStr "notok") "negative"
               "account_user_list" "Non-admin user could not list accounts (good)"
           else ret tt
       | _ =>
           log_explicit_failure test_type "account_user_list"
             "failed to list users w/a non admin user"
       end).

Definition account_user_del (context : Context) (test_type : string) : M unit :=
  acct <- add_fake_account_with_user context ;;
  let command :=
    assemble_command E context
      (" account user del --account " ++ account_name acct ++ " " ++ user acct) in
  try_except
    (_ <- subprocess_run E command ;;
     log_results_simple (JStr "ok") (JStr "ok") "positive" "account_user_del"
       ("user " ++ user acct ++ " deleted from account " ++ account_name acct))
    (fun e =>
       log_explicit_failure test_type "account_user_del"
         ("failed to del user " ++ user acct)).

Definition account_user_get (context : Context) (test_type : string) : M unit :=
  acct <- add_fake_account_with_user context ;;
  let command :=
    assemble_command E context
      (" account user get --account " ++ account_name acct ++ " " ++ user acct) in
  try_except
    (_ <- subprocess_run E command ;;
     log_results_simple (JStr "ok") (JStr "ok") "positive" "account_user_get"
       ("got user " ++ user acct ++ " from account " ++ account_name acct))
    (fun e =>
       log_explicit_failure test_type "account_user_get"
         ("failed to get user " ++ user acct)).

Definition account_user_setpassword (context : Context) (test_type : string)
    : M unit :=
  acct <- add_fake_account_with_user context ;;
  let command :=
    assemble_command E context
      (" account user setpassword --account " ++ account_name acct
       ++ " --username " ++ user acct ++ " " ++ passw acct) in
  try_except
    (_ <- subprocess_run E command ;;
     log_results_simple (JStr "ok") (JStr "ok") "positive" "account_user_setpassword"
       ("set password of user " ++ user acct ++ " from account " ++ account_name acct))
    (fun e =>
       log_explicit_failure test_type "account_user_setpassword"
         ("failed to set password of user " ++ user acct)).

Definition account_whoami (context : Context) (test_type : string) : M unit :=
  _ <- add_fake_account_with_user context ;;
  let command := assemble_command E context " account whoami" in
  try_except
    (_ <- subprocess_run E command ;;
     log_results_simple (JStr "ok") (JStr "ok") "positive" "account_whoami"
       "account whoami called successfully")
    (fun e =>
       log_explicit_failure test_type "account_whoami" "failed to call account whoami").

(** After [account_user_list] the context is a fresh copy of
    [root_context]. *)
Definition account_user (context : Context) (test_type : string) : M unit :=
  account_user_list context test_type ;;
  let context := root_context in
  acct <- fake_account_with_user E ;;
  account_add E context (account_name acct) (email acct) test_type true ;;
  account_user_add E context (account_name acct) (user acct) (passw acct)
    test_type true ;;
  account_user_del context test_type ;;
  account_user_get context test_type ;;
  account_user_setpassword context test_type.

(** The account group.  The name and the email come from a [Faker] of
    their own, here one draw.  [account_list] with [account_override]
    rewrites the entries of the dictionary it is given; the copies of
    [root_context] taken right after discard that. *)
Definition account (context : Context) : M unit :=
  named <- fake_account_with_user E ;;
  let account_name := account_name named in
  let account_email := email named in
  account_add E context account_name account_email "positive" true ;;
  account_get E context account_name "positive" ;;
  account_disable context account_name "positive" ;;
  account_enable context account_name "positive" ;;
  account_del E context account_name "negative" ;;
  account_disable context account_name "positive" ;;
  account_del E context account_name "positive" ;;
  account_list E context false "positive" ;;
  account_list E context true "negative" ;;
  let context := root_context in
  account_user context "positive" ;;
  let context := root_context in
  account_whoami context "positive".

(** *** Image commands *)

Fixpoint image_add_loop (context : Context) (test_type : string)
    (todo : list string) : M unit :=
  match todo with
  | [] => ret tt
  | image :: rest =>
      let command := assemble_command E context (" image add " ++ image) in
      try_except
        (completed_proc <- subprocess_run E command ;;
         response <- lift (json_loads completed_proc) ;;
         first <- lift (py_index response 0) ;;
         image_status <- lift (py_item first "image_status") ;;
         log_results_simple image_status (JStr "active") test_type "image_add"
           ("added image " ++ image))
        (fun e =>
           log_explicit_failure test_type "image_add"
             ("failed to add image " ++ image)) ;;
      image_add_loop context test_type rest
  end.

Definition image_add (context : Context) (test_type : string) : M unit :=
  image_add_loop context test_type
    (test_images E ++ malware_images E ++ clean_images)%list.

Definition image_list (context : Context) (test_type : string) : M unit :=
  let command := assemble_command E context " image list" in
  try_except
    (completed_proc <- subprocess_run E command ;;
     response <- lift (json_loads completed_proc) ;;
     number_images <- lift (py_len response) ;;
     log_results_simple (JStr "ok") (JStr "ok") test_type "image_list"
       (str_nat number_images ++ " images found"))
    (fun e => log_explicit_failure test_type "image_list" "failed to list images").

(** The image group, image deletion apart. *)
Definition image (context : Context) : M unit :=
  image_add context "positive" ;;
  image_wait E context (-1) 5 "positive" ;;
  _ <- image_get E context "positive" false true ;;
  image_content E context "positive" "all" ;;
  image_content E context "positive" "malware" ;;
  image_metadata E context "positive" ;;
  image_list context "positive" ;;
  image_vuln E context "positive".

(** *** Analysis archive and evaluate *)

(** [analysis_archive_images_get], [..._list] and [..._restore], and the four
    [analysis_archive_rules] functions, are [pass]. *)
Definition analysis_archive_images (context : Context) : M unit :=
  analysis_archive_images_add E context "positive" ;;
  analysis_archive_images_del E context "positive".

Definition analysis_archive (context : Context) : M unit :=
  analysis_archive_images context.

Definition evaluate (context : Context) : M unit :=
  evaluate_check E context "positive".

(** *** Repo commands *)

Fixpoint repo_add_loop (context : Context) (test_type : string)
    (todo : list string) : M unit :=
  match todo with
  | [] => ret tt
  | repo :: rest =>
      let command := assemble_command E context (" repo add " ++ repo) in
      try_except
        (completed_proc <- subprocess_run E command ;;
         response <- lift (json_loads completed_proc) ;;
         first <- lift (py_index response 0) ;;
         _ <- lift (py_item first "active") ;;
         log_results_simple (JStr "ok") (JStr "ok") test_type "repo_add"
           ("added repo " ++ repo))
        (fun e =>
           log_explicit_failure test_type "repo_add" ("failed to add repo " ++ repo)) ;;
      repo_add_loop context test_type rest
  end.

Definition repo_add (context : Context) (test_type : string) : M unit :=
  repo_add_loop context test_type repositories.

Fixpoint repo_get_loop (context : Context) (test_type : string)
    (todo : list string) : M unit :=
  match todo with
  | [] => ret tt
  | repo :: rest =>
      let command := assemble_command E context (" repo get " ++ repo) in
      try_except
        (completed_proc <- subprocess_run E command ;;
         response <- lift (json_loads completed_proc) ;;
         first <- lift (py_index response 0) ;;
         repo_active <- lift (py_item first "active") ;;
         log_results_simple (JStr "ok") (JStr "ok") test_type "repo_get"
           ("repo " ++ repo ++ " status: " ++ py_str E repo_active))
        (fun e =>
           log_explicit_failure test_type "repo_get" ("failed to get repo " ++ repo)) ;;
      repo_get_loop context test_type rest
  end.

Definition repo_get (context : Context) (test_type : string) : M unit :=
  repo_get_loop context test_type repositories.

Definition repo_list (context : Context) (test_type : string) : M unit :=
  let command := assemble_command E context " repo list" in
  try_except
    (completed_proc <- subprocess_run E command ;;
     response <- lift (json_loads completed_proc) ;;
     number_repos <- lift (py_len response) ;;
     log_results_simple (JStr "ok") (JStr "ok") test_type "repo_list"
       (str_nat number_repos ++ " repos found"))
    (fun e => log_explicit_failure test_type "repo_list" "failed to list repos").

Definition repo_unwatch (context : Context) (test_type : string) : M unit :=
  repo <- random_choice repositories ;;
  let command := assemble_command E context (" repo unwatch " ++ repo) in
  try_except
    (completed_proc <- subprocess_run E command ;;
     response <- lift (json_loads completed_proc) ;;
     first <- lift (py_index response 0) ;;
     repo_active <- lift (py_item first "active") ;;
     log_results_simple (JBool false) repo_active test_type "repo_unwatch"
       ("repo " ++ repo ++ " unwatched"))
    (fun e => log_explicit_failure test_type "repo_unwatch" "failed to unwatch repo").

Definition repo_watch (context : Context) (test_type : string) : M unit :=
  repo <- random_choice repositories ;;
  let command := assemble_command E context (" repo watch " ++ repo) in
  try_except
    (completed_proc <- subprocess_run E command ;;
     response <- lift (json_loads completed_proc) ;;
     first <- lift (py_index response 0) ;;
     repo_active <- lift (py_item first "active") ;;
     log_results_simple (JBool true) repo_active test_type "repo_watch"
       ("repo " ++ repo ++ " watched"))
    (fun e => log_explicit_failure test_type "repo_watch" "failed to watch repo").

(** *** System commands *)

(** The body of [for service in response.get("service_states")]: the
    subscripts the log line takes. *)
Definition system_status_service (service : json) : result unit :=
  rbind (py_item service "service_detail") (fun detail =>
  rbind (match detail with
         | JStr _ => py_item service "service_detail"
         | _ => rbind (py_item service "service_detail")
                  (fun d => py_item d "up")
         end) (fun _ =>
  rbind (py_item service "servicename") (fun _ => Ok tt))).

Definition system_status (context : Context) (test_type : string) : M unit :=
  let command := assemble_command E context " system status" in
  try_except
    (completed_proc <- subprocess_run E command ;;
     response <- lift (json_loads completed_proc) ;;
     services <- lift (rbind (py_get response "service_states") py_iter) ;;
     for_each services (fun service => lift (system_status_service service)) ;;
     number_services <- lift (rbind (py_get response "service_states") py_len) ;;
     log_results_simple (JStr "ok") (JStr "ok") test_type "system_status"
       (str_nat number_services ++ " services found"))
    (fun e =>
       log_explicit_failure test_type "system_status" "failed to get system status").

Definition system_errorcodes (context : Context) (test_type : string) : M unit :=
  let command := assemble_command E context " system errorcodes" in
  try_except
    (completed_proc <- subprocess_run E command ;;
     response <- lift (json_loads completed_proc) ;;
     codes <- lift (py_iter response) ;;
     for_each codes (fun code => _ <- lift (py_item code "name") ;; ret tt) ;;
     number_errorcodes <- lift (py_len response) ;;
     log_results_simple (JStr "ok") (JStr "ok") test_type "system_errorcodes"
       (str_nat number_errorcodes ++ " error codes found"))
    (fun e =>
       log_explicit_failure test_type "system_errorcodes"
         "failed to get system error codes").

(** [system_del] is [pass]. *)
Definition system (context : Context) : M unit :=
  system_status context "positive" ;;
  system_errorcodes context "positive".

Definition system_feeds_config (context : Context) : M unit :=
  system_feeds_config_toggle E context "positive" false ;;
  system_feeds_config_toggle E context "positive" true ;;
  system_feeds_config_toggle E context "positive" false ;;
  system_feeds_config_toggle E context "positive" true ;;
  system_feeds_config_toggle E context "positive" false.

Definition system_feeds (context : Context) : M unit :=
  _ <- system_feeds_list E context "positive" false true ;;
  system_feeds_config context ;;
  system_feeds_delete E context "positive".

(** *** Registry commands *)

Definition registry_get (context : Context) (test_type : string) : M unit :=
  reg <- random_choice registries ;;
  let command := assemble_command E context (" registry get " ++ reg) in
  try_except
    (completed_proc <- subprocess_run E command ;;
     response <- lift (json_loads completed_proc) ;;
     first <- lift (py_index response 0) ;;
     reg_name <- lift (py_item first "registry_name") ;;
     _ <- lift (rbind (py_index response 0) (fun r => py_item r "registry_type")) ;;
     _ <- lift (rbind (py_index response 0) (fun r => py_item r "registry_user")) ;;
     log_results_simple (JStr "ok") (JStr "ok") "positive" "registry_get"
       ("got registry " ++ py_str E reg_name))
    (fun e =>
       log_explicit_failure test_type "registry_get" ("failed to get registry " ++ reg)).

Definition registry_list (context : Context) (test_type : string) : M unit :=
  let command := assemble_command E context " registry list" in
  try_except
    (completed_proc <- subprocess_run E command ;;
     response <- lift (json_loads completed_proc) ;;
     num_reg <- lift (py_len response) ;;
     regs <- lift (py_iter response) ;;
     for_each regs (fun reg =>
       _ <- lift (py_item reg "registry") ;;
       _ <- lift (py_item reg "registry_type") ;;
       _ <- lift (py_item reg "registry_user") ;;
       ret tt) ;;
     log_results_simple (JStr "ok") (JStr "ok") "positive" "registry_list"
       ("Found " ++ str_nat num_reg ++ " registries"))
    (fun e =>
       log_explicit_failure test_type "registry_list" "failed to list registries").

End Catalog.

(** ** What a computation does besides giving its result *)

(** The bucket the classifier files in. *)
Definition classify (desired_state state : json) (test_type : string) : bucket :=
  if py_eq state desired_state then
    if test_type =? "positive" then PositivePass else NegativeFail
  else
    if test_type =? "positive" then PositiveFail else NegativePass.

(** A computation that comes back without an exception in every world. *)
Definition always_returns {A : Type} (m : M A) : Prop :=
  forall w, exists a w', m w = (Ok a, w').

(** A step that only computes: the world is as before, and an exception it
    raises is one that [except Exception] stops. *)
Definition only_computes {A : Type} (m : M A) : Prop :=
  forall w, snd (m w) = w /\ forall e, fst (m w) = Raise e -> is_Exception e = true.

(** What follows a command inside a [try]: decoding, comparing and in the
    end filing.  On return exactly one record was filed, in a bucket that
    [allowed] admits, and nothing else changed; on an exception nothing
    changed at all, and the exception is one that [except Exception] stops. *)
Definition files_into {A : Type} (allowed : bucket -> Prop) (m : M A) : Prop :=
  forall w, match m w with
            | (Ok _, w') => exists b r, allowed b /\ w' = filed b r w
            | (Raise e, w') => w' = w /\ is_Exception e = true
            end.

(** A scenario that, in every world and whatever the tool answers, returns
    having run the one command [command] and filed one record, in a bucket
    that [allowed] admits. *)
Definition one_command_one_record (allowed : bucket -> Prop) (command : string)
    (m : M unit) : Prop :=
  forall w, exists b r, allowed b /\ m w = (Ok tt, filed b r (called command w)).

Definition any_bucket : bucket -> Prop := fun _ => True.

(** The buckets of a scenario that compares ["ok"] with ["ok"]: the fail
    bucket of the declared polarity, or a positive pass when the declared
    polarity is positive. *)
Definition pass_or_declared_fail (test_type : string) : bucket -> Prop :=
  fun b => b = fail_bucket test_type
           \/ (test_type = "positive" /\ b = PositivePass).

(** Records are only ever added at the end of a bucket. *)
Definition appends_only {A : Type} (m : M A) : Prop :=
  forall w b, exists more,
    bucket_of b (ledger (snd (m w))) = (bucket_of b (ledger w) ++ more)%list.

(** A scenario that returns in every world, one command run and one record
    filed for each element of [commands], in that order, and no random draw
    made. *)
Definition one_record_per_command (commands : list string) (m : M unit) : Prop :=
  forall w, exists w',
    m w = (Ok tt, w')
    /\ calls w' = (calls w ++ commands)%list
    /\ total (ledger w') = (total (ledger w) + length commands)%nat
    /\ entropy w' = entropy w.

(** The commands of [image_get], one for each configured image. *)
Definition image_get_commands (E : Env) (context : Context) : list string :=
  map (fun image => assemble_command E context (" image get " ++ image))
      (test_images E).

(** The loop variable [group] after [for group in feed["groups"]], by the
    groups the listing shows, with a [break] on the first group whose
    [enabled] flag satisfies [stop]. *)
Fixpoint groups_after (stop : bool -> bool) (groups : list Group)
    (group : option Group) : option Group :=
  match groups with
  | [] => group
  | g :: rest =>
      if stop (group_enabled g) then Some g else groups_after stop rest (Some g)
  end.

(** The loop variables [feed] and [group] after the two nested loops. *)
Fixpoint feeds_after (stop : bool -> bool) (feeds : list Feed)
    (feed : option Feed) (group : option Group) : option Feed * option Group :=
  match feeds with
  | [] => (feed, group)
  | f :: rest => feeds_after stop rest (Some f) (groups_after stop (feed_groups f) group)
  end.

(** The command [system_feeds_config_toggle] builds for a feed and a group. *)
Definition feeds_config_command (E : Env) (context : Context) (enable : bool)
    (f : Feed) (g : Group) : string :=
  assemble_command E context
    (" system feeds config --group " ++ py_str E (JStr (group_name g)) ++ " "
     ++ (if enable then "--enable" else "--disable") ++ " "
     ++ py_str E (JStr (feed_name f))).

(** The number [Faker] or [random.choice] draws next. *)
Definition drawn (w : World) : nat := hd 0%nat (entropy w).

(** The two commands that set up a fake account with a user. *)
Definition fake_account_commands (E : Env) (context : Context) (acct : Account)
    : list string :=
  [assemble_command E context
     (" account add --email " ++ email acct ++ " " ++ account_name acct);
   assemble_command E context
     (" account user add --account " ++ account_name acct ++ " " ++ user acct
      ++ " " ++ passw acct)].

(** A scenario that sets up a fake account, runs [command] and judges by
    the return code of that command alone: in every world it returns, with
    the three commands run and one record filed, a positive pass when the
    command exited with 0 and a failure of the declared polarity when it did
    not. *)
Definition judged_by_return_code (E : Env) (context : Context) (test_type : string)
    (command : Account -> string) (m : M unit) : Prop :=
  forall w,
    let acct := faker E (drawn w) in
    let history := (calls w ++ fake_account_commands E context acct)%list in
    exists r,
      m w = (Ok tt,
             mkWorld (file (match tool E history (command acct) with
                            | Exited 0 _ => PositivePass
                            | _ => fail_bucket test_type
                            end) r (ledger w))
                     (history ++ [command acct]) (tl (entropy w))).

(** A run that gets to [log_results_summary]: it ends normally or on the
    [sys.exit(1)] of the summary, and on no other exception. *)
Definition reaches_summary (m : M unit) : Prop :=
  forall w, exists w', m w = (Ok tt, w') \/ m w = (Raise (SystemExit 1), w').

(** A scenario that draws one of [items] before anything else: on an empty
    list the draw raises [IndexError], with nothing run and nothing filed;
    otherwise the scenario returns in every world, having run the command
    for one item of the list and filed one record. *)
Definition draws_then_files (items : list string) (command : string -> string)
    (m : M unit) : Prop :=
  forall w,
    match items with
    | [] => m w = (Raise IndexError, w)
    | _ :: _ =>
        exists item b r,
          In item items
          /\ m w = (Ok tt,
                    mkWorld (file b r (ledger w)) (calls w ++ [command item])
                            (tl (entropy w)))
    end.

(** The message by which the service refuses to delete an image. *)
Definition latest_tag_message : string :=
  "cannot delete image that is the latest of its tags, and has active subscription".

(** The two pass buckets. *)
Definition pass_bucket : bucket -> Prop :=
  fun b => b = PositivePass \/ b = NegativePass.

(** The command of [system_wait]. *)
Definition system_wait_command (E : Env) (context : Context) : string :=
  assemble_command E context
    (" system wait --timeout " ++ str_int (default_system_wait_timeout E)
     ++ " --interval " ++ str_int (default_system_wait_interval E)).

(** ** Feed listings as the tool prints them *)

(** A decoded group as the scans read it: an object in which [name] and
    [enabled] are what the group says, whatever other keys it carries
    ([record_count], [last_sync], ...). *)
Definition group_shown (g : Group) (j : json) : Prop :=
  exists entries,
    j = JDict entries
    /\ dict_lookup "name" entries = Some (JStr (group_name g))
    /\ dict_lookup "enabled" entries = Some (JBool (group_enabled g)).

(** A decoded feed: an object with the feed's [name] and, under [groups],
    the list of its groups, whatever other keys it carries. *)
Definition feed_shown (f : Feed) (j : json) : Prop :=
  exists entries groups,
    j = JDict entries
    /\ dict_lookup "name" entries = Some (JStr (feed_name f))
    /\ dict_lookup "groups" entries = Some (JList groups)
    /\ Forall2 group_shown (feed_groups f) groups.

(** The decoded listing of [system feeds list] shows the feeds [feeds]. *)
Definition listing_shows (feeds : list Feed) (listing : list json) : Prop :=
  Forall2 feed_shown feeds listing.

(** A loop variable and the value it stands for: both unbound, or bound to
    a value and to its decoded form. *)
Definition shown_as {A : Type} (shown : A -> json -> Prop) (a : option A)
    (j : option json) : Prop :=
  match a, j with
  | Some x, Some y => shown x y
  | None, None => True
  | _, _ => False
  end.

(** A listing with the keys the service prints besides those the scans
    read. *)
Definition printed_group (g : Group) : json :=
  JDict [("created_at", JStr "2020-01-01T00:00:00Z");
         ("enabled", JBool (group_enabled g));
         ("last_sync", JNull);
         ("name", JStr (group_name g));
         ("record_count", JInt 0)].

Definition printed_feed (f : Feed) : json :=
  JDict [("created_at", JStr "2020-01-01T00:00:00Z");
         ("enabled", JBool true);
         ("groups", JList (map printed_group (feed_groups f)));
         ("last_full_sync", JNull);
         ("name", JStr (feed_name f))].

(** [system feeds list] prints the given feeds in full; any other command
    succeeds with a one-element list. *)
Definition feeds_printed (feeds : list Feed) : list string -> string -> proc_result :=
  fun _ command =>
    if is_substring " system feeds list" command
    then Exited 0 (Decodes (JList (map printed_feed feeds)))
    else Exited 0 (Decodes (JList [JDict [("enabled", JBool false)]])).

(** [system feeds list] prints the given feeds in full; every other command
    fails. *)
Definition feeds_printed_only (feeds : list Feed) : list string -> string -> proc_result :=
  fun _ command =>
    if is_substring " system feeds list" command
    then Exited 0 (Decodes (JList (map printed_feed feeds)))
    else Exited 1 Undecodable.

(** ** Invocations of the tool's wait commands *)

(** The number of times the tool was invoked between two worlds. *)
Definition invocations (w w' : World) : nat :=
  (length (calls w') - length (calls w))%nat.

(** ceil(T / I) for a positive interval *)
Definition ceil_div (T I : Z) : Z := ((T + I - 1) / I)%Z.

(** The second command of [image_wait]. *)
Definition image_wait_command (E : Env) (context : Context) (image : string)
    (timeout interval : Z) : string :=
  assemble_command E context
    (" image wait " ++ image ++ " --timeout " ++ str_int timeout
     ++ " --interval " ++ str_int interval).

(** ** Handlers and unanticipated failures *)

(** A scenario with the plain handler: whenever its command fails in a way
    it did not anticipate, it returns with that one command run and one
    explicit failure filed under the declared polarity. *)
Definition files_every_failure (E : Env) (test_type command action message : string)
    (m : M unit) : Prop :=
  forall w,
    unanticipated_failure (tool E (calls w) command) = true ->
    m w = (Ok tt,
           filed (fail_bucket test_type) (record_text action message)
             (called command w)).

(** A scenario that draws an image, polls for it and has a handler that only
    logs: when the poll for the drawn image came back and the dependent
    command then fails in a way the scenario did not anticipate, it returns
    with the two commands run and nothing filed. *)
Definition drops_every_failure (E : Env) (context : Context) (images : list string)
    (command : string -> string) (m : M unit) : Prop :=
  forall (w w1 : World) (image : string),
    random_choice images w = (Ok image, w1) ->
    poll_fails E context (calls w1) image = false ->
    unanticipated_failure
      (tool E (calls w1 ++ [wait_command E context image]) (command image)) = true ->
    m w = (Ok tt, called (command image) (called (wait_command E context image) w1)).

(** The same start with a plain handler: the failure of the dependent
    command is filed, once, under the declared polarity. *)
Definition files_failure_after_poll (E : Env) (context : Context)
    (images : list string) (test_type action : string)
    (command message : string -> string) (m : M unit) : Prop :=
  forall (w w1 : World) (image : string),
    random_choice images w = (Ok image, w1) ->
    poll_fails E context (calls w1) image = false ->
    unanticipated_failure
      (tool E (calls w1 ++ [wait_command E context image]) (command image)) = true ->
    m w = (Ok tt,
           filed (fail_bucket test_type) (record_text action (message image))
             (called (command image) (called (wait_command E context image) w1))).

(** * Properties *)

(** ** Python equality on decoded values is reflexive *)

Lemma dict_lookup_app_first {A : Type} (k : string) (v : A) pre rest :
  ~ In k (map fst pre) -> dict_lookup k (pre ++ (k, v) :: rest) = Some v.
Proof.
  induction pre as [|[k' v'] pre IH]; simpl; intros Hnot.
  - rewrite String.eqb_refl. reflexivity.
  - destruct (String.eqb_spec k' k) as [->|_].
    + exfalso. apply Hnot. now left.
    + apply IH. intros Hin. apply Hnot. now right.
Qed.

Lemma dict_lookup_key_present {A : Type} (k : string) (d : list (string * A)) :
  In k (map fst d) -> is_some (dict_lookup k d) = true.
Proof.
  induction d as [|[k' v'] d IH]; simpl; intros Hin.
  - contradiction.
  - destruct (String.eqb_spec k' k) as [->|Hne]; [reflexivity|].
    apply IH. destruct Hin as [Heq|Hin]; [contradiction|exact Hin].
Qed.

Lemma py_eq_refl : forall j, py_eq j j = true.
Proof.
  induction j as [| b | n | s | l Hl | d Hd] using json_nested_ind.
  - reflexivity.
  - destruct b; reflexivity.
  - apply Z.eqb_refl.
  - apply String.eqb_refl.
  - simpl. induction Hl as [|x l Hx _ IH]; [reflexivity|].
    rewrite Hx. exact IH.
  - simpl. apply andb_true_intro. split.
    + assert (Hgen : forall rest pre seen,
                 d = (pre ++ rest)%list ->
                 (forall k, existsb (String.eqb k) seen = false -> ~ In k (map fst pre)) ->
                 Forall (fun kv => py_eq (snd kv) (snd kv) = true) rest ->
                 (fix entries (seen : list string) (rest : list (string * json))
                      {struct rest} : bool :=
                    match rest with
                    | [] => true
                    | (k, v) :: rest' =>
                        (if existsb (String.eqb k) seen then true
                         else match dict_lookup k d with
                              | Some v' => py_eq v v'
                              | None => false
                              end)
                        && entries (k :: seen) rest'
                    end) seen rest = true).
      { induction rest as [|[k v] rest IH]; intros pre seen Hd' Hseen Hall.
        - reflexivity.
        - inversion Hall as [|? ? Hv Hrest]; subst. simpl in Hv.
          apply andb_true_intro. split.
          + destruct (existsb (String.eqb k) seen) eqn:Hk; [reflexivity|].
            rewrite (dict_lookup_app_first k v pre rest (Hseen k Hk)). exact Hv.
          + apply (IH (pre ++ [(k, v)])%list).
            * rewrite <- app_assoc. reflexivity.
            * intros k0 Hk0. simpl in Hk0. apply orb_false_elim in Hk0.
              destruct Hk0 as [Hne Hk0]. rewrite map_app, in_app_iff. simpl.
              intros [Hin|[Heq|[]]].
              -- exact (Hseen k0 Hk0 Hin).
              -- subst k0. rewrite String.eqb_refl in Hne. discriminate.
            * exact Hrest. }
      apply (Hgen d [] []); [reflexivity | intros k _ [] | exact Hd].
    + apply forallb_forall. intros kv Hin.
      apply dict_lookup_key_present. apply in_map. exact Hin.
Qed.

(** ** Filing a record *)

Lemma file_total (b : bucket) (r : string) (l : Ledger) :
  total (file b r l) = S (total l).
Proof.
  destruct b; unfold total; simpl; rewrite length_app; simpl; lia.
Qed.

Lemma file_same_bucket (b : bucket) (r : string) (l : Ledger) :
  bucket_of b (file b r l) = (bucket_of b l ++ [r])%list.
Proof. destruct b; reflexivity. Qed.

Lemma file_other_bucket (b b' : bucket) (r : string) (l : Ledger) :
  b' <> b -> bucket_of b' (file b r l) = bucket_of b' l.
Proof. destruct b, b'; intros H; try reflexivity; contradiction. Qed.

(** ** The classifier *)

(** C1. For every desired state, state and polarity the classifier files its
    record by the four-case table: when [state == desired_state], a positive
    test files one positive-pass record and a negative test one negative-fail
    record; when they differ, a positive test files one positive-fail record
    and a negative test one negative-pass record. *)
Theorem log_results_simple_truth_table :
  forall (desired_state state : json) (action message : string) (w : World),
    (py_eq state desired_state = true ->
       log_results_simple desired_state state "positive" action message w
         = (Ok tt, filed PositivePass (record_text action message) w)
       /\ log_results_simple desired_state state "negative" action message w
         = (Ok tt, filed NegativeFail (record_text action message) w))
    /\ (py_eq state desired_state = false ->
       log_results_simple desired_state state "positive" action message w
         = (Ok tt, filed PositiveFail (record_text action message) w)
       /\ log_results_simple desired_state state "negative" action message w
         = (Ok tt, filed NegativePass (record_text action message) w)).
Proof.
  intros desired_state state action message w.
  split; intros Heq; unfold log_results_simple; rewrite Heq; split; reflexivity.
Qed.

Lemma log_results_simple_truth_table_witness :
  (log_results_simple (JStr "enabled") (JStr "enabled") "positive" "account_get" "ok" fresh
     = (Ok tt, filed PositivePass "account_get - ok" fresh)
   /\ log_results_simple (JStr "enabled") (JStr "enabled") "negative" "account_get" "ok" fresh
     = (Ok tt, filed NegativeFail "account_get - ok" fresh))
  /\ (log_results_simple (JStr "deleting") (JStr "enabled") "positive" "account_del" "no" fresh
     = (Ok tt, filed PositiveFail "account_del - no" fresh)
   /\ log_results_simple (JStr "deleting") (JStr "enabled") "negative" "account_del" "no" fresh
     = (Ok tt, filed NegativePass "account_del - no" fresh)).
Proof.
  split.
  - apply (log_results_simple_truth_table (JStr "enabled") (JStr "enabled")
             "account_get" "ok" fresh). reflexivity.
  - apply (log_results_simple_truth_table (JStr "deleting") (JStr "enabled")
             "account_del" "no" fresh). reflexivity.
Defined.

(** A state compared with itself: a positive test passes, a negative one
    fails. *)
Lemma log_results_simple_same_state :
  forall (x : json) (action message : string) (w : World),
    log_results_simple x x "positive" action message w
      = (Ok tt, filed PositivePass (record_text action message) w)
    /\ log_results_simple x x "negative" action message w
      = (Ok tt, filed NegativeFail (record_text action message) w).
Proof.
  intros x action message w.
  unfold log_results_simple. rewrite py_eq_refl. split; reflexivity.
Qed.

(** Whatever its arguments, one call of the classifier returns and leaves
    exactly one more record in the ledger. *)
Lemma log_results_simple_one_record :
  forall desired_state state test_type action message w,
  exists b,
    log_results_simple desired_state state test_type action message w
      = (Ok tt, filed b (record_text action message) w).
Proof.
  intros. unfold log_results_simple.
  destruct (py_eq state desired_state), (test_type =? "positive");
    [ exists PositivePass | exists NegativeFail
    | exists PositiveFail | exists NegativePass ]; reflexivity.
Qed.

Lemma log_explicit_failure_fail_bucket :
  forall test_type action message w,
    log_explicit_failure test_type action message w
      = (Ok tt, filed (fail_bucket test_type) (record_text action message) w).
Proof.
  intros. unfold log_explicit_failure, fail_bucket.
  destruct (test_type =? "positive"); reflexivity.
Qed.

(** C9. Any [test_type] other than exactly "positive" is handled as
    "negative" is: both functions file in a negative bucket, nothing but the
    comparison with "positive" decides, and no value is turned away. *)
Theorem test_type_other_than_positive :
  forall test_type : string,
    test_type <> "positive" ->
    forall (desired_state state : json) (action message : string) (w : World),
      log_results_simple desired_state state test_type action message w
        = log_results_simple desired_state state "negative" action message w
      /\ log_explicit_failure test_type action message w
        = log_explicit_failure "negative" action message w
      /\ log_results_simple desired_state state test_type action message w
        = (Ok tt, filed (if py_eq state desired_state then NegativeFail else NegativePass)
                    (record_text action message) w)
      /\ log_explicit_failure test_type action message w
        = (Ok tt, filed NegativeFail (record_text action message) w).
Proof.
  intros test_type Hne desired_state state action message w.
  assert (Hb : (test_type =? "positive") = false)
    by (apply String.eqb_neq; exact Hne).
  unfold log_results_simple, log_explicit_failure. rewrite Hb.
  destruct (py_eq state desired_state); repeat split; reflexivity.
Qed.

Lemma test_type_other_than_positive_witness :
  log_results_simple (JStr "ok") (JStr "ok") "Positive" "image_get" "got image" fresh
    = log_results_simple (JStr "ok") (JStr "ok") "negative" "image_get" "got image" fresh
  /\ log_explicit_failure "postive" "image_get" "failed" fresh
    = (Ok tt, filed NegativeFail "image_get - failed" fresh).
Proof.
  split.
  - exact (proj1 (test_type_other_than_positive "Positive" ltac:(discriminate)
                    (JStr "ok") (JStr "ok") "image_get" "got image" fresh)).
  - exact (proj2 (proj2 (proj2
            (test_type_other_than_positive "postive" ltac:(discriminate)
               JNull JNull "image_get" "failed" fresh)))).
Defined.



(** ** Running the tool *)

Lemma subprocess_run_ok (E : Env) (command : string) (w : World) (out : stdout) :
  tool E (calls w) command = Exited 0 out ->
  subprocess_run E command w = (Ok out, called command w).
Proof. intros H. unfold subprocess_run. rewrite H. reflexivity. Qed.

Lemma subprocess_run_nonzero (E : Env) (command : string) (w : World)
    (returncode : Z) (out : stdout) :
  tool E (calls w) command = Exited returncode out ->
  returncode <> 0%Z ->
  subprocess_run E command w
    = (Raise (CalledProcessError returncode out), called command w).
Proof.
  intros H Hrc. unfold subprocess_run. rewrite H.
  destruct returncode; [contradiction | reflexivity | reflexivity].
Qed.

Lemma subprocess_run_not_started (E : Env) (command : string) (w : World) :
  tool E (calls w) command = NotStarted ->
  subprocess_run E command w = (Raise OSError, called command w).
Proof. intros H. unfold subprocess_run. rewrite H. reflexivity. Qed.

(** A run that does not end with return code 0 raises an [Exception]. *)
Lemma subprocess_run_fails (E : Env) (command : string) (w : World) :
  (forall out, tool E (calls w) command <> Exited 0 out) ->
  exists e, is_Exception e = true
            /\ subprocess_run E command w = (Raise e, called command w).
Proof.
  intros H. unfold subprocess_run.
  destruct (tool E (calls w) command) as [rc out|] eqn:Ht.
  - destruct rc.
    + exfalso. exact (H out eq_refl).
    + eexists. split; [|reflexivity]. reflexivity.
    + eexists. split; [|reflexivity]. reflexivity.
  - eexists. split; [|reflexivity]. reflexivity.
Qed.

(** ** The readiness poll *)

Lemma random_choice_returns {A : Type} (xs : list A) (w : World) :
  xs <> [] ->
  exists x w1,
    random_choice xs w = (Ok x, w1)
    /\ In x xs /\ ledger w1 = ledger w /\ calls w1 = calls w.
Proof.
  intros Hne. destruct xs as [|x0 rest]; [contradiction|].
  unfold random_choice, bind, draw, ret.
  assert (Hin : forall n, In (nth (n mod length (x0 :: rest)) (x0 :: rest) x0) (x0 :: rest)).
  { intros n. apply nth_In. apply Nat.mod_upper_bound. discriminate. }
  destruct (entropy w) as [|n more].
  - eexists _, _. split; [reflexivity|]. split; [apply (Hin 0%nat)|]. split; reflexivity.
  - eexists _, _. split; [reflexivity|]. split; [apply (Hin n)|]. split; reflexivity.
Qed.

Lemma wait_for_image_fails (E : Env) (context : Context) (image : string) (w : World) :
  poll_fails E context (calls w) image = true ->
  wait_for_image E context image w = (Ok false, called (wait_command E context image) w).
Proof.
  intros Hpoll. unfold wait_for_image, try_except, bind.
  fold (wait_command E context image).
  destruct (subprocess_run_fails E (wait_command E context image) w) as [e [He Hrun]].
  - intros out Hout. unfold poll_fails in Hpoll.
    fold (wait_command E context image) in Hpoll. rewrite Hout in Hpoll. discriminate.
  - rewrite Hrun, He. reflexivity.
Qed.

(** A scenario that starts by choosing an image and polling for it, and does
    the rest only when the poll came back: with a failing poll it is skipped. *)
Lemma choose_then_poll_skips (E : Env) (context : Context) (images : list string)
    (rest : string -> M unit) (w : World) :
  images <> [] ->
  (forall image, In image images -> poll_fails E context (calls w) image = true) ->
  skipped_at_poll E context images w
    (bind (random_choice images) (fun image =>
     bind (wait_for_image E context image) (fun ready =>
     if (ready : bool) then rest image else ret tt)) w).
Proof.
  intros Hne Hpoll.
  destruct (random_choice_returns images w Hne) as (image & w1 & Hrun & Hin & Hl & Hc).
  unfold bind at 1. rewrite Hrun. unfold bind at 1.
  specialize (Hpoll image Hin). rewrite <- Hc in Hpoll.
  rewrite (wait_for_image_fails E context image w1 Hpoll).
  unfold skipped_at_poll, ret, called. cbn [fst snd ledger calls].
  split; [reflexivity|]. split; [exact Hl|].
  exists image. split; [exact Hin|]. rewrite Hc. reflexivity.
Qed.

(** ** Explicit failures *)

(** [evaluate_check] when the poll comes back and [evaluate check] is
    rejected with a structured body the scenario does not anticipate: both
    commands were run, the function returned, and no explicit failure (no
    record at all) was filed. *)
Lemma evaluate_check_rejection_not_filed :
  unanticipated_failure
    (evaluate_check_rejected
       ["cli --u admin --p foobar --url http://localhost/v1  image wait alpine"]
       "cli --u admin --p foobar --url http://localhost/v1  evaluate check alpine")
  = true
  /\ evaluate_check (env_of ["alpine"] evaluate_check_rejected) admin "positive" fresh
     = (Ok tt,
        mkWorld empty_ledger
          ["cli --u admin --p foobar --url http://localhost/v1  image wait alpine";
           "cli --u admin --p foobar --url http://localhost/v1  evaluate check alpine"]
          []).
Proof. split; reflexivity. Qed.

(** ** Deleting an account *)

(** What [account_del] does with a rejection that carries a decodable body:
    the handler looks at the message and classifies only when it is the
    state-change message. *)
Lemma account_del_rejected_with_body :
  forall (E : Env) (context : Context) (name test_type : string) (w : World)
         (returncode : Z) (response message : json),
    let command := assemble_command E context (" account del --dontask " ++ name) in
    tool E (calls w) command = Exited returncode (Decodes response) ->
    returncode <> 0%Z ->
    py_get response "message" = Ok message ->
    account_del E context name test_type w
      = if py_eq message (JStr state_change_message)
        then log_results_simple (JStr "deleting") (JStr "enabled") test_type
               "account_del" ("could not delete account: " ++ name)
               (called command w)
        else (Ok tt, called command w).
Proof.
  intros E context name test_type w returncode response message command Ht Hrc Hmsg.
  unfold account_del, try_except, bind. fold command.
  rewrite (subprocess_run_nonzero E command w returncode (Decodes response) Ht Hrc).
  cbn [is_Exception json_loads lift]. rewrite Hmsg.
  unfold state_change_message.
  destruct (py_eq message _); reflexivity.
Qed.

(** C4, as the code has it.  When the tool rejects the delete with the
    anticipated "Invalid account state change" message, the matched path
    classifies the synthesized state "enabled" against the desired state
    "deleting".  The two differ, so a positive check is recorded as a
    positive-fail, and the same rejection under negative polarity as a
    negative-pass. *)
Theorem account_del_state_change_rejection :
  forall (E : Env) (context : Context) (name : string) (w : World)
         (returncode : Z) (response message : json),
    let command := assemble_command E context (" account del --dontask " ++ name) in
    let text := record_text "account_del" ("could not delete account: " ++ name) in
    tool E (calls w) command = Exited returncode (Decodes response) ->
    returncode <> 0%Z ->
    py_get response "message" = Ok message ->
    py_eq message (JStr state_change_message) = true ->
    py_eq (JStr "enabled") (JStr "deleting") = false
    /\ account_del E context name "positive" w
       = (Ok tt, filed PositiveFail text (called command w))
    /\ account_del E context name "negative" w
       = (Ok tt, filed NegativePass text (called command w)).
Proof.
  intros E context name w returncode response message command text Ht Hrc Hmsg Heq.
  split; [reflexivity|].
  split.
  - rewrite (account_del_rejected_with_body E context name "positive" w
               returncode response message Ht Hrc Hmsg).
    rewrite Heq. reflexivity.
  - rewrite (account_del_rejected_with_body E context name "negative" w
               returncode response message Ht Hrc Hmsg).
    rewrite Heq. reflexivity.
Qed.

Lemma account_del_state_change_rejection_witness :
  account_del (env_of [] (account_del_rejected state_change_body)) admin "acme"
    "positive" fresh
  = (Ok tt,
     filed PositiveFail "account_del - could not delete account: acme"
       (called "cli --u admin --p foobar --url http://localhost/v1  account del --dontask acme"
          fresh))
  /\ account_del (env_of [] (account_del_rejected state_change_body)) admin "acme"
       "negative" fresh
     = (Ok tt,
        filed NegativePass "account_del - could not delete account: acme"
          (called "cli --u admin --p foobar --url http://localhost/v1  account del --dontask acme"
             fresh)).
Proof.
  refine (proj2
    (account_del_state_change_rejection
       (env_of [] (account_del_rejected state_change_body)) admin "acme" fresh 1
       (JDict [("message", JStr state_change_message); ("httpcode", JInt 400)])
       (JStr state_change_message) _ _ _ _)).
  - reflexivity.
  - discriminate.
  - reflexivity.
  - reflexivity.
Defined.

(** The positive delete rejected with the anticipated message: the record
    lands in the positive-fail bucket, and the positive-pass bucket stays
    empty. *)
Lemma account_del_state_change_not_positive_pass :
  account_del (env_of [] (account_del_rejected state_change_body)) admin "acme"
    "positive" fresh
  = (Ok tt,
     mkWorld (mkLedger [] ["account_del - could not delete account: acme"] [] [])
       ["cli --u admin --p foobar --url http://localhost/v1  account del --dontask acme"]
       [])
  /\ positive_pass
       (ledger (snd (account_del (env_of [] (account_del_rejected state_change_body))
                       admin "acme" "positive" fresh))) = [].
Proof. split; reflexivity. Qed.

(** ** Structured failures that no branch picks up *)

(** C3, at the two handlers it names.  A rejection whose body decodes but is
    not the one the handler looks for falls through the handler of
    [account_del] without a record, and so does every structured failure of
    [account_list] when [account_override] is off: the function returns and
    the four buckets are as they were. *)
Theorem structured_failure_files_nothing :
  forall (E : Env) (context : Context) (name test_type : string) (w : World)
         (returncode : Z) (response message : json),
    returncode <> 0%Z ->
    (let command := assemble_command E context (" account del --dontask " ++ name) in
     tool E (calls w) command = Exited returncode (Decodes response) ->
     py_get response "message" = Ok message ->
     py_eq message (JStr state_change_message) = false ->
     account_del E context name test_type w = (Ok tt, called command w))
    /\ (let command := assemble_command E context " account list" in
        tool E (calls w) command = Exited returncode (Decodes response) ->
        account_list E context false test_type w = (Ok tt, called command w)).
Proof.
  intros E context name test_type w returncode response message Hrc. split.
  - intros command Ht Hmsg Hne.
    rewrite (account_del_rejected_with_body E context name test_type w
               returncode response message Ht Hrc Hmsg).
    rewrite Hne. reflexivity.
  - intros command Ht.
    unfold account_list, try_except, bind, ret. fold command.
    rewrite (subprocess_run_nonzero E command w returncode (Decodes response) Ht Hrc).
    reflexivity.
Qed.

Lemma structured_failure_files_nothing_witness :
  ledger (snd (account_del (env_of [] (account_del_rejected not_found_body)) admin
                 "acme" "positive" fresh)) = empty_ledger
  /\ ledger (snd (account_list (env_of [] account_list_rejected) admin false
                    "positive" fresh)) = empty_ledger.
Proof.
  pose proof (structured_failure_files_nothing
                (env_of [] (account_del_rejected not_found_body)) admin "acme"
                "positive" fresh 1
                (JDict [("message", JStr "Account not found"); ("httpcode", JInt 404)])
                (JStr "Account not found") ltac:(discriminate)) as [Hdel _].
  pose proof (structured_failure_files_nothing
                (env_of [] account_list_rejected) admin "acme"
                "positive" fresh 1
                (JDict [("message", JStr "Internal error"); ("httpcode", JInt 500)])
                JNull ltac:(discriminate)) as [_ Hlist].
  split.
  - rewrite (Hdel eq_refl eq_refl eq_refl). reflexivity.
  - rewrite (Hlist eq_refl). reflexivity.
Defined.

(** ** Exceptions that leave a scenario *)

Lemma account_del_undecodable_rejection :
  forall (E : Env) (context : Context) (name test_type : string) (w : World)
         (returncode : Z),
    let command := assemble_command E context (" account del --dontask " ++ name) in
    tool E (calls w) command = Exited returncode Undecodable ->
    returncode <> 0%Z ->
    account_del E context name test_type w = (Raise JSONDecodeError, called command w).
Proof.
  intros E context name test_type w returncode command Ht Hrc.
  unfold account_del, try_except, bind. fold command.
  rewrite (subprocess_run_nonzero E command w returncode Undecodable Ht Hrc).
  reflexivity.
Qed.

Lemma subscription_get_one_none :
  forall (E : Env) (context : Context) (w : World),
    let command := assemble_command E context " subscription list" in
    (forall out, tool E (calls w) command <> Exited 0 out) ->
    subscription_get_one E context w = (Ok JNull, called command w).
Proof.
  intros E context w command Hfail.
  unfold subscription_get_one, try_except, bind. fold command.
  destruct (subprocess_run_fails E command w Hfail) as [e [He Hrun]].
  rewrite Hrun, He. reflexivity.
Qed.

Lemma subscription_activate_without_subscription :
  forall (E : Env) (context : Context) (test_type : string) (w : World),
    let command := assemble_command E context " subscription list" in
    (forall out, tool E (calls w) command <> Exited 0 out) ->
    subscription_activate E context test_type w = (Raise TypeError, called command w).
Proof.
  intros E context test_type w command Hfail.
  unfold subscription_activate, bind.
  rewrite (subscription_get_one_none E context w Hfail). reflexivity.
Qed.

Lemma registry_add_other_rejection :
  forall (E : Env) (context : Context) (w : World)
         (returncode : Z) (response message : json),
    let command :=
      assemble_command E context
        (" registry add " ++ str_getenv E "REGISTRY_URL" ++ " "
         ++ str_getenv E "REGISTRY_USER" ++ " " ++ str_getenv E "REGISTRY_TOKEN") in
    tool E (calls w) command = Exited returncode (Decodes response) ->
    returncode <> 0%Z ->
    py_get response "message" = Ok message ->
    py_eq message (JStr "registry already exists in DB") = false ->
    registry_add E context w = (Raise (NameError "test_type"), called command w).
Proof.
  intros E context w returncode response message command Ht Hrc Hmsg Hne.
  unfold registry_add, try_except, bind. fold command.
  rewrite (subprocess_run_nonzero E command w returncode (Decodes response) Ht Hrc).
  cbn [is_Exception json_loads lift]. rewrite Hmsg, Hne. reflexivity.
Qed.

(** An exception that leaves the selected function leaves [run_cli_driver]
    too: the summary is not reached. *)
Lemma run_cli_driver_propagates :
  forall (E : Env) (func : Context -> M unit) (context : Context)
         (w w1 w2 : World) (e : exn),
    system_wait E context false w = (Ok tt, w1) ->
    func context w1 = (Raise e, w2) ->
    run_cli_driver E func context w = (Raise e, w2).
Proof.
  intros E func context w w1 w2 e Hwait Hfunc.
  unfold run_cli_driver, bind. rewrite Hwait, Hfunc. reflexivity.
Qed.

(** C5, where the code departs from it.  Three scenario functions do not
    return for an outcome of the invoker: [account_del] raises
    [JSONDecodeError] out of its handler when the tool exits with a non-zero
    code and prints something that is not JSON; [subscription_activate]
    raises [TypeError] before its [try] when [subscription_get_one] returned
    [None]; [registry_add] raises [NameError] in its handler on a rejection
    other than a duplicate.  The exception then ends [run_cli_driver] before
    the summary. *)
Theorem scenario_exceptions_escape :
  forall (E : Env) (context : Context) (name test_type : string) (w : World)
         (returncode : Z),
    returncode <> 0%Z ->
    (let command := assemble_command E context (" account del --dontask " ++ name) in
     tool E (calls w) command = Exited returncode Undecodable ->
     account_del E context name test_type w
       = (Raise JSONDecodeError, called command w))
    /\ (let command := assemble_command E context " subscription list" in
        (forall out, tool E (calls w) command <> Exited 0 out) ->
        subscription_activate E context test_type w
          = (Raise TypeError, called command w))
    /\ (forall response message : json,
        let command :=
          assemble_command E context
            (" registry add " ++ str_getenv E "REGISTRY_URL" ++ " "
             ++ str_getenv E "REGISTRY_USER" ++ " " ++ str_getenv E "REGISTRY_TOKEN") in
        tool E (calls w) command = Exited returncode (Decodes response) ->
        py_get response "message" = Ok message ->
        py_eq message (JStr "registry already exists in DB") = false ->
        registry_add E context w = (Raise (NameError "test_type"), called command w))
    /\ (forall (func : Context -> M unit) (w1 w2 : World) (e : exn),
        system_wait E context false w = (Ok tt, w1) ->
        func context w1 = (Raise e, w2) ->
        run_cli_driver E func context w = (Raise e, w2)).
Proof.
  intros E context name test_type w returncode Hrc.
  split; [|split; [|split]].
  - intros command Ht.
    exact (account_del_undecodable_rejection E context name test_type w returncode Ht Hrc).
  - intros command Hfail.
    exact (subscription_activate_without_subscription E context test_type w Hfail).
  - intros response message command Ht Hmsg Hne.
    exact (registry_add_other_rejection E context w returncode response message
             Ht Hrc Hmsg Hne).
  - intros func w1 w2 e Hwait Hfunc.
    exact (run_cli_driver_propagates E func context w w1 w2 e Hwait Hfunc).
Qed.

Lemma scenario_exceptions_escape_witness :
  account_del (env_of [] (account_del_rejected Undecodable)) admin "acme" "positive" fresh
  = (Raise JSONDecodeError,
     mkWorld empty_ledger
       ["cli --u admin --p foobar --url http://localhost/v1  account del --dontask acme"]
       []).
Proof.
  exact (proj1 (scenario_exceptions_escape
                  (env_of [] (account_del_rejected Undecodable)) admin "acme"
                  "positive" fresh 1 ltac:(discriminate)) eq_refl).
Defined.

(** The run [python cli_driver.py image_deletion] when [image del] dies
    without printing JSON: the first [image_del] raises, the second never
    starts, no summary is made, and the interpreter exits with status 1
    although no bucket holds a record. *)
Lemma image_deletion_run_aborts :
  run_cli_driver (env_of ["alpine"] image_del_crashes) (image_deletion (env_of ["alpine"] image_del_crashes))
    admin fresh
  = (Raise JSONDecodeError,
     mkWorld empty_ledger
       ["cli --u admin --p foobar --url http://localhost/v1  system wait --timeout -1 --interval 5";
        "cli --u admin --p foobar --url http://localhost/v1  image wait alpine";
        "cli --u admin --p foobar --url http://localhost/v1  image del alpine"]
       []).
Proof. reflexivity. Qed.

Lemma subscription_run_aborts :
  run_cli_driver (env_of ["alpine"] subscription_list_down)
    (subscription (env_of ["alpine"] subscription_list_down)) admin fresh
  = (Raise TypeError,
     mkWorld (mkLedger [] ["subscription_list - failed to list subscriptions"] [] [])
       ["cli --u admin --p foobar --url http://localhost/v1  system wait --timeout -1 --interval 5";
        "cli --u admin --p foobar --url http://localhost/v1  subscription list";
        "cli --u admin --p foobar --url http://localhost/v1  subscription list"]
       []).
Proof. reflexivity. Qed.

Lemma registry_add_run_aborts :
  registry_add (env_of [] registry_add_rejected) admin fresh
  = (Raise (NameError "test_type"),
     mkWorld empty_ledger
       ["cli --u admin --p foobar --url http://localhost/v1  registry add None None None"]
       []).
Proof. reflexivity. Qed.

(** ** Computations that run no command *)

Lemma keeps_calls_ret {A : Type} (a : A) : keeps_calls (ret a).
Proof. intros w. reflexivity. Qed.

Lemma keeps_calls_raise {A : Type} (e : exn) : keeps_calls (@raise A e).
Proof. intros w. reflexivity. Qed.

Lemma keeps_calls_lift {A : Type} (r : result A) : keeps_calls (lift r).
Proof. intros w. reflexivity. Qed.

Lemma keeps_calls_bind {A B : Type} (m : M A) (k : A -> M B) :
  keeps_calls m -> (forall a, keeps_calls (k a)) -> keeps_calls (bind m k).
Proof.
  intros Hm Hk w. unfold bind. specialize (Hm w).
  destruct (m w) as [[a|e] w']; simpl in *.
  - rewrite Hk. exact Hm.
  - exact Hm.
Qed.

Lemma keeps_calls_try {A : Type} (m : M A) (h : exn -> M A) :
  keeps_calls m -> (forall e, keeps_calls (h e)) -> keeps_calls (try_except m h).
Proof.
  intros Hm Hh w. unfold try_except. specialize (Hm w).
  destruct (m w) as [[a|e] w']; simpl in *.
  - exact Hm.
  - destruct (is_Exception e); [rewrite Hh|]; exact Hm.
Qed.

Lemma keeps_calls_log_results_simple desired_state state test_type action message :
  keeps_calls (log_results_simple desired_state state test_type action message).
Proof.
  intros w.
  destruct (log_results_simple_one_record desired_state state test_type action message w)
    as [b ->]. reflexivity.
Qed.

Lemma keeps_calls_log_explicit_failure test_type action message :
  keeps_calls (log_explicit_failure test_type action message).
Proof. intros w. rewrite log_explicit_failure_fail_bucket. reflexivity. Qed.

Ltac keeps_calls_tac :=
  repeat first
    [ apply keeps_calls_ret
    | apply keeps_calls_raise
    | apply keeps_calls_lift
    | apply keeps_calls_log_results_simple
    | apply keeps_calls_log_explicit_failure
    | apply keeps_calls_bind; [|intros ?]
    | apply keeps_calls_try; [|intros ?]
    | match goal with
      | |- keeps_calls (if ?b then _ else _) => destruct b
      | |- keeps_calls (match ?e with _ => _ end) => destruct e
      end ].

(** One command under a [try], with nothing but decoding and filing after
    it and in the handler: exactly that command is added to the record. *)
Lemma try_one_command {A : Type} (E : Env) (command : string)
    (k : stdout -> M A) (h : exn -> M A) (w : World) :
  (forall out, keeps_calls (k out)) ->
  (forall e, keeps_calls (h e)) ->
  calls (snd (try_except (bind (subprocess_run E command) k) h w))
    = (calls w ++ [command])%list.
Proof.
  intros Hk Hh. unfold try_except, bind, subprocess_run.
  destruct (tool E (calls w) command) as [[|p|p] out|]; simpl.
  - specialize (Hk out (called command w)). unfold called in Hk.
    destruct (k out _) as [[a|e] w']; simpl in *.
    + exact Hk.
    + destruct (is_Exception e); [rewrite Hh|]; exact Hk.
  - apply Hh.
  - apply Hh.
  - apply Hh.
Qed.

Lemma system_feeds_list_feeds (E : Env) (context : Context) (w : World)
    (feeds : list json) :
  let command := assemble_command E context " system feeds list" in
  tool E (calls w) command = Exited 0 (Decodes (JList feeds)) ->
  system_feeds_list E context "positive" true false w
    = (Ok (JList feeds), called command w).
Proof.
  intros command Ht. unfold system_feeds_list, try_except, bind. fold command.
  rewrite (subprocess_run_ok E command w _ Ht). reflexivity.
Qed.

Lemma after_feeds_last (feeds : list Feed) (f : Feed) (feed : option Feed)
    (group : option Group) :
  fst (after_feeds (feeds ++ [f]) feed group) = Some f.
Proof.
  revert feed group. induction feeds as [|x rest IH]; intros feed group.
  - reflexivity.
  - cbn [app after_feeds]. apply IH.
Qed.

Lemma after_groups_all_enabled (groups : list Group) (last_group : Group)
    (group : option Group) :
  Forall (fun g => group_enabled g = true) (groups ++ [last_group]) ->
  after_groups (groups ++ [last_group]) group = Some last_group.
Proof.
  revert group. induction groups as [|g rest IH]; intros group Hall.
  - cbn. inversion Hall as [|? ? Hg _]; subst. rewrite Hg. reflexivity.
  - cbn [app after_groups]. inversion Hall as [|? ? Hg Hrest]; subst.
    rewrite Hg. apply IH. exact Hrest.
Qed.

Lemma after_feeds_all_enabled (before : list Feed) (last_feed : Feed)
    (groups : list Group) (last_group : Group)
    (feed : option Feed) (group : option Group) :
  feed_groups last_feed = (groups ++ [last_group])%list ->
  Forall (fun g => group_enabled g = true) (feed_groups last_feed) ->
  after_feeds (before ++ [last_feed]) feed group = (Some last_feed, Some last_group).
Proof.
  intros Hgroups Hall. revert feed group.
  induction before as [|f rest IH]; intros feed group.
  - cbn. rewrite Hgroups in *. rewrite after_groups_all_enabled by exact Hall.
    reflexivity.
  - cbn [app after_feeds]. apply IH.
Qed.

Lemma after_feeds_no_groups (feeds : list Feed) (feed : option Feed)
    (group : option Group) :
  Forall (fun f => feed_groups f = []) feeds ->
  snd (after_feeds feeds feed group) = group.
Proof.
  intros Hall. revert feed group.
  induction Hall as [|f rest Hf _ IH]; intros feed group.
  - reflexivity.
  - cbn [after_feeds]. rewrite Hf. cbn [after_groups]. apply IH.
Qed.

(** ** Scenarios skipped at the poll *)

Lemma image_del_skipped E context force test_type w :
  test_images E <> [] ->
  (forall image, In image (test_images E) ->
                 poll_fails E context (calls w) image = true) ->
  skipped_at_poll E context (test_images E) w (image_del E context force test_type w).
Proof.
  intros Hne Hpoll. unfold image_del. cbv zeta.
  apply choose_then_poll_skips; assumption.
Qed.

Lemma evaluate_check_skipped E context test_type w :
  test_images E <> [] ->
  (forall image, In image (test_images E) ->
                 poll_fails E context (calls w) image = true) ->
  skipped_at_poll E context (test_images E) w (evaluate_check E context test_type w).
Proof.
  intros Hne Hpoll. unfold evaluate_check.
  apply choose_then_poll_skips; assumption.
Qed.

Lemma image_content_skipped E context test_type content_type w :
  content_images E content_type <> [] ->
  (forall image, In image (content_images E content_type) ->
                 poll_fails E context (calls w) image = true) ->
  skipped_at_poll E context (content_images E content_type) w
    (image_content E context test_type content_type w).
Proof.
  intros Hne Hpoll. unfold image_content, content_images in *.
  destruct (content_type =? "malware"); apply choose_then_poll_skips; assumption.
Qed.

Lemma image_metadata_skipped E context test_type w :
  test_images E <> [] ->
  (forall image, In image (test_images E) ->
                 poll_fails E context (calls w) image = true) ->
  skipped_at_poll E context (test_images E) w (image_metadata E context test_type w).
Proof.
  intros Hne Hpoll. unfold image_metadata. cbv zeta.
  apply choose_then_poll_skips; assumption.
Qed.

Lemma image_vuln_skipped E context test_type w :
  test_images E <> [] ->
  (forall image, In image (test_images E) ->
                 poll_fails E context (calls w) image = true) ->
  skipped_at_poll E context (test_images E) w (image_vuln E context test_type w).
Proof.
  intros Hne Hpoll. unfold image_vuln.
  apply choose_then_poll_skips; assumption.
Qed.

Lemma image_wait_skipped E context timeout interval test_type w :
  test_images E <> [] ->
  (forall image, In image (test_images E) ->
                 poll_fails E context (calls w) image = true) ->
  skipped_at_poll E context (test_images E) w
    (image_wait E context timeout interval test_type w).
Proof.
  intros Hne Hpoll. unfold image_wait. cbv zeta.
  apply choose_then_poll_skips; assumption.
Qed.

(** ** The exit code *)

(** The summary decides by the two fail lists alone. *)
Lemma log_results_summary_by_fail_lists (w w2 : World) :
  positive_fail (ledger w2) = positive_fail (ledger w) ->
  negative_fail (ledger w2) = negative_fail (ledger w) ->
  exit_status (fst (log_results_summary w2)) = exit_status (fst (log_results_summary w)).
Proof.
  intros Hp Hn. unfold log_results_summary. rewrite Hp, Hn.
  destruct (positive_fail (ledger w)), (negative_fail (ledger w)); reflexivity.
Qed.

(** C2. The exit code of the process is 1 exactly when the positive-fail or
    the negative-fail bucket is non-empty at summary time, and 0 when both
    are empty.  The two fail lists alone decide it, so a check that was
    skipped at its poll leaves the exit code as it was; and when the selected
    function returns, the exit code of [run_cli_driver] is the one the summary
    gives for the world that function left. *)
Theorem log_results_summary_exit_code :
  forall w : World,
    let code := exit_status (fst (log_results_summary w)) in
    (code = 1 <-> positive_fail (ledger w) <> [] \/ negative_fail (ledger w) <> [])
    /\ (code = 0 <-> positive_fail (ledger w) = [] /\ negative_fail (ledger w) = [])
    /\ (forall (E : Env) (context : Context) (images : list string)
               (outcome : result unit * World),
          skipped_at_poll E context images w outcome ->
          exit_status (fst (log_results_summary (snd outcome))) = code)
    /\ (forall (E : Env) (func : Context -> M unit) (context : Context)
               (w0 w1 : World),
          system_wait E context false w0 = (Ok tt, w1) ->
          func context w1 = (Ok tt, w) ->
          exit_status (fst (run_cli_driver E func context w0)) = code).
Proof.
  intros w. cbv zeta.
  split; [|split; [|split]].
  - unfold log_results_summary.
    destruct (positive_fail (ledger w)), (negative_fail (ledger w)); simpl;
      intuition (discriminate || congruence).
  - unfold log_results_summary.
    destruct (positive_fail (ledger w)), (negative_fail (ledger w)); simpl;
      intuition (discriminate || congruence).
  - intros E context images outcome (_ & Hledger & _).
    apply log_results_summary_by_fail_lists; rewrite Hledger; reflexivity.
  - intros E func context w0 w1 Hwait Hfunc.
    unfold run_cli_driver, bind. rewrite Hwait, Hfunc. reflexivity.
Qed.

Lemma log_results_summary_exit_code_witness :
  exit_status
    (fst (log_results_summary
            (snd (evaluate_check (env_of ["alpine"] nothing_works) admin "positive" fresh))))
  = exit_status (fst (log_results_summary fresh))
  /\ exit_status (fst (log_results_summary fresh)) = 0%Z.
Proof.
  pose proof (log_results_summary_exit_code fresh) as (_ & Hzero & Hskip & _).
  split.
  - apply (Hskip (env_of ["alpine"] nothing_works) admin ["alpine"]).
    apply evaluate_check_skipped; [discriminate|reflexivity].
  - apply Hzero. split; reflexivity.
Defined.

(** A run in which the one check is skipped: [python cli_driver.py evaluate]
    with a failing poll ends with exit status 0. *)
Lemma skipped_run_exits_with_0 :
  exit_status
    (fst (run_cli_driver (env_of ["alpine"] nothing_works)
            (fun context => evaluate_check (env_of ["alpine"] nothing_works) context "positive")
            admin fresh)) = 0%Z.
Proof. reflexivity. Qed.

(** ** What [except Exception] stops *)

Lemma fails_only_json_loads out : fails_only_with_exceptions (json_loads out).
Proof. intros e H. destruct out; inversion H; reflexivity. Qed.

Lemma fails_only_py_item j key : fails_only_with_exceptions (py_item j key).
Proof.
  intros e H. unfold py_item in H.
  destruct j; try (inversion H; reflexivity).
  destruct (dict_lookup key entries); inversion H; reflexivity.
Qed.

Lemma fails_only_py_index j i : fails_only_with_exceptions (py_index j i).
Proof.
  intros e H. unfold py_index in H.
  destruct j; try (inversion H; reflexivity).
  - destruct (nth_error (code_points s) i); inversion H; reflexivity.
  - destruct (nth_error items i); inversion H; reflexivity.
Qed.

Lemma fails_only_rbind {A B : Type} (r : result A) (k : A -> result B) :
  fails_only_with_exceptions r ->
  (forall a, fails_only_with_exceptions (k a)) ->
  fails_only_with_exceptions (rbind r k).
Proof.
  intros Hr Hk e H. destruct r as [a|e0]; simpl in H.
  - exact (Hk a e H).
  - inversion H; subst. exact (Hr e eq_refl).
Qed.

Lemma fails_only_image_detail_field image_data field :
  fails_only_with_exceptions (image_detail_field image_data field).
Proof.
  unfold image_detail_field.
  repeat (apply fails_only_rbind; [|intros ?]);
    first [apply fails_only_py_index | apply fails_only_py_item].
Qed.

Lemma raises_only_ret {A : Type} (a : A) : raises_only_exceptions (ret a).
Proof. intros w e w' H. discriminate H. Qed.

Lemma raises_only_lift {A : Type} (r : result A) :
  fails_only_with_exceptions r -> raises_only_exceptions (lift r).
Proof. intros Hr w e w' H. unfold lift in H. inversion H; subst. exact (Hr e eq_refl). Qed.

Lemma raises_only_raise {A : Type} (e : exn) :
  is_Exception e = true -> raises_only_exceptions (@raise A e).
Proof. intros He w e' w' H. inversion H; subst. exact He. Qed.

Lemma raises_only_bind {A B : Type} (m : M A) (k : A -> M B) :
  raises_only_exceptions m ->
  (forall a, raises_only_exceptions (k a)) ->
  raises_only_exceptions (bind m k).
Proof.
  intros Hm Hk w e w' H. unfold bind in H.
  destruct (m w) as [[a|e0] w1] eqn:Hrun.
  - exact (Hk a w1 e w' H).
  - inversion H; subst. exact (Hm w e w' Hrun).
Qed.

Lemma raises_only_try {A : Type} (m : M A) (h : exn -> M A) :
  raises_only_exceptions m ->
  (forall e, raises_only_exceptions (h e)) ->
  raises_only_exceptions (try_except m h).
Proof.
  intros Hm Hh w e w' H. unfold try_except in H.
  destruct (m w) as [[a|e0] w1] eqn:Hrun; [discriminate H|].
  rewrite (Hm w e0 w1 Hrun) in H. exact (Hh e0 w1 e w' H).
Qed.

Lemma raises_only_subprocess_run E command :
  raises_only_exceptions (subprocess_run E command).
Proof.
  intros w e w' H. unfold subprocess_run in H.
  destruct (tool E (calls w) command) as [[|p|p] out|]; inversion H; reflexivity.
Qed.

Lemma raises_only_log_results_simple desired_state state test_type action message :
  raises_only_exceptions
    (log_results_simple desired_state state test_type action message).
Proof.
  intros w e w' H.
  destruct (log_results_simple_one_record desired_state state test_type action message w)
    as [b Hb]. rewrite Hb in H. discriminate H.
Qed.

Lemma raises_only_log_explicit_failure test_type action message :
  raises_only_exceptions (log_explicit_failure test_type action message).
Proof.
  intros w e w' H. rewrite log_explicit_failure_fail_bucket in H. discriminate H.
Qed.

Lemma raises_only_random_choice {A : Type} (xs : list A) :
  raises_only_exceptions (random_choice xs).
Proof.
  intros w e w' H. destruct xs as [|x rest].
  - inversion H. reflexivity.
  - unfold random_choice, bind, draw, ret in H.
    destruct (entropy w); discriminate H.
Qed.

Ltac raises_only_tac :=
  repeat first
    [ apply raises_only_ret
    | apply raises_only_log_results_simple
    | apply raises_only_log_explicit_failure
    | apply raises_only_subprocess_run
    | apply raises_only_random_choice
    | apply raises_only_lift;
        first [ apply fails_only_json_loads | apply fails_only_image_detail_field
              | apply fails_only_py_item | apply fails_only_py_index ]
    | apply raises_only_raise; reflexivity
    | apply raises_only_bind; [|intros ?]
    | apply raises_only_try; [|intros ?]
    | match goal with
      | |- raises_only_exceptions (if ?b then _ else _) => destruct b
      | |- raises_only_exceptions (match ?e with _ => _ end) => destruct e
      end ].

Lemma raises_only_image_get_loop E context test_type return_images log todo :
  forall images,
    raises_only_exceptions
      (image_get_loop E context test_type return_images log todo images).
Proof.
  induction todo as [|image rest IH]; intros images; cbn [image_get_loop].
  - apply raises_only_ret.
  - cbv zeta. apply raises_only_bind; [|intros images'; apply IH].
    raises_only_tac.
Qed.

Lemma raises_only_random_image_data E context :
  raises_only_exceptions (random_image_data E context).
Proof.
  unfold random_image_data, image_get.
  apply raises_only_bind.
  - apply raises_only_bind; [apply raises_only_image_get_loop|intros ?].
    raises_only_tac.
  - intros images. raises_only_tac.
Qed.

(** The first step of the archive scenarios always returns. *)
Lemma pick_archive_image_returns E context test_type action w :
  exists picked w1, pick_archive_image E context test_type action w = (Ok picked, w1).
Proof.
  unfold pick_archive_image, try_except.
  match goal with |- context [?body w] =>
    match body with bind (random_image_data E context) _ =>
      assert (Hbody : raises_only_exceptions body);
      [|destruct (body w) as [[picked|e] w1] eqn:Hrun]
    end
  end.
  - apply raises_only_bind; [apply raises_only_random_image_data|intros ?].
    raises_only_tac.
  - eexists _, _. reflexivity.
  - rewrite (Hbody w e w1 Hrun).
    unfold bind. rewrite log_explicit_failure_fail_bucket. eexists _, _. reflexivity.
Qed.

Lemma analysis_archive_images_add_skipped E context test_type w :
  match pick_archive_image E context test_type "analysis_archive_images_add" w with
  | (Ok (Some (image, _)), w1) => poll_fails E context (calls w1) image = true
  | _ => True
  end ->
  skipped_after_pick E context
    (pick_archive_image E context test_type "analysis_archive_images_add" w)
    (analysis_archive_images_add E context test_type w).
Proof.
  intros Hpoll.
  destruct (pick_archive_image_returns E context test_type
              "analysis_archive_images_add" w) as (picked & w1 & Hpick).
  rewrite Hpick in Hpoll.
  assert (Hrun : analysis_archive_images_add E context test_type w
                 = (Ok tt, match picked with
                           | Some (image, _) => called (wait_command E context image) w1
                           | None => w1
                           end)).
  { unfold analysis_archive_images_add. unfold bind at 1. rewrite Hpick.
    destruct picked as [[image image_sha]|]; [|reflexivity].
    unfold bind at 1.
    rewrite (wait_for_image_fails E context image w1 Hpoll).
    reflexivity. }
  rewrite Hrun, Hpick. unfold skipped_after_pick. cbn [fst snd].
  destruct picked as [[image image_sha]|]; cbn [called ledger calls].
  - repeat split.
  - rewrite app_nil_r. repeat split.
Qed.

Lemma analysis_archive_images_del_skipped E context test_type w :
  match pick_archive_image E context test_type "analysis_archive_images_del" w with
  | (Ok (Some (image, _)), w1) => poll_fails E context (calls w1) image = true
  | _ => True
  end ->
  skipped_after_pick E context
    (pick_archive_image E context test_type "analysis_archive_images_del" w)
    (analysis_archive_images_del E context test_type w).
Proof.
  intros Hpoll.
  destruct (pick_archive_image_returns E context test_type
              "analysis_archive_images_del" w) as (picked & w1 & Hpick).
  rewrite Hpick in Hpoll.
  assert (Hrun : analysis_archive_images_del E context test_type w
                 = (Ok tt, match picked with
                           | Some (image, _) => called (wait_command E context image) w1
                           | None => w1
                           end)).
  { unfold analysis_archive_images_del. unfold bind at 1. rewrite Hpick.
    destruct picked as [[image image_sha]|]; [|reflexivity].
    unfold bind at 1.
    rewrite (wait_for_image_fails E context image w1 Hpoll).
    reflexivity. }
  rewrite Hrun, Hpick. unfold skipped_after_pick. cbn [fst snd].
  destruct picked as [[image image_sha]|]; cbn [called ledger calls].
  - repeat split.
  - rewrite app_nil_r. repeat split.
Qed.

(** ** What the archive scenarios file before the poll *)

Lemma with_positive_fails_nil (l : Ledger) : with_positive_fails [] l = l.
Proof. destruct l. unfold with_positive_fails. cbn. rewrite app_nil_r. reflexivity. Qed.

Lemma with_positive_fails_app (a b : list string) (l : Ledger) :
  with_positive_fails b (with_positive_fails a l) = with_positive_fails (a ++ b) l.
Proof. unfold with_positive_fails. cbn. rewrite app_assoc. reflexivity. Qed.

(** [image_get] as the helper of [random_image_data]: it returns the list of
    decoded images, and all it files is one positive-fail record for each
    image it could not get. *)
Lemma image_get_loop_as_helper E context todo :
  forall images w,
  exists images' failed w',
    image_get_loop E context "positive" true false todo images w = (Ok images', w')
    /\ Forall image_get_failure failed
    /\ ledger w' = with_positive_fails failed (ledger w).
Proof.
  induction todo as [|image rest IH]; intros images w.
  - exists images, [], w. cbn. rewrite with_positive_fails_nil. repeat split. constructor.
  - cbn [image_get_loop]. cbv zeta.
    set (command := assemble_command E context (" image get " ++ image)).
    assert (Hstep : exists images1 failed1 w1,
               try_except
                 (bind (subprocess_run E command) (fun completed_proc =>
                  bind (bind (lift (json_loads completed_proc))
                          (fun decoded => ret (images ++ [decoded])%list))
                       (fun images' => bind (ret tt) (fun _ => ret images'))))
                 (fun e =>
                    bind (log_explicit_failure "positive" "image_get"
                            ("failed to get image " ++ image))
                         (fun _ => ret images)) w
               = (Ok images1, w1)
               /\ Forall image_get_failure failed1
               /\ ledger w1 = with_positive_fails failed1 (ledger w)).
    { assert (Hfail : forall e, is_Exception e = true ->
                (if is_Exception e
                 then bind (log_explicit_failure "positive" "image_get"
                              ("failed to get image " ++ image))
                        (fun _ => ret images) (called command w)
                 else (Raise e, called command w))
                = (Ok images,
                   filed PositiveFail
                     (record_text "image_get" ("failed to get image " ++ image))
                     (called command w))).
      { intros e He. rewrite He. reflexivity. }
      assert (Hone : Forall image_get_failure
                       [record_text "image_get" ("failed to get image " ++ image)]).
      { constructor; [exists image; reflexivity | constructor]. }
      unfold try_except, bind at 1, subprocess_run. fold (called command w).
      destruct (tool E (calls w) command) as [[|p|p] [j|]|]; cbn [json_loads lift bind ret];
        first [ exists (images ++ [j])%list, [], (called command w);
                split; [reflexivity|]; split; [constructor|];
                rewrite with_positive_fails_nil; reflexivity
              | eexists images, _, _; split; [apply Hfail; reflexivity|];
                split; [exact Hone | reflexivity] ]. }
    destruct Hstep as (images1 & failed1 & w1 & Hrun1 & Hall1 & Hl1).
    unfold bind at 1. rewrite Hrun1.
    destruct (IH images1 w1) as (images2 & failed2 & w2 & Hrun2 & Hall2 & Hl2).
    exists images2, (failed1 ++ failed2)%list, w2.
    split; [exact Hrun2|]. split.
    + apply Forall_app. split; assumption.
    + rewrite Hl2, Hl1. apply with_positive_fails_app.
Qed.

Lemma keeps_ledger_ret {A : Type} (a : A) : keeps_ledger (ret a).
Proof. intros w. reflexivity. Qed.

Lemma keeps_ledger_lift {A : Type} (r : result A) : keeps_ledger (lift r).
Proof. intros w. reflexivity. Qed.

Lemma keeps_ledger_bind {A B : Type} (m : M A) (k : A -> M B) :
  keeps_ledger m -> (forall a, keeps_ledger (k a)) -> keeps_ledger (bind m k).
Proof.
  intros Hm Hk w. unfold bind. specialize (Hm w).
  destruct (m w) as [[a|e] w']; simpl in *.
  - rewrite Hk. exact Hm.
  - exact Hm.
Qed.

Lemma keeps_ledger_random_choice {A : Type} (xs : list A) :
  keeps_ledger (random_choice xs).
Proof.
  intros w. destruct xs as [|x rest]; [reflexivity|].
  unfold random_choice, bind, draw, ret. destruct (entropy w); reflexivity.
Qed.

(** When the first step of an archive scenario picks an image, all it has
    filed is what [image_get] filed: positive-fail records for the images it
    could not get. *)
Lemma pick_archive_image_files E context test_type action w picked w1 :
  pick_archive_image E context test_type action w = (Ok (Some picked), w1) ->
  exists failed,
    Forall image_get_failure failed
    /\ ledger w1 = with_positive_fails failed (ledger w).
Proof.
  unfold pick_archive_image, try_except, random_image_data, image_get.
  intros Hpick.
  destruct (image_get_loop_as_helper E context (test_images E) [] w)
    as (images & failed & w0 & Hloop & Hall & Hl).
  exists failed. split; [exact Hall|].
  unfold bind at 1 2 3 in Hpick. rewrite Hloop in Hpick. cbn [ret] in Hpick.
  set (tail := bind (random_choice images) (fun image_data =>
               bind (lift (image_detail_field image_data "repo")) (fun repo =>
               bind (lift (image_detail_field image_data "tag")) (fun tag =>
               bind (lift (image_detail_field image_data "digest")) (fun image_sha =>
               ret (Some (py_str E repo ++ ":" ++ py_str E tag, image_sha))))))).
  assert (Htail : keeps_ledger tail).
  { unfold tail. apply keeps_ledger_bind; [apply keeps_ledger_random_choice|intros ?].
    repeat (apply keeps_ledger_bind; [apply keeps_ledger_lift|intros ?]).
    apply keeps_ledger_ret. }
  assert (Hsame : (let (r, w') := tail w0 in
                   match r with
                   | Ok a => (Ok a, w')
                   | Raise e =>
                       if is_Exception e
                       then bind (log_explicit_failure test_type action
                                    ("error " ++ exn_str E e))
                              (fun _ => ret None) w'
                       else (Raise e, w')
                   end) = (Ok (Some picked), w1)).
  { exact Hpick. }
  clear Hpick. specialize (Htail w0).
  destruct (tail w0) as [[a|e] w'] eqn:Hrun; cbn [snd] in Htail.
  - inversion Hsame; subst. rewrite Htail. exact Hl.
  - destruct (is_Exception e).
    + unfold bind in Hsame. rewrite log_explicit_failure_fail_bucket in Hsame.
      discriminate Hsame.
    + discriminate Hsame.
Qed.

(** A skipped [image_del], spelled out: nothing is filed and the poll is the
    one command run. *)
Lemma image_del_skipped_run :
  image_del (env_of ["alpine"] nothing_works) admin false "negative" fresh
  = (Ok tt,
     mkWorld empty_ledger
       ["cli --u admin --p foobar --url http://localhost/v1  image wait alpine"] []).
Proof. reflexivity. Qed.

(** [analysis_archive_images_add] when [image get] knows one of the two
    configured images and the poll for the picked image fails: the function
    returns without running the archive command, and the ledger holds the
    record that [image_get] filed for the other image. *)
Lemma analysis_archive_images_add_files_before_poll :
  poll_fails (env_of ["alpine"; "busybox"] one_image_known) admin
    ["cli --u admin --p foobar --url http://localhost/v1  image get alpine";
     "cli --u admin --p foobar --url http://localhost/v1  image get busybox"]
    "alpine:latest" = true
  /\ analysis_archive_images_add (env_of ["alpine"; "busybox"] one_image_known)
       admin "positive" fresh
     = (Ok tt,
        mkWorld (mkLedger [] ["image_get - failed to get image busybox"] [] [])
          ["cli --u admin --p foobar --url http://localhost/v1  image get alpine";
           "cli --u admin --p foobar --url http://localhost/v1  image get busybox";
           "cli --u admin --p foobar --url http://localhost/v1  image wait alpine:latest"]
          []).
Proof. split; reflexivity. Qed.

(** ** Waiting for the system and for an image *)

(** The driver itself does not retry: [system_wait] hands the timeout and
    the interval to the tool and runs that one command, whatever they are and
    however the command ends. *)
Lemma system_wait_one_command (E : Env) (context : Context) (log : bool) (w : World) :
  test_images E <> [] ->
  calls (snd (system_wait E context log w))
  = (calls w
     ++ [assemble_command E context
           (" system wait --timeout " ++ str_int (default_system_wait_timeout E)
            ++ " --interval " ++ str_int (default_system_wait_interval E))])%list.
Proof.
  intros Hne. unfold system_wait. cbv zeta.
  destruct (random_choice_returns (test_images E) w Hne) as (image & w1 & Hrun & _ & _ & Hc).
  unfold bind at 1. rewrite Hrun. rewrite try_one_command.
  - rewrite Hc. reflexivity.
  - intros out. keeps_calls_tac.
  - intros e. keeps_calls_tac.
Qed.

(** [image_wait] does the same with its [timeout] and [interval]: after the
    precondition poll it runs the tool's own wait once, with the two values
    on the command line, or nothing more when the poll failed. *)
Lemma image_wait_commands (E : Env) (context : Context) (timeout interval : Z)
    (test_type : string) (w : World) :
  test_images E <> [] ->
  exists image,
    In image (test_images E)
    /\ (calls (snd (image_wait E context timeout interval test_type w))
        = (calls w ++ [wait_command E context image])%list
        \/ calls (snd (image_wait E context timeout interval test_type w))
           = (calls w
              ++ [wait_command E context image;
                  assemble_command E context
                    (" image wait " ++ image ++ " --timeout " ++ str_int timeout
                     ++ " --interval " ++ str_int interval)])%list).
Proof.
  intros Hne.
  destruct (random_choice_returns (test_images E) w Hne) as (image & w1 & Hrun & Hin & _ & Hc).
  exists image. split; [exact Hin|].
  remember (image_wait E context timeout interval test_type w) as outcome eqn:Hout.
  unfold image_wait in Hout. cbv zeta in Hout. unfold bind at 1 in Hout.
  rewrite Hrun in Hout. unfold bind at 1 in Hout.
  assert (Hwait : calls (snd (wait_for_image E context image w1))
                  = (calls w ++ [wait_command E context image])%list).
  { unfold wait_for_image. cbv zeta. fold (wait_command E context image).
    rewrite try_one_command; [rewrite Hc; reflexivity | |]; intros ?; keeps_calls_tac. }
  destruct (wait_for_image E context image w1) as [[[|]|e] w2]; cbn [snd] in *;
    subst outcome.
  - right. rewrite try_one_command; [| intros ?; keeps_calls_tac ..].
    rewrite Hwait, <- app_assoc. reflexivity.
  - left. exact Hwait.
  - left. exact Hwait.
Qed.

(** ** One command, one record *)

Lemma log_results_simple_classify desired_state state test_type action message w :
  log_results_simple desired_state state test_type action message w
  = (Ok tt, filed (classify desired_state state test_type)
              (record_text action message) w).
Proof.
  unfold log_results_simple, classify.
  destruct (py_eq state desired_state), (test_type =? "positive"); reflexivity.
Qed.

Lemma classify_same x test_type :
  pass_or_declared_fail test_type (classify x x test_type).
Proof.
  unfold classify, pass_or_declared_fail, fail_bucket. rewrite py_eq_refl.
  destruct (test_type =? "positive") eqn:Ht.
  - right. split; [apply String.eqb_eq; exact Ht | reflexivity].
  - left. reflexivity.
Qed.

Lemma fails_only_py_get j key : fails_only_with_exceptions (py_get j key).
Proof. intros e H. destruct j; inversion H; reflexivity. Qed.

Lemma fails_only_py_len j : fails_only_with_exceptions (py_len j).
Proof. intros e H. destruct j; inversion H; reflexivity. Qed.

Lemma fails_only_py_iter j : fails_only_with_exceptions (py_iter j).
Proof. intros e H. destruct j; inversion H; reflexivity. Qed.

Lemma fails_only_py_contains key j : fails_only_with_exceptions (py_contains key j).
Proof. intros e H. destruct j; inversion H; reflexivity. Qed.

Lemma fails_only_ok {A : Type} (a : A) : fails_only_with_exceptions (Ok a).
Proof. intros e H. discriminate H. Qed.

Ltac fails_only_tac :=
  repeat first
    [ apply fails_only_json_loads | apply fails_only_py_get
    | apply fails_only_py_item | apply fails_only_py_index
    | apply fails_only_py_len | apply fails_only_py_iter
    | apply fails_only_py_contains | apply fails_only_image_detail_field
    | apply fails_only_ok
    | apply fails_only_rbind; [|intros ?]
    | match goal with
      | |- fails_only_with_exceptions (match ?x with _ => _ end) => destruct x
      end ].

Lemma fails_only_system_status_service service :
  fails_only_with_exceptions (system_status_service service).
Proof. unfold system_status_service. fails_only_tac. Qed.

Lemma only_computes_ret {A : Type} (a : A) : only_computes (ret a).
Proof. intros w. split; [reflexivity | intros e H; discriminate H]. Qed.

Lemma only_computes_lift {A : Type} (r : result A) :
  fails_only_with_exceptions r -> only_computes (lift r).
Proof. intros Hr w. split; [reflexivity | intros e H; exact (Hr e H)]. Qed.

Lemma only_computes_bind {A B : Type} (m : M A) (k : A -> M B) :
  only_computes m -> (forall a, only_computes (k a)) -> only_computes (bind m k).
Proof.
  intros Hm Hk w. unfold bind. destruct (Hm w) as [Hw He].
  destruct (m w) as [[a|e] w']; cbn [fst snd] in *; subst w'.
  - apply Hk.
  - split; [reflexivity|]. intros e0 H. inversion H; subst. exact (He e0 eq_refl).
Qed.

Lemma only_computes_for_each {A : Type} (xs : list A) (body : A -> M unit) :
  (forall x, only_computes (body x)) -> only_computes (for_each xs body).
Proof.
  intros Hbody. induction xs as [|x rest IH]; cbn [for_each].
  - apply only_computes_ret.
  - apply only_computes_bind; [apply Hbody | intros _; exact IH].
Qed.

Ltac only_computes_tac :=
  repeat first
    [ apply only_computes_ret
    | apply only_computes_lift; fails_only_tac
    | apply fails_only_system_status_service
    | apply only_computes_for_each; intros ?
    | apply only_computes_bind; [|intros ?]
    | match goal with
      | |- only_computes (if ?b then _ else _) => destruct b
      end ].

Lemma files_into_log_results_simple (allowed : bucket -> Prop)
    desired_state state test_type action message :
  allowed (classify desired_state state test_type) ->
  files_into allowed (log_results_simple desired_state state test_type action message).
Proof.
  intros Hb w. rewrite log_results_simple_classify.
  eexists _, _. split; [exact Hb | reflexivity].
Qed.

Lemma files_into_log_explicit_failure (allowed : bucket -> Prop)
    test_type action message :
  allowed (fail_bucket test_type) ->
  files_into allowed (log_explicit_failure test_type action message).
Proof.
  intros Hb w. rewrite log_explicit_failure_fail_bucket.
  eexists _, _. split; [exact Hb | reflexivity].
Qed.

Lemma files_into_bind {A B : Type} (allowed : bucket -> Prop) (m : M A) (k : A -> M B) :
  only_computes m -> (forall a, files_into allowed (k a)) ->
  files_into allowed (bind m k).
Proof.
  intros Hm Hk w. unfold bind. destruct (Hm w) as [Hw He].
  destruct (m w) as [[a|e] w']; cbn [fst snd] in *; subst w'.
  - apply Hk.
  - split; [reflexivity | exact (He e eq_refl)].
Qed.

Lemma any_bucket_holds (b : bucket) : any_bucket b.
Proof. exact I. Qed.

Lemma declared_fail_allowed test_type :
  pass_or_declared_fail test_type (fail_bucket test_type).
Proof. left. reflexivity. Qed.

Ltac files_into_tac :=
  repeat first
    [ apply files_into_log_results_simple;
        first [ apply any_bucket_holds | apply classify_same ]
    | apply files_into_log_explicit_failure;
        first [ apply any_bucket_holds | apply declared_fail_allowed ]
    | apply files_into_bind; [only_computes_tac | intros ?]
    | match goal with
      | |- files_into _ (if ?b then _ else _) => destruct b
      end ].

(** One command under a [try], followed by decoding and one filing, with a
    handler that files: the scenario returns with that command run and one
    record filed. *)
Lemma command_then_file (E : Env) (allowed : bucket -> Prop) (command : string)
    (k : stdout -> M unit) (h : exn -> M unit) :
  (forall out, files_into allowed (k out)) ->
  (forall e w, exists b r, allowed b /\ h e w = (Ok tt, filed b r w)) ->
  one_command_one_record allowed command
    (try_except (bind (subprocess_run E command) k) h).
Proof.
  intros Hk Hh w. unfold try_except, bind, subprocess_run. fold (called command w).
  assert (Hfail : forall e, is_Exception e = true ->
            exists b r, allowed b
              /\ (if is_Exception e then h e (called command w)
                  else (Raise e, called command w))
                 = (Ok tt, filed b r (called command w))).
  { intros e He. rewrite He. apply Hh. }
  destruct (tool E (calls w) command) as [[|p|p] out|];
    try (apply Hfail; reflexivity).
  specialize (Hk out (called command w)).
  destruct (k out (called command w)) as [[[]|e] w'].
  - destruct Hk as (b & r & Hb & ->). exists b, r. split; [exact Hb | reflexivity].
  - destruct Hk as [-> He]. apply Hfail. exact He.
Qed.

Lemma explicit_failure_handler (allowed : bucket -> Prop) test_type action message :
  allowed (fail_bucket test_type) ->
  forall w, exists b r,
    allowed b /\ log_explicit_failure test_type action message w = (Ok tt, filed b r w).
Proof.
  intros Hb w. rewrite log_explicit_failure_fail_bucket.
  eexists _, _. split; [exact Hb | reflexivity].
Qed.

Ltac one_command_tac :=
  cbv zeta; apply command_then_file;
    [ intros ?; files_into_tac
    | intros ?; apply explicit_failure_handler;
        first [ apply any_bucket_holds | apply declared_fail_allowed ] ].

(** X1. [account_get], [account_disable], [account_enable] and
    [registry_list] end the same way whatever the tool does: they return,
    having run their one command and filed exactly one record. *)
Theorem single_command_scenarios_file_one_record :
  forall (E : Env) (context : Context) (name test_type : string),
    one_command_one_record any_bucket
      (assemble_command E context (" account get " ++ name))
      (account_get E context name test_type)
    /\ one_command_one_record any_bucket
         (assemble_command E context (" account disable " ++ name))
         (account_disable E context name test_type)
    /\ one_command_one_record any_bucket
         (assemble_command E context (" account enable " ++ name))
         (account_enable E context name test_type)
    /\ one_command_one_record any_bucket
         (assemble_command E context " registry list")
         (registry_list E context test_type).
Proof.
  intros E context name test_type.
  split; [|split; [|split]].
  - unfold account_get. one_command_tac.
  - unfold account_disable. one_command_tac.
  - unfold account_enable. one_command_tac.
  - unfold registry_list. one_command_tac.
Qed.

(** X2. The listing scenarios [image_list], [repo_list],
    [subscription_list], [system_status] and [system_errorcodes] return
    whatever the tool does, having run their one command and filed exactly
    one record.  The record is a positive pass only when the declared
    polarity is positive; in every other case it lands in the fail bucket of
    the declared polarity.  So none of them ever files a negative pass:
    declared negative, they fail whatever happens. *)
Theorem listing_scenarios_never_pass_as_negative :
  forall (E : Env) (context : Context) (test_type : string),
    one_command_one_record (pass_or_declared_fail test_type)
      (assemble_command E context " image list") (image_list E context test_type)
    /\ one_command_one_record (pass_or_declared_fail test_type)
         (assemble_command E context " repo list") (repo_list E context test_type)
    /\ one_command_one_record (pass_or_declared_fail test_type)
         (assemble_command E context " subscription list")
         (subscription_list E context test_type)
    /\ one_command_one_record (pass_or_declared_fail test_type)
         (assemble_command E context " system status")
         (system_status E context test_type)
    /\ one_command_one_record (pass_or_declared_fail test_type)
         (assemble_command E context " system errorcodes")
         (system_errorcodes E context test_type).
Proof.
  intros E context test_type.
  split; [|split; [|split; [|split]]].
  - unfold image_list. one_command_tac.
  - unfold repo_list. one_command_tac.
  - unfold subscription_list. one_command_tac.
  - unfold system_status. one_command_tac.
  - unfold system_errorcodes. one_command_tac.
Qed.

(** ** Helpers called without logging *)

Lemma command_then_compute {A : Type} (E : Env) (command : string)
    (k : stdout -> M A) (h : exn -> M A) (otherwise : A) :
  (forall out, only_computes (k out)) ->
  (forall e w, h e w = (Ok otherwise, w)) ->
  forall w, exists a,
    try_except (bind (subprocess_run E command) k) h w = (Ok a, called command w).
Proof.
  intros Hk Hh w. unfold try_except, bind, subprocess_run. fold (called command w).
  assert (Hfail : forall e, is_Exception e = true ->
            exists a,
              (if is_Exception e then h e (called command w)
               else (Raise e, called command w))
              = (Ok a, called command w)).
  { intros e He. rewrite He, Hh. exists otherwise. reflexivity. }
  destruct (tool E (calls w) command) as [[|p|p] out|];
    try (apply Hfail; reflexivity).
  destruct (Hk out (called command w)) as [Hw He].
  destruct (k out (called command w)) as [[a|e] w']; cbn [fst snd] in *; subst w'.
  - exists a. reflexivity.
  - apply Hfail. exact (He e eq_refl).
Qed.

Lemma account_add_without_log E context name email test_type w :
  account_add E context name email test_type false w
  = (Ok tt,
     called (assemble_command E context
               (" account add --email " ++ email ++ " " ++ name)) w).
Proof.
  unfold account_add. cbv zeta.
  destruct (command_then_compute E
              (assemble_command E context
                 (" account add --email " ++ email ++ " " ++ name))
              (fun completed_proc =>
                 bind (lift (json_loads completed_proc)) (fun response =>
                 bind (lift (py_get response "state")) (fun state => ret tt)))
              (fun e => ret tt) tt) with (w := w) as [[] Hrun].
  - intros out. only_computes_tac.
  - reflexivity.
  - exact Hrun.
Qed.

Lemma account_user_add_without_log E context account username userpass test_type w :
  account_user_add E context account username userpass test_type false w
  = (Ok tt,
     called (assemble_command E context
               (" account user add --account " ++ account ++ " " ++ username
                ++ " " ++ userpass)) w).
Proof.
  unfold account_user_add. cbv zeta.
  destruct (command_then_compute E
              (assemble_command E context
                 (" account user add --account " ++ account ++ " " ++ username
                  ++ " " ++ userpass))
              (fun completed_proc =>
                 bind (lift (json_loads completed_proc)) (fun response =>
                 bind (lift (py_get response "created_at")) (fun created =>
                 bind (lift (py_get response "username")) (fun user => ret tt))))
              (fun e => ret tt) tt) with (w := w) as [[] Hrun].
  - intros out. only_computes_tac.
  - reflexivity.
  - exact Hrun.
Qed.

(** X3. Called with [log=False], [account_add], [account_user_add] and
    [system_feeds_list] are silent helpers: whatever the tool does they
    return, having run their one command and filed nothing. *)
Theorem helpers_without_log_file_nothing :
  forall (E : Env) (context : Context)
         (name email account username userpass test_type : string)
         (return_feeds : bool) (w : World),
    account_add E context name email test_type false w
      = (Ok tt,
         called (assemble_command E context
                   (" account add --email " ++ email ++ " " ++ name)) w)
    /\ account_user_add E context account username userpass test_type false w
       = (Ok tt,
          called (assemble_command E context
                    (" account user add --account " ++ account ++ " " ++ username
                     ++ " " ++ userpass)) w)
    /\ exists feeds,
         system_feeds_list E context test_type return_feeds false w
         = (Ok feeds, called (assemble_command E context " system feeds list") w).
Proof.
  intros E context name email account username userpass test_type return_feeds w.
  split; [|split].
  - apply account_add_without_log.
  - apply account_user_add_without_log.
  - unfold system_feeds_list. cbv zeta.
    apply command_then_compute with (otherwise := JNull).
    + intros out. only_computes_tac.
    + reflexivity.
Qed.

(** ** One record for each configured item *)

Lemma one_record_per_item {A : Type} (allowed : bucket -> Prop)
    (step : A -> M unit) (command : A -> string) (loop : list A -> M unit) :
  (forall x, one_command_one_record allowed (command x) (step x)) ->
  loop [] = ret tt ->
  (forall x rest, loop (x :: rest) = bind (step x) (fun _ => loop rest)) ->
  forall todo, one_record_per_command (map command todo) (loop todo).
Proof.
  intros Hstep Hnil Hcons todo.
  induction todo as [|x rest IH]; intros w.
  - rewrite Hnil. exists w. cbn [map length]. rewrite app_nil_r, Nat.add_0_r.
    repeat split; reflexivity.
  - rewrite Hcons. unfold bind at 1.
    destruct (Hstep x w) as (b & r & _ & ->).
    destruct (IH (filed b r (called (command x) w))) as (w' & Hrun & Hc & Ht & He).
    exists w'. split; [exact Hrun|]. split; [|split].
    + rewrite Hc. cbn [filed called calls map]. rewrite <- app_assoc. reflexivity.
    + rewrite Ht. cbn [filed called ledger map length]. rewrite file_total. lia.
    + rewrite He. reflexivity.
Qed.

(** X4. [image_add], [repo_add] and [repo_get] go through their whole list
    whatever the tool does: they return, having run one command and filed
    exactly one record for each configured item, in the order of the
    lists. *)
Theorem per_item_scenarios_file_one_record_each :
  forall (E : Env) (repositories clean_images : list string) (context : Context)
         (test_type : string),
    one_record_per_command
      (map (fun image => assemble_command E context (" image add " ++ image))
           (test_images E ++ malware_images E ++ clean_images))
      (image_add E clean_images context test_type)
    /\ one_record_per_command
         (map (fun repo => assemble_command E context (" repo add " ++ repo))
              repositories)
         (repo_add E repositories context test_type)
    /\ one_record_per_command
         (map (fun repo => assemble_command E context (" repo get " ++ repo))
              repositories)
         (repo_get E repositories context test_type).
Proof.
  intros E repositories clean_images context test_type.
  split; [|split].
  - unfold image_add.
    apply (one_record_per_item any_bucket
             (fun image =>
                try_except
                  (bind (subprocess_run E
                           (assemble_command E context (" image add " ++ image)))
                     (fun completed_proc =>
                      bind (lift (json_loads completed_proc)) (fun response =>
                      bind (lift (py_index response 0)) (fun first =>
                      bind (lift (py_item first "image_status")) (fun image_status =>
                      log_results_simple image_status (JStr "active") test_type
                        "image_add" ("added image " ++ image))))))
                  (fun e =>
                     log_explicit_failure test_type "image_add"
                       ("failed to add image " ++ image)))).
    + intros image. one_command_tac.
    + reflexivity.
    + intros image rest. reflexivity.
  - unfold repo_add.
    apply (one_record_per_item any_bucket
             (fun repo =>
                try_except
                  (bind (subprocess_run E
                           (assemble_command E context (" repo add " ++ repo)))
                     (fun completed_proc =>
                      bind (lift (json_loads completed_proc)) (fun response =>
                      bind (lift (py_index response 0)) (fun first =>
                      bind (lift (py_item first "active")) (fun _ =>
                      log_results_simple (JStr "ok") (JStr "ok") test_type
                        "repo_add" ("added repo " ++ repo))))))
                  (fun e =>
                     log_explicit_failure test_type "repo_add"
                       ("failed to add repo " ++ repo)))).
    + intros repo. one_command_tac.
    + reflexivity.
    + intros repo rest. reflexivity.
  - unfold repo_get.
    apply (one_record_per_item any_bucket
             (fun repo =>
                try_except
                  (bind (subprocess_run E
                           (assemble_command E context (" repo get " ++ repo)))
                     (fun completed_proc =>
                      bind (lift (json_loads completed_proc)) (fun response =>
                      bind (lift (py_index response 0)) (fun first =>
                      bind (lift (py_item first "active")) (fun repo_active =>
                      log_results_simple (JStr "ok") (JStr "ok") test_type
                        "repo_get"
                        ("repo " ++ repo ++ " status: " ++ py_str E repo_active))))))
                  (fun e =>
                     log_explicit_failure test_type "repo_get"
                       ("failed to get repo " ++ repo)))).
    + intros repo. one_command_tac.
    + reflexivity.
    + intros repo rest. reflexivity.
Qed.

(** ** [image_get] image by image *)

Lemma image_get_loop_cons E context test_type return_images log image rest images w :
  image_get_loop E context test_type return_images log (image :: rest) images w
  = match image_get_loop E context test_type return_images log [image] images w with
    | (Ok images', w') =>
        image_get_loop E context test_type return_images log rest images' w'
    | (Raise e, w') => (Raise e, w')
    end.
Proof.
  cbn [image_get_loop]. cbv zeta.
  match goal with |- context [try_except ?b ?h] => set (step := try_except b h) end.
  unfold bind. destruct (step w) as [[images'|e] w']; reflexivity.
Qed.

(** One image: the command is run and the loop goes on.  Either nothing was
    filed, which takes [log=False] and a success, or one record was filed,
    and then the list of images is as before unless [log] is set. *)
Lemma image_get_one E context test_type return_images log image images w :
  exists images1 w1,
    image_get_loop E context test_type return_images log [image] images w
      = (Ok images1, w1)
    /\ calls w1 = (calls w ++ [assemble_command E context (" image get " ++ image)])%list
    /\ entropy w1 = entropy w
    /\ ((ledger w1 = ledger w /\ log = false
         /\ (return_images = true -> length images1 = S (length images)))
        \/ (exists b r, ledger w1 = file b r (ledger w)
                        /\ (log = true \/ images1 = images))).
Proof.
  cbn [image_get_loop]. cbv zeta.
  unfold try_except, bind, subprocess_run, lift, ret.
  destruct (tool E (calls w) (assemble_command E context (" image get " ++ image)))
    as [[|p|p] [j|]|], return_images, log;
    cbn [json_loads is_Exception];
    rewrite ?log_results_simple_classify, ?log_explicit_failure_fail_bucket;
    cbn [is_Exception];
    rewrite ?log_results_simple_classify, ?log_explicit_failure_fail_bucket;
    eexists _, _; (split; [reflexivity|]);
    (split; [reflexivity|]); (split; [reflexivity|]);
    first [ left; split; [reflexivity|]; split; [reflexivity|];
            intros _; rewrite ?length_app; cbn [length]; lia
          | left; split; [reflexivity|]; split; [reflexivity|];
            intros H; discriminate H
          | right; eexists _, _; split; [reflexivity|]; left; reflexivity
          | right; eexists _, _; split; [reflexivity|]; right; reflexivity ].
Qed.

(** X5. With logging on, [image_get] accounts for every configured image:
    it returns whatever the tool does, having run one [image get] and filed
    exactly one record for each image of [config.test_images]. *)
Theorem image_get_files_one_record_per_image :
  forall (E : Env) (context : Context) (test_type : string) (return_images : bool)
         (w : World),
  exists images w',
    image_get E context test_type return_images true w = (Ok images, w')
    /\ calls w' = (calls w ++ image_get_commands E context)%list
    /\ total (ledger w') = (total (ledger w) + length (test_images E))%nat
    /\ entropy w' = entropy w.
Proof.
  intros E context test_type return_images w.
  assert (Hloop : forall todo images w0,
            exists images' w',
              image_get_loop E context test_type return_images true todo images w0
                = (Ok images', w')
              /\ calls w'
                 = (calls w0
                    ++ map (fun image =>
                              assemble_command E context (" image get " ++ image))
                         todo)%list
              /\ total (ledger w') = (total (ledger w0) + length todo)%nat
              /\ entropy w' = entropy w0).
  { induction todo as [|image rest IH]; intros images w0.
    - exists images, w0. cbn. rewrite app_nil_r, Nat.add_0_r. repeat split; reflexivity.
    - rewrite image_get_loop_cons.
      destruct (image_get_one E context test_type return_images true image images w0)
        as (images1 & w1 & -> & Hc1 & He1 & Hl1).
      destruct (IH images1 w1) as (images' & w' & Hrun & Hc & Ht & He).
      exists images', w'. split; [exact Hrun|]. split; [|split].
      + rewrite Hc, Hc1. cbn [map]. rewrite <- app_assoc. reflexivity.
      + rewrite Ht. destruct Hl1 as [(_ & Hlog & _) | (b & r & Hl & _)];
          [discriminate Hlog|].
        rewrite Hl, file_total. cbn [length]. lia.
      + rewrite He, He1. reflexivity. }
  unfold image_get, image_get_commands. unfold bind at 1.
  destruct (Hloop (test_images E) [] w) as (images' & w' & -> & Hc & Ht & He).
  destruct return_images; eexists _, w'; (split; [reflexivity|]);
    split; [exact Hc | split; [exact Ht | exact He] | exact Hc | split; [exact Ht | exact He]].
Qed.

(** X6. As the helper of [random_image_data] ([return_images=True],
    [log=False]), [image_get] loses no image silently: every configured
    image is either in the list it returns or stands in the ledger as one
    failure record, so the length of the list and the number of new records
    add up to the number of configured images. *)
Theorem image_get_returns_or_records_each_image :
  forall (E : Env) (context : Context) (test_type : string) (w : World),
  exists images w',
    image_get E context test_type true false w = (Ok (Some images), w')
    /\ (length images + total (ledger w'))%nat
       = (length (test_images E) + total (ledger w))%nat
    /\ calls w' = (calls w ++ image_get_commands E context)%list.
Proof.
  intros E context test_type w.
  assert (Hloop : forall todo images w0,
            exists images' w',
              image_get_loop E context test_type true false todo images w0
                = (Ok images', w')
              /\ (length images' + total (ledger w'))%nat
                 = (length images + length todo + total (ledger w0))%nat
              /\ calls w'
                 = (calls w0
                    ++ map (fun image =>
                              assemble_command E context (" image get " ++ image))
                         todo)%list).
  { induction todo as [|image rest IH]; intros images w0.
    - exists images, w0. cbn. rewrite app_nil_r. split; [reflexivity|]. split; [lia|reflexivity].
    - rewrite image_get_loop_cons.
      destruct (image_get_one E context test_type true false image images w0)
        as (images1 & w1 & -> & Hc1 & He1 & Hl1).
      destruct (IH images1 w1) as (images' & w' & Hrun & Hn & Hc).
      exists images', w'. split; [exact Hrun|]. split.
      + rewrite Hn. cbn [length].
        destruct Hl1 as [(Hl & _ & Hlen) | (b & r & Hl & [Hlog | Himages])].
        * rewrite Hl, (Hlen eq_refl). lia.
        * discriminate Hlog.
        * rewrite Hl, file_total, Himages. lia.
      + rewrite Hc, Hc1. cbn [map]. rewrite <- app_assoc. reflexivity. }
  unfold image_get, image_get_commands. unfold bind at 1.
  destruct (Hloop (test_images E) [] w) as (images' & w' & -> & Hn & Hc).
  exists images', w'. split; [reflexivity|]. split; [|exact Hc].
  rewrite Hn. cbn [length]. lia.
Qed.

(** ** An empty list of test images *)

(** X7. With an empty [config.test_images] nothing can be run at all:
    [system_wait] draws an image it never uses, the draw raises
    [IndexError] before any command is run, and [run_cli_driver] ends on
    that exception whichever command was asked for, with nothing run and
    nothing filed.  The scenarios that draw a test image fail in the same
    way. *)
Theorem empty_test_images_stop_the_run :
  forall (E : Env) (func : Context -> M unit) (context : Context) (w : World),
    test_images E = [] ->
    run_cli_driver E func context w = (Raise IndexError, w)
    /\ (forall log, system_wait E context log w = (Raise IndexError, w))
    /\ (forall force test_type,
          image_del E context force test_type w = (Raise IndexError, w))
    /\ (forall test_type, evaluate_check E context test_type w = (Raise IndexError, w))
    /\ (forall test_type, image_metadata E context test_type w = (Raise IndexError, w))
    /\ (forall test_type, image_vuln E context test_type w = (Raise IndexError, w))
    /\ (forall timeout interval test_type,
          image_wait E context timeout interval test_type w = (Raise IndexError, w)).
Proof.
  intros E func context w Hempty.
  unfold run_cli_driver, system_wait, image_del, evaluate_check, image_metadata,
    image_vuln, image_wait.
  rewrite Hempty. repeat split.
Qed.

Lemma empty_test_images_stop_the_run_witness :
  run_cli_driver (env_of [] (fun _ _ => Exited 0 (Decodes (JDict [])))) (fun _ => ret tt)
    admin fresh
  = (Raise IndexError, fresh).
Proof.
  exact (proj1 (empty_test_images_stop_the_run
                  (env_of [] (fun _ _ => Exited 0 (Decodes (JDict []))))
                  (fun _ => ret tt) admin fresh eq_refl)).
Defined.

(** X8. With an empty [config.test_images] the two archive scenarios do not
    raise: [random.choice] fails inside their first [try], and each of them
    returns with one explicit failure filed under the declared polarity and
    no command run. *)
Theorem archive_scenarios_without_images :
  forall (E : Env) (context : Context) (test_type : string) (w : World),
    test_images E = [] ->
    analysis_archive_images_add E context test_type w
      = (Ok tt,
         filed (fail_bucket test_type)
           (record_text "analysis_archive_images_add" ("error " ++ exn_str E IndexError))
           w)
    /\ analysis_archive_images_del E context test_type w
       = (Ok tt,
          filed (fail_bucket test_type)
            (record_text "analysis_archive_images_del" ("error " ++ exn_str E IndexError))
            w).
Proof.
  intros E context test_type w Hempty.
  unfold analysis_archive_images_add, analysis_archive_images_del, pick_archive_image,
    random_image_data, image_get.
  rewrite Hempty. cbn [image_get_loop].
  unfold try_except, bind, ret, random_choice, raise. cbn [is_Exception].
  rewrite !log_explicit_failure_fail_bucket. split; reflexivity.
Qed.

Lemma archive_scenarios_without_images_witness :
  analysis_archive_images_add (env_of [] nothing_works) admin "positive" fresh
  = (Ok tt, filed PositiveFail "analysis_archive_images_add - error error" fresh).
Proof.
  exact (proj1 (archive_scenarios_without_images (env_of [] nothing_works) admin
                  "positive" fresh eq_refl)).
Defined.

(** ** The feed scenarios *)

Lemma feeds_after_last (stop : bool -> bool) (before : list Feed) (last_feed : Feed)
    (feed : option Feed) (group : option Group) :
  exists group',
    feeds_after stop (before ++ [last_feed]) feed group
    = (Some last_feed, groups_after stop (feed_groups last_feed) group').
Proof.
  revert feed group. induction before as [|f rest IH]; intros feed group.
  - exists group. reflexivity.
  - cbn [app feeds_after]. apply IH.
Qed.

Lemma groups_after_found (stop : bool -> bool) (groups : list Group) (g : Group)
    (group : option Group) :
  find (fun x => stop (group_enabled x)) groups = Some g ->
  groups_after stop groups group = Some g /\ stop (group_enabled g) = true.
Proof.
  revert group. induction groups as [|x rest IH]; intros group Hfind.
  - discriminate Hfind.
  - cbn [find groups_after] in *. destruct (stop (group_enabled x)) eqn:Hx.
    + inversion Hfind; subst. split; [reflexivity | exact Hx].
    + apply IH. exact Hfind.
Qed.

Lemma groups_after_not_found (stop : bool -> bool) (groups : list Group)
    (group : option Group) :
  find (fun x => stop (group_enabled x)) groups = None ->
  groups <> [] ->
  exists g, groups_after stop groups group = Some g /\ stop (group_enabled g) = false.
Proof.
  revert group. induction groups as [|x rest IH]; intros group Hfind Hne.
  - contradiction.
  - cbn [find groups_after] in *. destruct (stop (group_enabled x)) eqn:Hx.
    + discriminate Hfind.
    + destruct rest as [|y rest'].
      * exists x. split; [reflexivity | exact Hx].
      * apply IH; [exact Hfind | discriminate].
Qed.

(** The helper call of the two feed scenarios, when the listing fails or
    decodes to something false: what comes back is false. *)
Lemma system_feeds_list_nothing (E : Env) (context : Context) (w : World) :
  let command := assemble_command E context " system feeds list" in
  (forall feeds, tool E (calls w) command = Exited 0 (Decodes feeds) ->
                 truthy feeds = false) ->
  exists feeds,
    system_feeds_list E context "positive" true false w = (Ok feeds, called command w)
    /\ truthy feeds = false.
Proof.
  intros command Hfalse. unfold system_feeds_list. fold command.
  unfold try_except, bind, subprocess_run, lift, ret. fold (called command w).
  destruct (tool E (calls w) command) as [[|p|p] [j|]|] eqn:Ht;
    cbn [json_loads is_Exception];
    try (exists JNull; split; reflexivity).
  destruct (py_len j) as [n|e] eqn:Hlen.
  - exists j. split; [reflexivity | exact (Hfalse j eq_refl)].
  - rewrite (fails_only_py_len j e Hlen). exists JNull. split; reflexivity.
Qed.

(** X9. When [system feeds list] fails in any way, or prints an empty
    listing, [system_feeds_config_toggle] and [system_feeds_delete] file one
    explicit failure under the declared polarity and return; no further
    command is run. *)
Theorem feed_scenarios_without_feeds :
  forall (E : Env) (context : Context) (test_type : string) (enable : bool)
         (w : World),
    let list_command := assemble_command E context " system feeds list" in
    (forall feeds, tool E (calls w) list_command = Exited 0 (Decodes feeds) ->
                   truthy feeds = false) ->
    system_feeds_config_toggle E context test_type enable w
      = (Ok tt,
         filed (fail_bucket test_type)
           (record_text "system_feeds_config_toggle" "No feeds available")
           (called list_command w))
    /\ system_feeds_delete E context test_type w
       = (Ok tt,
          filed (fail_bucket test_type)
            (record_text "system_feeds_delete" "No feeds available")
            (called list_command w)).
Proof.
  intros E context test_type enable w list_command Hfalse.
  destruct (system_feeds_list_nothing E context w Hfalse) as (feeds & Hrun & Hfeeds).
  fold list_command in Hrun.
  split.
  - unfold system_feeds_config_toggle. cbv zeta.
    unfold bind at 1. rewrite Hrun, Hfeeds. cbn [negb].
    apply log_explicit_failure_fail_bucket.
  - unfold system_feeds_delete.
    unfold bind at 1. rewrite Hrun, Hfeeds. cbn [negb].
    apply log_explicit_failure_fail_bucket.
Qed.

Lemma feed_scenarios_without_feeds_witness :
  system_feeds_delete (env_of ["alpine"] (feeds_are [])) admin "positive" fresh
  = (Ok tt,
     filed PositiveFail "system_feeds_delete - No feeds available"
       (called "cli --u admin --p foobar --url http://localhost/v1  system feeds list"
          fresh)).
Proof.
  refine (proj2 (feed_scenarios_without_feeds (env_of ["alpine"] (feeds_are [])) admin
                   "positive" true fresh _)).
  intros feeds H. inversion H. reflexivity.
Defined.

(** ** Scenarios on a fake account *)

Lemma draw_drawn (w : World) :
  draw w = (Ok (drawn w), mkWorld (ledger w) (calls w) (tl (entropy w))).
Proof. destruct w as [l c [|n rest]]; reflexivity. Qed.

Lemma add_fake_account_with_user_runs (E : Env) (context : Context) (w : World) :
  add_fake_account_with_user E context w
  = (Ok (faker E (drawn w)),
     mkWorld (ledger w)
       (calls w ++ fake_account_commands E context (faker E (drawn w)))
       (tl (entropy w))).
Proof.
  unfold add_fake_account_with_user, fake_account_with_user.
  unfold bind at 1. unfold bind at 1. rewrite draw_drawn. cbn [ret].
  unfold bind at 1. rewrite account_add_without_log.
  unfold bind at 1. rewrite account_user_add_without_log.
  unfold ret, called, fake_account_commands. cbn [ledger calls entropy].
  rewrite <- app_assoc. reflexivity.
Qed.

Lemma command_judged_by_return_code (E : Env) (command test_type action good bad : string)
    (w : World) :
  try_except
    (bind (subprocess_run E command) (fun _ =>
       log_results_simple (JStr "ok") (JStr "ok") "positive" action good))
    (fun e => log_explicit_failure test_type action bad) w
  = (Ok tt,
     filed (match tool E (calls w) command with
            | Exited 0 _ => PositivePass
            | _ => fail_bucket test_type
            end)
       (match tool E (calls w) command with
        | Exited 0 _ => record_text action good
        | _ => record_text action bad
        end)
       (called command w)).
Proof.
  unfold try_except, bind, subprocess_run. fold (called command w).
  destruct (tool E (calls w) command) as [[|p|p] out|]; cbn [is_Exception];
    rewrite ?log_explicit_failure_fail_bucket; reflexivity.
Qed.

Ltac judged_by_return_code_tac :=
  intros w; cbv zeta; unfold bind at 1;
  rewrite add_fake_account_with_user_runs;
  rewrite command_judged_by_return_code;
  eexists; unfold filed, called; cbn [ledger calls entropy]; reflexivity.

(** X12. [account_user_del], [account_user_get], [account_user_setpassword]
    and [account_whoami] judge by one return code.  Each sets up a fake
    account with two commands whose outcome it ignores, runs its own command
    and returns with exactly one record filed: a positive pass when that
    command exited with 0, whatever polarity was declared, and a failure of
    the declared polarity in every other case. *)
Theorem account_user_scenarios_judged_by_return_code :
  forall (E : Env) (context : Context) (test_type : string),
    judged_by_return_code E context test_type
      (fun acct =>
         assemble_command E context
           (" account user del --account " ++ account_name acct ++ " " ++ user acct))
      (account_user_del E context test_type)
    /\ judged_by_return_code E context test_type
         (fun acct =>
            assemble_command E context
              (" account user get --account " ++ account_name acct ++ " " ++ user acct))
         (account_user_get E context test_type)
    /\ judged_by_return_code E context test_type
         (fun acct =>
            assemble_command E context
              (" account user setpassword --account " ++ account_name acct
               ++ " --username " ++ user acct ++ " " ++ passw acct))
         (account_user_setpassword E context test_type)
    /\ judged_by_return_code E context test_type
         (fun _ => assemble_command E context " account whoami")
         (account_whoami E context test_type).
Proof.
  intros E context test_type.
  split; [|split; [|split]].
  - unfold account_user_del. judged_by_return_code_tac.
  - unfold account_user_get. judged_by_return_code_tac.
  - unfold account_user_setpassword. judged_by_return_code_tac.
  - unfold account_whoami. judged_by_return_code_tac.
Qed.

(** ** Groups that always get to the summary *)

Lemma raises_only_for_each {A : Type} (xs : list A) (body : A -> M unit) :
  (forall x, raises_only_exceptions (body x)) ->
  raises_only_exceptions (for_each xs body).
Proof.
  intros Hbody. induction xs as [|x rest IH]; cbn [for_each].
  - apply raises_only_ret.
  - apply raises_only_bind; [apply Hbody | intros _; exact IH].
Qed.

Ltac contained_tac :=
  repeat first
    [ assumption
    | apply raises_only_ret
    | apply raises_only_log_results_simple
    | apply raises_only_log_explicit_failure
    | apply raises_only_subprocess_run
    | apply raises_only_random_choice
    | apply raises_only_lift; solve [fails_only_tac]
    | apply raises_only_raise; reflexivity
    | apply raises_only_for_each; intros ?
    | apply raises_only_bind; [|intros ?]
    | apply raises_only_try; [|intros ?]
    | match goal with
      | |- raises_only_exceptions (if ?b then _ else _) => destruct b
      | |- raises_only_exceptions (match ?e with _ => _ end) => destruct e
      end ].

Lemma raises_only_image_content_loop E context image content_type todo :
  raises_only_exceptions (image_content_loop E context image content_type todo).
Proof.
  induction todo as [|content rest IH]; cbn [image_content_loop]; cbv zeta; contained_tac.
Qed.

Lemma raises_only_image_metadata_loop E context test_type image response todo :
  forall failed,
    raises_only_exceptions
      (image_metadata_loop E context test_type image response todo failed).
Proof.
  induction todo as [|key rest IH]; intros failed; cbn [image_metadata_loop]; cbv zeta.
  - apply raises_only_ret.
  - repeat (apply raises_only_bind; [solve [contained_tac] | intros ?]). apply IH.
Qed.

Lemma raises_only_image_vuln_loop E context test_type image todo :
  forall failed,
    raises_only_exceptions (image_vuln_loop E context test_type image todo failed).
Proof.
  induction todo as [|key rest IH]; intros failed; cbn [image_vuln_loop]; cbv zeta.
  - apply raises_only_ret.
  - repeat (apply raises_only_bind; [solve [contained_tac] | intros ?]). apply IH.
Qed.

Lemma always_returns_ret {A : Type} (a : A) : always_returns (ret a).
Proof. intros w. exists a, w. reflexivity. Qed.

Lemma always_returns_bind {A B : Type} (m : M A) (k : A -> M B) :
  always_returns m -> (forall a, always_returns (k a)) -> always_returns (bind m k).
Proof.
  intros Hm Hk w. unfold bind. destruct (Hm w) as (a & w1 & ->). apply Hk.
Qed.

Lemma always_returns_try {A : Type} (m : M A) (h : exn -> M A) :
  raises_only_exceptions m -> (forall e, always_returns (h e)) ->
  always_returns (try_except m h).
Proof.
  intros Hm Hh w. unfold try_except.
  destruct (m w) as [[a|e] w1] eqn:Hrun.
  - exists a, w1. reflexivity.
  - rewrite (Hm w e w1 Hrun). apply Hh.
Qed.

Lemma always_returns_log_results_simple desired_state state test_type action message :
  always_returns (log_results_simple desired_state state test_type action message).
Proof. intros w. rewrite log_results_simple_classify. eexists _, _. reflexivity. Qed.

Lemma always_returns_log_explicit_failure test_type action message :
  always_returns (log_explicit_failure test_type action message).
Proof. intros w. rewrite log_explicit_failure_fail_bucket. eexists _, _. reflexivity. Qed.

Lemma always_returns_random_choice {A : Type} (xs : list A) :
  xs <> [] -> always_returns (random_choice xs).
Proof.
  intros Hne w. destruct (random_choice_returns xs w Hne) as (x & w1 & Hrun & _).
  exists x, w1. exact Hrun.
Qed.

Ltac always_returns_tac :=
  repeat first
    [ assumption
    | apply always_returns_ret
    | apply always_returns_log_results_simple
    | apply always_returns_log_explicit_failure
    | apply always_returns_random_choice; assumption
    | apply always_returns_try;
        [ solve [ contained_tac
                | apply raises_only_bind; [contained_tac | intros ?];
                  first [ apply raises_only_image_metadata_loop
                        | apply raises_only_image_vuln_loop
                        | idtac ]; contained_tac ]
        | intros ? ]
    | apply always_returns_bind; [|intros ?]
    | match goal with
      | |- always_returns (if ?b then _ else _) => destruct b
      | |- always_returns (match ?e with _ => _ end) => destruct e
      end ].

Lemma always_returns_image_add_loop E context test_type todo :
  always_returns (image_add_loop E context test_type todo).
Proof.
  induction todo as [|image rest IH]; cbn [image_add_loop]; cbv zeta; always_returns_tac.
Qed.

Lemma always_returns_image_get_loop E context test_type return_images log todo :
  forall images,
    always_returns (image_get_loop E context test_type return_images log todo images).
Proof.
  induction todo as [|image rest IH]; intros images; cbn [image_get_loop]; cbv zeta.
  - apply always_returns_ret.
  - apply always_returns_bind; [always_returns_tac | intros images'; apply IH].
Qed.

Lemma always_returns_wait_for_image E context image :
  always_returns (wait_for_image E context image).
Proof. unfold wait_for_image. cbv zeta. always_returns_tac. Qed.

Lemma always_returns_system_wait E context log :
  test_images E <> [] -> always_returns (system_wait E context log).
Proof. intros Hne. unfold system_wait. cbv zeta. always_returns_tac. Qed.

Lemma always_returns_image_wait E context timeout interval test_type :
  test_images E <> [] -> always_returns (image_wait E context timeout interval test_type).
Proof.
  intros Hne. unfold image_wait. cbv zeta.
  apply always_returns_bind; [always_returns_tac | intros image].
  apply always_returns_bind; [apply always_returns_wait_for_image | intros ready].
  always_returns_tac.
Qed.

Lemma always_returns_image_get E context test_type return_images log :
  always_returns (image_get E context test_type return_images log).
Proof.
  unfold image_get.
  apply always_returns_bind; [apply always_returns_image_get_loop | intros images].
  always_returns_tac.
Qed.

Lemma always_returns_image_content E context test_type content_type :
  test_images E <> [] -> malware_images E <> [] ->
  always_returns (image_content E context test_type content_type).
Proof.
  intros Hne Hmal. unfold image_content.
  apply always_returns_bind; [always_returns_tac | intros image].
  apply always_returns_bind; [apply always_returns_wait_for_image | intros ready].
  destruct ready; [|apply always_returns_ret].
  apply always_returns_bind; [|intros tested; always_returns_tac].
  apply always_returns_try; [|intros e; apply always_returns_ret].
  cbv zeta.
  apply raises_only_bind; [contained_tac | intros completed_proc].
  apply raises_only_bind; [contained_tac | intros response].
  destruct (negb (truthy response)); [contained_tac|].
  apply raises_only_bind; [contained_tac | intros contents].
  apply raises_only_bind; [apply raises_only_image_content_loop | intros _].
  apply raises_only_ret.
Qed.

Lemma always_returns_image_metadata E context test_type :
  test_images E <> [] -> always_returns (image_metadata E context test_type).
Proof.
  intros Hne. unfold image_metadata. cbv zeta.
  apply always_returns_bind; [always_returns_tac | intros image].
  apply always_returns_bind; [apply always_returns_wait_for_image | intros ready].
  destruct ready; [|apply always_returns_ret].
  apply always_returns_try; [|intros e; always_returns_tac].
  apply raises_only_bind; [contained_tac | intros completed_proc].
  apply raises_only_bind; [contained_tac | intros response].
  apply raises_only_bind; [apply raises_only_image_metadata_loop | intros failed].
  contained_tac.
Qed.

Lemma always_returns_image_vuln E context test_type :
  test_images E <> [] -> always_returns (image_vuln E context test_type).
Proof.
  intros Hne. unfold image_vuln.
  apply always_returns_bind; [always_returns_tac | intros image].
  apply always_returns_bind; [apply always_returns_wait_for_image | intros ready].
  destruct ready; [|apply always_returns_ret].
  apply always_returns_try; [|intros e; always_returns_tac].
  apply raises_only_bind; [apply raises_only_image_vuln_loop | intros failed].
  contained_tac.
Qed.

Lemma always_returns_evaluate_check E context test_type :
  test_images E <> [] -> always_returns (evaluate_check E context test_type).
Proof.
  intros Hne. unfold evaluate_check.
  apply always_returns_bind; [always_returns_tac | intros image].
  apply always_returns_bind; [apply always_returns_wait_for_image | intros ready].
  always_returns_tac.
Qed.

Lemma always_returns_reaches_summary (E : Env) (func : Context -> M unit)
    (context : Context) :
  test_images E <> [] ->
  always_returns (func context) ->
  reaches_summary (run_cli_driver E func context).
Proof.
  intros Hne Hfunc w.
  destruct (always_returns_system_wait E context false Hne w) as ([] & w1 & Hwait).
  destruct (Hfunc w1) as ([] & w2 & Hrun).
  assert (Hsum : run_cli_driver E func context w = log_results_summary w2).
  { unfold run_cli_driver. unfold bind at 1. rewrite Hwait.
    unfold bind at 1. rewrite Hrun. reflexivity. }
  rewrite Hsum. unfold log_results_summary. exists w2.
  destruct (0 <? length (positive_fail (ledger w2)))%nat; [right; reflexivity|].
  destruct (0 <? length (negative_fail (ledger w2)))%nat; [right|left]; reflexivity.
Qed.

(** X13. A run of the [image], [evaluate] or [system] group always gets to
    the summary.  Provided the image lists they draw from are not empty,
    whatever the tool does no exception escapes these groups: the run ends
    normally or on the [sys.exit(1)] of [log_results_summary]. *)
Theorem image_evaluate_system_runs_reach_summary :
  forall (E : Env) (clean_images : list string) (context : Context),
    test_images E <> [] ->
    (malware_images E <> [] ->
     reaches_summary (run_cli_driver E (image E clean_images) context))
    /\ reaches_summary (run_cli_driver E (evaluate E) context)
    /\ reaches_summary (run_cli_driver E (system E) context).
Proof.
  intros E clean_images context Hne.
  split; [|split].
  - intros Hmal. apply always_returns_reaches_summary; [exact Hne|].
    unfold image, image_add.
    apply always_returns_bind; [apply always_returns_image_add_loop | intros _].
    apply always_returns_bind; [apply always_returns_image_wait; exact Hne | intros _].
    apply always_returns_bind; [apply always_returns_image_get | intros _].
    apply always_returns_bind;
      [apply always_returns_image_content; assumption | intros _].
    apply always_returns_bind;
      [apply always_returns_image_content; assumption | intros _].
    apply always_returns_bind; [apply always_returns_image_metadata; exact Hne | intros _].
    apply always_returns_bind; [unfold image_list; cbv zeta; always_returns_tac | intros _].
    apply always_returns_image_vuln. exact Hne.
  - apply always_returns_reaches_summary; [exact Hne|].
    unfold evaluate. apply always_returns_evaluate_check. exact Hne.
  - apply always_returns_reaches_summary; [exact Hne|].
    unfold system, system_status, system_errorcodes. cbv zeta. always_returns_tac.
Qed.

Lemma image_evaluate_system_runs_reach_summary_witness :
  exists w',
    run_cli_driver (env_of ["alpine"] nothing_works)
      (system (env_of ["alpine"] nothing_works)) admin fresh = (Ok tt, w')
    \/ run_cli_driver (env_of ["alpine"] nothing_works)
         (system (env_of ["alpine"] nothing_works)) admin fresh
       = (Raise (SystemExit 1), w').
Proof.
  refine (proj2 (proj2 (image_evaluate_system_runs_reach_summary
                          (env_of ["alpine"] nothing_works) [] admin _)) fresh).
  discriminate.
Defined.

(** ** The ledger only grows *)

Lemma appends_only_keeps {A : Type} (m : M A) : keeps_ledger m -> appends_only m.
Proof. intros Hm w b. exists []. rewrite Hm, app_nil_r. reflexivity. Qed.

Lemma appends_only_ret {A : Type} (a : A) : appends_only (ret a).
Proof. apply appends_only_keeps. intros w. reflexivity. Qed.

Lemma appends_only_lift {A : Type} (r : result A) : appends_only (lift r).
Proof. apply appends_only_keeps. intros w. reflexivity. Qed.

Lemma appends_only_raise {A : Type} (e : exn) : appends_only (@raise A e).
Proof. apply appends_only_keeps. intros w. reflexivity. Qed.

Lemma appends_only_subprocess_run E command : appends_only (subprocess_run E command).
Proof.
  apply appends_only_keeps. intros w. unfold subprocess_run.
  destruct (tool E (calls w) command) as [[|p|p] out|]; reflexivity.
Qed.

Lemma appends_only_random_choice {A : Type} (xs : list A) :
  appends_only (random_choice xs).
Proof. apply appends_only_keeps. apply keeps_ledger_random_choice. Qed.

Lemma appends_only_fake_account_with_user E : appends_only (fake_account_with_user E).
Proof.
  apply appends_only_keeps. intros w. unfold fake_account_with_user, bind.
  rewrite draw_drawn. reflexivity.
Qed.

Lemma appends_only_filed (b : bucket) (r : string) (w : World) (b' : bucket) :
  exists more,
    bucket_of b' (ledger (filed b r w)) = (bucket_of b' (ledger w) ++ more)%list.
Proof.
  destruct b, b'; cbn;
    first [ exists [r]; reflexivity | exists []; rewrite app_nil_r; reflexivity ].
Qed.

Lemma appends_only_log_results_simple desired_state state test_type action message :
  appends_only (log_results_simple desired_state state test_type action message).
Proof. intros w b. rewrite log_results_simple_classify. apply appends_only_filed. Qed.

Lemma appends_only_log_explicit_failure test_type action message :
  appends_only (log_explicit_failure test_type action message).
Proof. intros w b. rewrite log_explicit_failure_fail_bucket. apply appends_only_filed. Qed.

Lemma appends_only_log_results_summary : appends_only log_results_summary.
Proof.
  apply appends_only_keeps. intros w. unfold log_results_summary.
  destruct (0 <? length (positive_fail (ledger w)))%nat; [reflexivity|].
  destruct (0 <? length (negative_fail (ledger w)))%nat; reflexivity.
Qed.

Lemma appends_only_bind {A B : Type} (m : M A) (k : A -> M B) :
  appends_only m -> (forall a, appends_only (k a)) -> appends_only (bind m k).
Proof.
  intros Hm Hk w b. unfold bind. destruct (Hm w b) as [more Hmore].
  destruct (m w) as [[a|e] w1]; cbn [snd] in *.
  - destruct (Hk a w1 b) as [more' Hmore'].
    exists (more ++ more')%list. rewrite Hmore', Hmore, app_assoc. reflexivity.
  - exists more. exact Hmore.
Qed.

Lemma appends_only_try {A : Type} (m : M A) (h : exn -> M A) :
  appends_only m -> (forall e, appends_only (h e)) -> appends_only (try_except m h).
Proof.
  intros Hm Hh w b. unfold try_except. destruct (Hm w b) as [more Hmore].
  destruct (m w) as [[a|e] w1]; cbn [snd] in *.
  - exists more. exact Hmore.
  - destruct (is_Exception e).
    + destruct (Hh e w1 b) as [more' Hmore'].
      exists (more ++ more')%list. rewrite Hmore', Hmore, app_assoc. reflexivity.
    + exists more. exact Hmore.
Qed.

Lemma appends_only_for_each {A : Type} (xs : list A) (body : A -> M unit) :
  (forall x, appends_only (body x)) -> appends_only (for_each xs body).
Proof.
  intros Hbody. induction xs as [|x rest IH]; cbn [for_each].
  - apply appends_only_ret.
  - apply appends_only_bind; [apply Hbody | intros _; exact IH].
Qed.

Ltac appends_only_step :=
  first
    [ assumption
    | apply appends_only_ret
    | apply appends_only_lift
    | apply appends_only_raise
    | apply appends_only_subprocess_run
    | apply appends_only_random_choice
    | apply appends_only_fake_account_with_user
    | apply appends_only_log_results_simple
    | apply appends_only_log_explicit_failure
    | apply appends_only_log_results_summary
    | apply appends_only_for_each; intros ?
    | apply appends_only_bind; [|intros ?]
    | apply appends_only_try; [|intros ?]
    | match goal with
      | |- appends_only (if ?b then _ else _) => destruct b
      | |- appends_only (match ?e with _ => _ end) => destruct e
      | |- appends_only (random_choice_json ?j) => unfold random_choice_json
      end ].

Lemma appends_only_image_get_loop E context test_type return_images log todo :
  forall images,
    appends_only (image_get_loop E context test_type return_images log todo images).
Proof.
  induction todo as [|image rest IH]; intros images; cbn [image_get_loop]; cbv zeta.
  - apply appends_only_ret.
  - apply appends_only_bind; [repeat appends_only_step | intros images'; apply IH].
Qed.

Lemma appends_only_image_content_loop E context image content_type todo :
  appends_only (image_content_loop E context image content_type todo).
Proof.
  induction todo as [|content rest IH]; cbn [image_content_loop]; cbv zeta;
    repeat appends_only_step.
Qed.

Lemma appends_only_image_metadata_loop E context test_type image response todo :
  forall failed,
    appends_only (image_metadata_loop E context test_type image response todo failed).
Proof.
  induction todo as [|key rest IH]; intros failed; cbn [image_metadata_loop]; cbv zeta.
  - apply appends_only_ret.
  - repeat (apply appends_only_bind; [solve [repeat appends_only_step] | intros ?]).
    apply IH.
Qed.

Lemma appends_only_image_vuln_loop E context test_type image todo :
  forall failed,
    appends_only (image_vuln_loop E context test_type image todo failed).
Proof.
  induction todo as [|key rest IH]; intros failed; cbn [image_vuln_loop]; cbv zeta.
  - apply appends_only_ret.
  - repeat (apply appends_only_bind; [solve [repeat appends_only_step] | intros ?]).
    apply IH.
Qed.

Lemma appends_only_image_add_loop E context test_type todo :
  appends_only (image_add_loop E context test_type todo).
Proof.
  induction todo as [|image rest IH]; cbn [image_add_loop]; cbv zeta;
    repeat appends_only_step.
Qed.

Lemma appends_only_repo_add_loop E context test_type todo :
  appends_only (repo_add_loop E context test_type todo).
Proof.
  induction todo as [|repo rest IH]; cbn [repo_add_loop]; cbv zeta;
    repeat appends_only_step.
Qed.

Lemma appends_only_repo_get_loop E context test_type todo :
  appends_only (repo_get_loop E context test_type todo).
Proof.
  induction todo as [|repo rest IH]; cbn [repo_get_loop]; cbv zeta;
    repeat appends_only_step.
Qed.

Ltac appends_only_tac :=
  repeat first
    [ appends_only_step
    | apply appends_only_image_get_loop
    | apply appends_only_image_content_loop
    | apply appends_only_image_metadata_loop
    | apply appends_only_image_vuln_loop
    | apply appends_only_image_add_loop
    | apply appends_only_repo_add_loop
    | apply appends_only_repo_get_loop
    | progress unfold run_cli_driver, account, account_user, account_user_list,
        account_user_del, account_user_get, account_user_setpassword, account_whoami,
        add_fake_account_with_user, account_add, account_get, account_disable,
        account_enable, account_del, account_user_add, account_list,
        image, image_add, image_list, image_wait, image_get, image_content,
        image_metadata, image_vuln, image_deletion, image_del,
        analysis_archive, analysis_archive_images, analysis_archive_images_add,
        analysis_archive_images_del, pick_archive_image, random_image_data,
        wait_for_image, evaluate, evaluate_check,
        subscription, subscription_list, subscription_activate,
        subscription_deactivate, subscription_get_one,
        system, system_status, system_errorcodes, system_wait,
        system_feeds, system_feeds_config, system_feeds_config_toggle,
        system_feeds_delete, system_feeds_list,
        registry_add, registry_get, registry_list,
        repo_add, repo_get, repo_list, repo_unwatch, repo_watch
    | progress cbv zeta ].

(** X14. The four lists of the ledger only ever grow at their end.  In a
    run of any group or scenario of the catalog, whatever the tool does and
    also when the run ends on an exception, every bucket afterwards is the
    bucket before with records appended: none is removed, reordered or
    rewritten. *)
Theorem ledger_is_append_only :
  forall (E : Env) (repositories registries clean_images : list string)
         (root_context context : Context) (test_type : string),
    Forall (fun func : Context -> M unit =>
              appends_only (run_cli_driver E func context))
      [ account E root_context; image E clean_images; analysis_archive E;
        image_deletion E; evaluate E; subscription E; system E; system_feeds E;
        registry_add E;
        (fun context => registry_get E registries context test_type);
        (fun context => registry_list E context test_type);
        (fun context => repo_add E repositories context test_type);
        (fun context => repo_get E repositories context test_type);
        (fun context => repo_list E context test_type);
        (fun context => repo_unwatch E repositories context test_type);
        (fun context => repo_watch E repositories context test_type) ].
Proof.
  intros E repositories registries clean_images root_context context test_type.
  repeat (apply Forall_cons; [solve [appends_only_tac] |]).
  apply Forall_nil.
Qed.

(** ** Edge cases of single scenarios *)

(** X15. [system_status] reads the services with [response.get]: when the
    tool exits with 0 but the object it prints has no key [service_states],
    iterating over the [None] that comes back fails and the scenario files a
    failure of the declared polarity; an empty list under that key is a
    listing of no services and is judged like any other success. *)
Theorem system_status_without_services :
  forall (E : Env) (context : Context) (test_type : string) (w : World)
         (entries : list (string * json)),
    let command := assemble_command E context " system status" in
    tool E (calls w) command = Exited 0 (Decodes (JDict entries)) ->
    (dict_lookup "service_states" entries = None ->
     system_status E context test_type w
     = (Ok tt,
        filed (fail_bucket test_type)
          (record_text "system_status" "failed to get system status")
          (called command w)))
    /\ (dict_lookup "service_states" entries = Some (JList []) ->
        system_status E context test_type w
        = (Ok tt,
           filed (classify (JStr "ok") (JStr "ok") test_type)
             (record_text "system_status" "0 services found")
             (called command w))).
Proof.
  intros E context test_type w entries command Ht.
  split; intros Hkey; unfold system_status; fold command;
    unfold try_except; unfold bind at 1;
    rewrite (subprocess_run_ok E command w _ Ht);
    unfold bind at 1; cbn [json_loads lift]; unfold bind at 1;
    cbn [py_get rbind lift]; rewrite Hkey; cbn [py_iter py_len rbind is_Exception].
  - apply log_explicit_failure_fail_bucket.
  - unfold bind at 1. cbn [for_each ret]. unfold bind at 1.
    cbn [length]. unfold lift. rewrite log_results_simple_classify. reflexivity.
Qed.

Lemma system_status_without_services_witness :
  system_status (env_of ["alpine"] (fun _ _ => Exited 0 (Decodes (JDict []))))
    admin "positive" fresh
  = (Ok tt,
     filed PositiveFail "system_status - failed to get system status"
       (called "cli --u admin --p foobar --url http://localhost/v1  system status" fresh)).
Proof.
  exact (proj1 (system_status_without_services
                  (env_of ["alpine"] (fun _ _ => Exited 0 (Decodes (JDict []))))
                  admin "positive" fresh [] eq_refl) eq_refl).
Defined.

(** X16. With [account_override], [account_list] lists the accounts as the
    user of a fake account it has just set up.  When that listing is
    rejected with the body ["Unauthorized"] or with [httpcode] 403, the
    scenario files a negative pass, whatever polarity was declared, and
    returns. *)
Theorem account_list_override_unauthorized :
  forall (E : Env) (context : Context) (test_type : string) (w : World)
         (returncode : Z) (response : json),
    let acct := faker E (drawn w) in
    let history := (calls w ++ fake_account_commands E context acct)%list in
    let command :=
      assemble_command E (mkContext (user acct) (passw acct) (ctx_api_url context))
        " account list" in
    tool E history command = Exited returncode (Decodes response) ->
    returncode <> 0%Z ->
    response = JStr "Unauthorized" \/ py_get response "httpcode" = Ok (JInt 403) ->
    account_list E context true test_type w
    = (Ok tt,
       mkWorld (file NegativePass
                  (record_text "account_list" "non-admin user could not list accounts")
                  (ledger w))
               (history ++ [command]) (tl (entropy w))).
Proof.
  intros E context test_type w returncode response acct history command Ht Hrc Hbody.
  unfold account_list. unfold bind at 1.
  unfold fake_account_with_user.
  unfold bind at 1. unfold bind at 1. rewrite draw_drawn. cbn [ret].
  unfold bind at 1. rewrite account_add_without_log.
  unfold bind at 1. rewrite account_user_add_without_log.
  cbn [ret]. fold acct. fold command.
  set (w1 := called _ (called _ _)).
  assert (Hcalls : calls w1 = history).
  { unfold w1, history, called, fake_account_commands. cbn [calls].
    rewrite <- app_assoc. reflexivity. }
  unfold try_except. unfold bind at 1.
  rewrite (subprocess_run_nonzero E command w1 returncode (Decodes response));
    [| rewrite Hcalls; exact Ht | exact Hrc].
  cbn [is_Exception json_loads]. unfold bind at 1. cbn [lift].
  assert (Hjudged :
            bind (if py_eq response (JStr "Unauthorized") then ret true
                  else bind (lift (py_get response "httpcode")) (fun httpcode =>
                       ret (py_eq httpcode (JInt 403))))
              (fun unauthorized : bool =>
                 if unauthorized then
                   log_results_simple (JStr "ok") (JStr "notok") "negative"
                     "account_list" "non-admin user could not list accounts"
                 else
                   log_explicit_failure test_type "account_list"
                     "failed to list accounts")
              (called command w1)
            = (Ok tt,
               filed NegativePass
                 (record_text "account_list" "non-admin user could not list accounts")
                 (called command w1))).
  { destruct Hbody as [-> | Hcode].
    - reflexivity.
    - destruct response; try discriminate Hcode.
      cbn [py_eq]. unfold bind at 1. unfold bind at 1. rewrite Hcode. reflexivity. }
  rewrite Hjudged. unfold filed, called. cbn [ledger calls entropy].
  fold (called command w1). unfold w1 at 1 2, called. cbn [ledger entropy calls].
  rewrite <- Hcalls. reflexivity.
Qed.

Lemma account_list_override_unauthorized_witness :
  account_list
    (env_of ["alpine"]
       (fun _ command =>
          if is_substring " account list" command
          then Exited 1 (Decodes (JStr "Unauthorized"))
          else Exited 0 (Decodes (JDict []))))
    admin true "positive" fresh
  = (Ok tt,
     mkWorld
       (mkLedger [] [] ["account_list - non-admin user could not list accounts"] [])
       ["cli --u admin --p foobar --url http://localhost/v1  account add --email alice@example.com acme";
        "cli --u admin --p foobar --url http://localhost/v1  account user add --account acme alice secret";
        "cli --u alice --p secret --url http://localhost/v1  account list"]
       []).
Proof.
  refine (account_list_override_unauthorized
            (env_of ["alpine"]
               (fun _ command =>
                  if is_substring " account list" command
                  then Exited 1 (Decodes (JStr "Unauthorized"))
                  else Exited 0 (Decodes (JDict []))))
            admin "positive" fresh 1 (JStr "Unauthorized") eq_refl _ _).
  - discriminate.
  - left. reflexivity.
Defined.

Lemma random_choice_drawn {A : Type} (x : A) (rest : list A) (w : World) :
  random_choice (x :: rest) w
  = (Ok (nth (drawn w mod length (x :: rest)) (x :: rest) x),
     mkWorld (ledger w) (calls w) (tl (entropy w))).
Proof.
  unfold random_choice, bind. rewrite draw_drawn. reflexivity.
Qed.

Lemma draw_then_command (E : Env) (allowed : bucket -> Prop) (items : list string)
    (command : string -> string) (k : string -> stdout -> M unit)
    (h : string -> exn -> M unit) :
  (forall item out, files_into allowed (k item out)) ->
  (forall item e w, exists b r, allowed b /\ h item e w = (Ok tt, filed b r w)) ->
  draws_then_files items command
    (bind (random_choice items) (fun item =>
       try_except (bind (subprocess_run E (command item)) (k item)) (h item))).
Proof.
  intros Hk Hh w. destruct items as [|x rest].
  - reflexivity.
  - unfold bind at 1. rewrite random_choice_drawn.
    set (item := nth _ _ _).
    destruct (command_then_file E allowed (command item) (k item) (h item)
                (Hk item) (Hh item) (mkWorld (ledger w) (calls w) (tl (entropy w))))
      as (b & r & _ & Hrun).
    exists item, b, r. split.
    + unfold item. apply nth_In. apply Nat.mod_upper_bound. discriminate.
    + rewrite Hrun. reflexivity.
Qed.

(** X17. [repo_watch], [repo_unwatch] and [registry_get] draw from a
    configured list before their [try].  On an empty list the draw raises
    [IndexError] with nothing run and nothing filed; on any other list the
    scenario returns whatever the tool does, having run its command for one
    item of the list and filed exactly one record. *)
Theorem scenarios_drawing_from_a_list :
  forall (E : Env) (repositories registries : list string) (context : Context)
         (test_type : string),
    draws_then_files repositories
      (fun repo => assemble_command E context (" repo watch " ++ repo))
      (repo_watch E repositories context test_type)
    /\ draws_then_files repositories
         (fun repo => assemble_command E context (" repo unwatch " ++ repo))
         (repo_unwatch E repositories context test_type)
    /\ draws_then_files registries
         (fun reg => assemble_command E context (" registry get " ++ reg))
         (registry_get E registries context test_type).
Proof.
  intros E repositories registries context test_type.
  split; [|split].
  - unfold repo_watch. cbv zeta.
    apply (draw_then_command E any_bucket repositories
             (fun repo => assemble_command E context (" repo watch " ++ repo))
             (fun repo completed_proc =>
                bind (lift (json_loads completed_proc)) (fun response =>
                bind (lift (py_index response 0)) (fun first =>
                bind (lift (py_item first "active")) (fun repo_active =>
                log_results_simple (JBool true) repo_active test_type "repo_watch"
                  ("repo " ++ repo ++ " watched")))))
             (fun repo e =>
                log_explicit_failure test_type "repo_watch" "failed to watch repo")).
    + intros repo out. files_into_tac.
    + intros repo e. apply explicit_failure_handler. apply any_bucket_holds.
  - unfold repo_unwatch. cbv zeta.
    apply (draw_then_command E any_bucket repositories
             (fun repo => assemble_command E context (" repo unwatch " ++ repo))
             (fun repo completed_proc =>
                bind (lift (json_loads completed_proc)) (fun response =>
                bind (lift (py_index response 0)) (fun first =>
                bind (lift (py_item first "active")) (fun repo_active =>
                log_results_simple (JBool false) repo_active test_type "repo_unwatch"
                  ("repo " ++ repo ++ " unwatched")))))
             (fun repo e =>
                log_explicit_failure test_type "repo_unwatch" "failed to unwatch repo")).
    + intros repo out. files_into_tac.
    + intros repo e. apply explicit_failure_handler. apply any_bucket_holds.
  - unfold registry_get. cbv zeta.
    apply (draw_then_command E any_bucket registries
             (fun reg => assemble_command E context (" registry get " ++ reg))
             (fun reg completed_proc =>
                bind (lift (json_loads completed_proc)) (fun response =>
                bind (lift (py_index response 0)) (fun first =>
                bind (lift (py_item first "registry_name")) (fun reg_name =>
                bind (lift (rbind (py_index response 0)
                              (fun r => py_item r "registry_type"))) (fun _ =>
                bind (lift (rbind (py_index response 0)
                              (fun r => py_item r "registry_user"))) (fun _ =>
                log_results_simple (JStr "ok") (JStr "ok") "positive" "registry_get"
                  ("got registry " ++ py_str E reg_name)))))))
             (fun reg e =>
                log_explicit_failure test_type "registry_get"
                  ("failed to get registry " ++ reg))).
    + intros reg out. files_into_tac.
    + intros reg e. apply explicit_failure_handler. apply any_bucket_holds.
Qed.

(** X18. How [image_del] takes a rejection.  When the poll for the drawn
    image came back and the delete command exits with a code other than 0
    and a body whose [message] can be read, only one message counts: on the
    refusal to delete the latest image of a tag, a forced delete files a
    failure of the declared polarity and an unforced one is classified as
    ["notok"] against ["ok"], a positive fail or a negative pass; on any
    other message nothing is filed, and the scenario returns. *)
Theorem image_del_rejected :
  forall (E : Env) (context : Context) (force : bool) (test_type : string)
         (w w1 : World) (image : string) (returncode : Z) (response message : json),
    let command :=
      if force then assemble_command E context (" image del --force " ++ image)
      else assemble_command E context (" image del " ++ image) in
    let polled := called (wait_command E context image) w1 in
    random_choice (test_images E) w = (Ok image, w1) ->
    poll_fails E context (calls w1) image = false ->
    tool E (calls polled) command = Exited returncode (Decodes response) ->
    returncode <> 0%Z ->
    py_get response "message" = Ok message ->
    image_del E context force test_type w
    = (Ok tt,
       if py_eq message (JStr latest_tag_message) then
         if force then
           filed (fail_bucket test_type)
             (record_text "image_del" ("could not delete image: " ++ image))
             (called command polled)
         else
           filed (if test_type =? "positive" then PositiveFail else NegativePass)
             (record_text "image_del"
                ("could not delete image without forcing: " ++ image ++ " (good)"))
             (called command polled)
       else called command polled).
Proof.
  intros E context force test_type w w1 image returncode response message command
    polled Hdraw Hpoll Ht Hrc Hmessage.
  unfold image_del. cbv zeta. unfold bind at 1. rewrite Hdraw.
  fold command. unfold bind at 1.
  assert (Hwait : wait_for_image E context image w1 = (Ok true, polled)).
  { unfold wait_for_image. cbv zeta. fold (wait_command E context image).
    unfold poll_fails in Hpoll.
    destruct (tool E (calls w1) (wait_command E context image)) as [[|p|p] out|] eqn:Hw;
      try discriminate Hpoll.
    unfold try_except, bind. rewrite (subprocess_run_ok E _ w1 out Hw). reflexivity. }
  rewrite Hwait. unfold try_except. unfold bind at 1.
  rewrite (subprocess_run_nonzero E command polled returncode (Decodes response) Ht Hrc).
  cbn [is_Exception json_loads]. unfold bind at 1. cbn [lift].
  unfold bind at 1. rewrite Hmessage. cbn [lift]. fold latest_tag_message.
  destruct (py_eq message (JStr latest_tag_message)); [|reflexivity].
  destruct force.
  - apply log_explicit_failure_fail_bucket.
  - rewrite log_results_simple_classify. unfold classify. cbn [py_eq String.eqb Ascii.eqb Bool.eqb].
    reflexivity.
Qed.

Lemma image_del_rejected_witness :
  image_del
    (env_of ["alpine"]
       (fun _ command =>
          if is_substring " image del " command
          then Exited 1 (Decodes (JDict [("message", JStr latest_tag_message)]))
          else Exited 0 (Decodes (JDict []))))
    admin false "negative" fresh
  = (Ok tt,
     mkWorld
       (mkLedger [] []
          ["image_del - could not delete image without forcing: alpine (good)"] [])
       ["cli --u admin --p foobar --url http://localhost/v1  image wait alpine";
        "cli --u admin --p foobar --url http://localhost/v1  image del alpine"]
       []).
Proof.
  refine (image_del_rejected
            (env_of ["alpine"]
               (fun _ command =>
                  if is_substring " image del " command
                  then Exited 1 (Decodes (JDict [("message", JStr latest_tag_message)]))
                  else Exited 0 (Decodes (JDict []))))
            admin false "negative" fresh fresh "alpine" 1
            (JDict [("message", JStr latest_tag_message)]) (JStr latest_tag_message)
            eq_refl eq_refl eq_refl _ eq_refl).
  discriminate.
Defined.

(** ** The four cases of [account_user_list] *)

Lemma try_except_after {A B : Type} (m : M A) (k : A -> M B) (h : exn -> M B)
    (w w1 : World) (a : A) :
  m w = (Ok a, w1) ->
  try_except (bind m k) h w = try_except (k a) h w1.
Proof. intros Hm. unfold try_except, bind. rewrite Hm. reflexivity. Qed.

Lemma fake_account_with_user_drawn (E : Env) (w : World) :
  fake_account_with_user E w
  = (Ok (faker E (drawn w)), mkWorld (ledger w) (calls w) (tl (entropy w))).
Proof. unfold fake_account_with_user, bind. rewrite draw_drawn. reflexivity. Qed.

(** One command under a [try] whose handler either files one record and
    returns, or leaves the world as it is: the command is run, and at most
    one record is filed. *)
Lemma command_then_file_or_raise {A : Type} (E : Env) (allowed : bucket -> Prop)
    (command : string) (k : stdout -> M A) (h : exn -> M A) (w : World) :
  (forall out, files_into allowed (k out)) ->
  (forall e w0, (exists a b r, allowed b /\ h e w0 = (Ok a, filed b r w0))
                \/ (exists res, h e w0 = (res, w0))) ->
  exists res w',
    try_except (bind (subprocess_run E command) k) h w = (res, w')
    /\ calls w' = (calls w ++ [command])%list
    /\ (ledger w' = ledger w
        \/ exists b r, allowed b /\ ledger w' = file b r (ledger w)).
Proof.
  intros Hk Hh. unfold try_except, bind, subprocess_run. fold (called command w).
  assert (Hfail : forall e,
            exists res w',
              (if is_Exception e then h e (called command w)
               else (Raise e, called command w)) = (res, w')
              /\ calls w' = (calls w ++ [command])%list
              /\ (ledger w' = ledger w
                  \/ exists b r, allowed b /\ ledger w' = file b r (ledger w))).
  { intros e. destruct (is_Exception e).
    - destruct (Hh e (called command w)) as [(a & b & r & Hb & ->) | (res & ->)].
      + eexists _, _. split; [reflexivity|]. split; [reflexivity|].
        right. exists b, r. split; [exact Hb | reflexivity].
      + eexists _, _. split; [reflexivity|]. split; [reflexivity|]. left. reflexivity.
    - eexists _, _. split; [reflexivity|]. split; [reflexivity|]. left. reflexivity. }
  destruct (tool E (calls w) command) as [[|p|p] out|]; try apply Hfail.
  specialize (Hk out (called command w)).
  destruct (k out (called command w)) as [[a|e] w'].
  - destruct Hk as (b & r & Hb & ->).
    eexists _, _. split; [reflexivity|]. split; [reflexivity|].
    right. exists b, r. split; [exact Hb | reflexivity].
  - destruct Hk as [-> _]. apply Hfail.
Qed.

Lemma nth_0_hd (l : list nat) : hd 0%nat l = nth 0 l 0%nat.
Proof. destruct l; reflexivity. Qed.

Lemma nth_1_tl (l : list nat) : hd 0%nat (tl l) = nth 1 l 0%nat.
Proof. destruct l as [|x [|y r]]; reflexivity. Qed.

Lemma nth_2_tl (l : list nat) : hd 0%nat (tl (tl l)) = nth 2 l 0%nat.
Proof. destruct l as [|x [|y [|z r]]]; reflexivity. Qed.

Lemma nth_3_tl (l : list nat) : hd 0%nat (tl (tl (tl l))) = nth 3 l 0%nat.
Proof. destruct l as [|x [|y [|z [|t r]]]]; reflexivity. Qed.

(** X19. [account_user_list] runs the same nine commands whatever the tool
    answers, also when its last handler raises.  The first three cases list
    the users as the caller; the fourth sets up one fake account and then
    lists the users of another, freshly drawn and never added, with the
    credentials of that account's user.  The first three cases file one
    record each and the fourth at most one. *)
Theorem account_user_list_commands :
  forall (E : Env) (context : Context) (test_type : string) (w : World),
    let a1 := faker E (nth 0 (entropy w) 0%nat) in
    let a2 := faker E (nth 1 (entropy w) 0%nat) in
    let a3 := faker E (nth 2 (entropy w) 0%nat) in
    let a4 := faker E (nth 3 (entropy w) 0%nat) in
    let listing := fun (context : Context) (acct : Account) =>
      assemble_command E context (" account user list --account " ++ account_name acct) in
    let outcome := account_user_list E context test_type w in
    calls (snd outcome)
    = (calls w
       ++ [assemble_command E context " account user list"]
       ++ [assemble_command E context
             (" account add --email " ++ email a1 ++ " " ++ account_name a1);
           listing context a1]
       ++ fake_account_commands E context a2 ++ [listing context a2]
       ++ fake_account_commands E context a3
       ++ [listing (mkContext (user a4) (passw a4) (ctx_api_url context)) a4])%list
    /\ (total (ledger (snd outcome)) = (total (ledger w) + 3)%nat
        \/ total (ledger (snd outcome)) = (total (ledger w) + 4)%nat).
Proof.
  intros E context test_type w a1 a2 a3 a4 listing outcome.
  assert (Hhandler : forall (e : exn) (w0 : World),
            (exists (a : unit) b r,
               any_bucket b
               /\ match e with
                  | CalledProcessError _ out =>
                      bind (lift (json_loads out)) (fun response =>
                      bind (if py_eq response (JStr "Unauthorized") then ret true
                            else bind (lift (py_get response "httpcode"))
                                   (fun httpcode => ret (py_eq httpcode (JInt 403))))
                        (fun unauthorized : bool =>
                           if unauthorized then
                             log_results_simple (JStr "ok") (JStr "notok") "negative"
                               "account_user_list"
                               "Non-admin user could not list accounts (good)"
                           else ret tt))
                  | _ =>
                      log_explicit_failure test_type "account_user_list"
                        "failed to list users w/a non admin user"
                  end w0 = (Ok a, filed b r w0))
            \/ (exists res,
                  match e with
                  | CalledProcessError _ out =>
                      bind (lift (json_loads out)) (fun response =>
                      bind (if py_eq response (JStr "Unauthorized") then ret true
                            else bind (lift (py_get response "httpcode"))
                                   (fun httpcode => ret (py_eq httpcode (JInt 403))))
                        (fun unauthorized : bool =>
                           if unauthorized then
                             log_results_simple (JStr "ok") (JStr "notok") "negative"
                               "account_user_list"
                               "Non-admin user could not list accounts (good)"
                           else ret tt))
                  | _ =>
                      log_explicit_failure test_type "account_user_list"
                        "failed to list users w/a non admin user"
                  end w0 = (res, w0))).
  { intros e w0.
    destruct e;
      try (left; exists tt; eexists _, _; split;
           [exact I | apply log_explicit_failure_fail_bucket]).
    destruct out as [response|]; [|right; eexists; reflexivity].
    unfold bind, lift, ret. cbn [json_loads].
    destruct (py_eq response (JStr "Unauthorized")).
    - left. exists tt. eexists _, _. split; [exact I | apply log_results_simple_classify].
    - destruct (py_get response "httpcode") as [httpcode|e']; [|right; eexists; reflexivity].
      destruct (py_eq httpcode (JInt 403)).
      + left. exists tt. eexists _, _.
        split; [exact I | apply log_results_simple_classify].
      + right. eexists. reflexivity. }
  assert (Hrun : exists res b1 r1 b2 r2 b3 r3 w4,
            account_user_list E context test_type w = (res, w4)
            /\ calls w4
               = (((((calls w ++ [assemble_command E context " account user list"])
                    ++ [assemble_command E context
                          (" account add --email " ++ email a1 ++ " "
                           ++ account_name a1)])
                   ++ [listing context a1])
                  ++ fake_account_commands E context a2 ++ [listing context a2])
                 ++ fake_account_commands E context a3
                 ++ [listing (mkContext (user a4) (passw a4) (ctx_api_url context)) a4])%list
            /\ (ledger w4 = file b3 r3 (file b2 r2 (file b1 r1 (ledger w)))
                \/ exists b4 r4,
                     ledger w4
                     = file b4 r4 (file b3 r3 (file b2 r2 (file b1 r1 (ledger w)))))).
  { unfold account_user_list. cbv zeta.
    (* case 1 *)
    unfold bind at 1.
    match goal with
    | |- context [try_except (bind (subprocess_run E ?c) ?k) ?h w] =>
        destruct (command_then_file E any_bucket c k h) with (w := w)
          as (b1 & r1 & _ & Hrun1);
          [ intros out; files_into_tac
          | intros e; apply explicit_failure_handler; apply any_bucket_holds
          | rewrite Hrun1; clear Hrun1 ]
    end.
    unfold filed, called. cbn [ledger calls entropy].
    (* case 2 *)
    unfold bind at 1.
    rewrite (try_except_after _ _ _ _ _ _ (fake_account_with_user_drawn E _)).
    unfold drawn. cbn [ledger calls entropy].
    rewrite nth_0_hd. fold a1.
    rewrite (try_except_after _ _ _ _ _ _ (account_add_without_log E context _ _ _ _)).
    unfold called. cbn [ledger calls entropy].
    match goal with
    | |- context [try_except (bind (subprocess_run E ?c) ?k) ?h ?w0] =>
        destruct (command_then_file E any_bucket c k h) with (w := w0)
          as (b2 & r2 & _ & Hrun2);
          [ intros out; files_into_tac
          | intros e; apply explicit_failure_handler; apply any_bucket_holds
          | rewrite Hrun2; clear Hrun2 ]
    end.
    unfold filed, called. cbn [ledger calls entropy].
    (* case 3 *)
    unfold bind at 1.
    rewrite (try_except_after _ _ _ _ _ _ (add_fake_account_with_user_runs E context _)).
    unfold drawn. cbn [ledger calls entropy]. rewrite nth_1_tl. fold a2.
    match goal with
    | |- context [try_except (bind (subprocess_run E ?c) ?k) ?h ?w0] =>
        destruct (command_then_file E any_bucket c k h) with (w := w0)
          as (b3 & r3 & _ & Hrun3);
          [ intros out; files_into_tac
          | intros e; apply explicit_failure_handler; apply any_bucket_holds
          | rewrite Hrun3; clear Hrun3 ]
    end.
    unfold filed, called. cbn [ledger calls entropy].
    (* case 4 *)
    unfold bind at 1. rewrite add_fake_account_with_user_runs.
    unfold drawn. cbn [ledger calls entropy]. rewrite nth_2_tl. fold a3.
    unfold bind at 1. rewrite fake_account_with_user_drawn.
    unfold drawn. cbn [ledger calls entropy]. rewrite nth_3_tl. fold a4.
    match goal with
    | |- context [try_except (bind (subprocess_run E ?c) ?k) ?h ?w0] =>
        destruct (command_then_file_or_raise E any_bucket c k h w0)
          as (res & w4 & Hrun4 & Hc4 & Hl4);
          [ intros out; files_into_tac
          | exact Hhandler
          | rewrite Hrun4; clear Hrun4 ]
    end.
    cbn [ledger calls entropy] in Hc4, Hl4.
    exists res, b1, r1, b2, r2, b3, r3, w4.
    split; [reflexivity|]. split.
    - rewrite Hc4. unfold listing. repeat rewrite <- app_assoc. reflexivity.
    - destruct Hl4 as [Hl | (b4 & r4 & _ & Hl)].
      + left. exact Hl.
      + right. exists b4, r4. exact Hl. }
  destruct Hrun as (res & b1 & r1 & b2 & r2 & b3 & r3 & w4 & Hrun & Hc4 & Hl4).
  subst outcome. rewrite Hrun. cbn [snd]. split.
  - rewrite Hc4. repeat rewrite <- app_assoc. cbn [app]. reflexivity.
  - destruct Hl4 as [-> | (b4 & r4 & ->)]; rewrite !file_total; [left | right]; lia.
Qed.

(** ** What [registry_add] and the helpers never do *)

(** X20. [registry_add] never files a failure.  Whatever the tool does, the
    scenario runs its one command and leaves the two fail lists as they
    were: it files a pass, or nothing, or ends on an exception, so that it
    can never by itself make the summary exit with 1. *)
Theorem registry_add_never_files_a_failure :
  forall (E : Env) (context : Context) (w : World),
    let outcome := registry_add E context w in
    positive_fail (ledger (snd outcome)) = positive_fail (ledger w)
    /\ negative_fail (ledger (snd outcome)) = negative_fail (ledger w)
    /\ calls (snd outcome)
       = (calls w
          ++ [assemble_command E context
                (" registry add " ++ str_getenv E "REGISTRY_URL" ++ " "
                 ++ str_getenv E "REGISTRY_USER" ++ " "
                 ++ str_getenv E "REGISTRY_TOKEN")])%list.
Proof.
  intros E context w outcome. subst outcome. unfold registry_add. cbv zeta.
  match goal with
  | |- context [try_except (bind (subprocess_run E ?c) ?k) ?h w] =>
      destruct (command_then_file_or_raise E pass_bucket c k h w)
        as (res & w' & Hrun & Hc & Hl); [ | | rewrite Hrun; clear Hrun ]
  end.
  - intros out.
    repeat (apply files_into_bind; [only_computes_tac | intros ?]).
    apply files_into_log_results_simple. left. reflexivity.
  - intros e w0. destruct e; try (right; eexists; reflexivity).
    destruct out as [response|]; [|right; eexists; reflexivity].
    unfold bind, lift, ret, raise. cbn [json_loads].
    destruct (py_get response "message") as [message|e']; [|right; eexists; reflexivity].
    destruct (py_eq message (JStr "registry already exists in DB")).
    + left. exists tt. eexists _, _. split; [|apply log_results_simple_classify].
      right. reflexivity.
    + right. eexists. reflexivity.
  - cbn [snd]. split; [|split; [|exact Hc]].
    + destruct Hl as [-> | (b & r & [-> | ->] & ->)]; reflexivity.
    + destruct Hl as [-> | (b & r & [-> | ->] & ->)]; reflexivity.
Qed.

(** X21. [subscription_get_one] is a helper that never raises and never
    files: it runs [subscription list] once and returns, and what it returns
    is [None] or one of the items of the listing the tool printed. *)
Theorem subscription_get_one_returns_an_item_or_none :
  forall (E : Env) (context : Context) (w : World),
    let command := assemble_command E context " subscription list" in
    exists sub w',
      subscription_get_one E context w = (Ok sub, w')
      /\ ledger w' = ledger w
      /\ calls w' = (calls w ++ [command])%list
      /\ (sub = JNull
          \/ exists response items,
               tool E (calls w) command = Exited 0 (Decodes response)
               /\ py_iter response = Ok items /\ In sub items).
Proof.
  intros E context w command.
  unfold subscription_get_one. fold command.
  unfold try_except, bind at 1, subprocess_run. fold (called command w).
  destruct (tool E (calls w) command) as [[|p|p] [response|]|] eqn:Ht;
    cbn [is_Exception ret];
    try (exists JNull; eexists; split; [reflexivity|];
         split; [reflexivity|]; split; [reflexivity|]; left; reflexivity).
  unfold bind at 1. cbn [json_loads lift].
  assert (Hchoice : forall items : list json,
            exists sub w',
              try_except (bind (random_choice items) (fun sub => ret sub))
                (fun _ => ret JNull) (called command w) = (Ok sub, w')
              /\ ledger w' = ledger w
              /\ calls w' = (calls w ++ [command])%list
              /\ (sub = JNull \/ In sub items)).
  { intros [|x rest].
    - exists JNull. eexists. split; [reflexivity|].
      split; [reflexivity|]. split; [reflexivity|]. left. reflexivity.
    - unfold try_except, bind. rewrite random_choice_drawn. cbn [ret].
      eexists _, _. split; [reflexivity|].
      split; [reflexivity|]. split; [reflexivity|]. right.
      apply nth_In. apply Nat.mod_upper_bound. discriminate. }
  assert (Hnone : exists sub w',
            (Ok JNull, called command w) = (Ok sub, w')
            /\ ledger w' = ledger w
            /\ calls w' = (calls w ++ [command])%list
            /\ (sub = JNull
                \/ exists response0 items,
                     Exited 0 (Decodes response) = Exited 0 (Decodes response0)
                     /\ py_iter response0 = Ok items /\ In sub items)).
  { exists JNull. eexists. split; [reflexivity|].
    split; [reflexivity|]. split; [reflexivity|]. left. reflexivity. }
  destruct response as [| b | n | s | items | entries];
    cbn [random_choice_json]; try exact Hnone.
  - destruct (Hchoice (map JStr (code_points s))) as (sub & w' & Hrun & Hl & Hc & Hsub).
    unfold try_except, bind in Hrun. unfold bind. rewrite Hrun.
    exists sub, w'. split; [reflexivity|]. split; [exact Hl|]. split; [exact Hc|].
    destruct Hsub as [-> | Hin]; [left; reflexivity|].
    right. exists (JStr s), (map JStr (code_points s)).
    split; [reflexivity|]. split; [reflexivity | exact Hin].
  - destruct (Hchoice items) as (sub & w' & Hrun & Hl & Hc & Hsub).
    unfold try_except, bind in Hrun. unfold bind. rewrite Hrun.
    exists sub, w'. split; [reflexivity|]. split; [exact Hl|]. split; [exact Hc|].
    destruct Hsub as [-> | Hin]; [left; reflexivity|].
    right. exists (JList items), items.
    split; [reflexivity|]. split; [reflexivity | exact Hin].
  - destruct entries; exact Hnone.
Qed.

(** X22. [run_cli_driver] does not look at how the system wait ended.
    Provided [config.test_images] is not empty, the wait is run once and,
    ready or not, the chosen command and the summary follow in a world where
    nothing has been filed. *)
Theorem system_wait_outcome_is_ignored :
  forall (E : Env) (func : Context -> M unit) (context : Context) (w : World),
    test_images E <> [] ->
    run_cli_driver E func context w
    = bind (func context) (fun _ => log_results_summary)
        (mkWorld (ledger w) (calls w ++ [system_wait_command E context])
                 (tl (entropy w))).
Proof.
  intros E func context w Hne.
  unfold run_cli_driver. unfold bind at 1.
  assert (Hwait : system_wait E context false w
                  = (Ok tt,
                     mkWorld (ledger w) (calls w ++ [system_wait_command E context])
                             (tl (entropy w)))).
  { unfold system_wait. cbv zeta. fold (system_wait_command E context).
    destruct (test_images E) as [|x rest]; [contradiction|].
    unfold bind at 1. rewrite random_choice_drawn.
    destruct (command_then_compute E (system_wait_command E context)
                (fun _ => ret tt) (fun _ => ret tt) tt)
      with (w := mkWorld (ledger w) (calls w) (tl (entropy w))) as [[] Hrun].
    - intros out. apply only_computes_ret.
    - reflexivity.
    - exact Hrun. }
  rewrite Hwait. reflexivity.
Qed.

Lemma system_wait_outcome_is_ignored_witness :
  run_cli_driver (env_of ["alpine"] nothing_works) (fun _ => ret tt) admin fresh
  = (Ok tt,
     mkWorld empty_ledger
       ["cli --u admin --p foobar --url http://localhost/v1  system wait --timeout -1 --interval 5"]
       []).
Proof.
  refine (eq_trans (system_wait_outcome_is_ignored (env_of ["alpine"] nothing_works)
                      (fun _ => ret tt) admin fresh _) _).
  - discriminate.
  - reflexivity.
Defined.

(** ** A pass of [image_metadata] *)

Lemma fail_bucket_keeps_positive_pass test_type r (l : Ledger) :
  positive_pass (file (fail_bucket test_type) r l) = positive_pass l.
Proof. unfold fail_bucket. destruct (test_type =? "positive"); reflexivity. Qed.

(** The loop over the metadata types files failures only, and it hands back
    a flag that is still [False] only if it started so and nothing was
    filed. *)
Lemma image_metadata_loop_flag E context test_type image response todo :
  forall failed w,
  exists res w',
    image_metadata_loop E context test_type image response todo failed w = (res, w')
    /\ positive_pass (ledger w') = positive_pass (ledger w)
    /\ (res = Ok false -> failed = false /\ ledger w' = ledger w).
Proof.
  induction todo as [|key rest IH]; intros failed w.
  - exists (Ok failed), w. split; [reflexivity|]. split; [reflexivity|].
    intros H. inversion H. split; reflexivity.
  - cbn [image_metadata_loop]. cbv zeta.
    assert (Hstop : forall (e : exn) (w0 : World),
              positive_pass (ledger w0) = positive_pass (ledger w) ->
              exists (res : result bool) w',
                (@Raise bool e, w0) = (res, w')
                /\ positive_pass (ledger w') = positive_pass (ledger w)
                /\ (res = Ok false -> failed = false /\ ledger w' = ledger w)).
    { intros e w0 Hpp. exists (Raise e), w0. split; [reflexivity|].
      split; [exact Hpp | intros H; discriminate H]. }
    assert (Hgo : forall (flag : bool) (w0 : World),
              positive_pass (ledger w0) = positive_pass (ledger w) ->
              (flag = false -> failed = false /\ ledger w0 = ledger w) ->
              exists res w',
                image_metadata_loop E context test_type image response rest flag w0
                  = (res, w')
                /\ positive_pass (ledger w') = positive_pass (ledger w)
                /\ (res = Ok false -> failed = false /\ ledger w' = ledger w)).
    { intros flag w0 Hpp Hflag.
      destruct (IH flag w0) as (res & w' & Hrun & Hpp' & Hres).
      exists res, w'. split; [exact Hrun|]. split; [rewrite Hpp'; exact Hpp|].
      intros H. destruct (Hres H) as [Hf Hl]. destruct (Hflag Hf) as [Hfailed Hl0].
      split; [exact Hfailed | rewrite Hl; exact Hl0]. }
    unfold bind, lift, ret, subprocess_run.
    destruct (py_contains key response) as [present|e]; [|apply Hstop; reflexivity].
    destruct present; cbn [negb].
    + destruct (tool E (calls w) _) as [[|p|p] [sub_json|]|];
        cbn [json_loads ledger];
        try (apply Hstop; reflexivity).
      destruct (py_item sub_json "metadata_type") as [m_type|e];
        [|apply Hstop; reflexivity].
      destruct (negb (truthy m_type) || negb (py_eq m_type (JStr key))).
      * rewrite log_explicit_failure_fail_bucket.
        apply Hgo; [apply fail_bucket_keeps_positive_pass | intros H; discriminate H].
      * apply Hgo; [reflexivity | intros H; split; [exact H | reflexivity]].
    + rewrite log_explicit_failure_fail_bucket. cbn [ledger calls filed].
      destruct (tool E (calls w) _) as [[|p|p] [sub_json|]|];
        cbn [json_loads ledger];
        try (apply Hstop; apply fail_bucket_keeps_positive_pass).
      destruct (py_item sub_json "metadata_type") as [m_type|e];
        [|apply Hstop; apply fail_bucket_keeps_positive_pass].
      destruct (negb (truthy m_type) || negb (py_eq m_type (JStr key))).
      * rewrite log_explicit_failure_fail_bucket.
        apply Hgo; [|intros H; discriminate H].
        cbn [filed ledger]. rewrite !fail_bucket_keeps_positive_pass. reflexivity.
      * apply Hgo; [apply fail_bucket_keeps_positive_pass | intros H; discriminate H].
Qed.

(** X23. [image_metadata] never reports a pass next to a failure.  Whatever
    the tool does, either the scenario leaves the positive passes as they
    were, or the one record it filed is a positive pass and nothing else was
    filed. *)
Theorem image_metadata_pass_excludes_failure :
  forall (E : Env) (context : Context) (test_type : string) (w : World),
    let after := ledger (snd (image_metadata E context test_type w)) in
    positive_pass after = positive_pass (ledger w)
    \/ exists r, after = file PositivePass r (ledger w).
Proof.
  intros E context test_type w after. subst after.
  set (good := fun w' : World =>
         positive_pass (ledger w') = positive_pass (ledger w)
         \/ exists r, ledger w' = file PositivePass r (ledger w)).
  assert (Hrun : exists res w',
            image_metadata E context test_type w = (res, w') /\ good w').
  { unfold image_metadata. cbv zeta.
    destruct (test_images E) as [|x rest].
    { eexists _, _. split; [reflexivity|]. left. reflexivity. }
    unfold bind at 1. rewrite random_choice_drawn.
    set (image := nth _ _ _).
    unfold bind at 1.
    assert (Hwait : exists ready,
              wait_for_image E context image
                (mkWorld (ledger w) (calls w) (tl (entropy w)))
              = (Ok ready,
                 called (assemble_command E context (" image wait " ++ image))
                   (mkWorld (ledger w) (calls w) (tl (entropy w))))).
    { unfold wait_for_image. cbv zeta.
      apply command_then_compute with (otherwise := false).
      - intros out. apply only_computes_ret.
      - reflexivity. }
    destruct Hwait as [ready ->].
    destruct ready; [|eexists _, _; split; [reflexivity|]; left; reflexivity].
    set (w1 := called _ _).
    unfold try_except, bind at 1, subprocess_run.
    set (w2 := mkWorld (ledger w1) _ (entropy w1)).
    assert (Hl2 : ledger w2 = ledger w) by reflexivity.
    assert (Hfailure : forall w0,
              positive_pass (ledger w0) = positive_pass (ledger w) ->
              exists res w',
                log_explicit_failure test_type "image_metadata"
                  ("failed to get image metadata for " ++ image) w0 = (res, w')
                /\ good w').
    { intros w0 Hpp. rewrite log_explicit_failure_fail_bucket.
      eexists _, _. split; [reflexivity|]. left. cbn [filed ledger].
      rewrite fail_bucket_keeps_positive_pass. exact Hpp. }
    destruct (tool E (calls w1) _) as [[|p|p] [response|]|];
      cbn [is_Exception];
      try (apply Hfailure; rewrite Hl2; reflexivity).
    unfold bind at 1. cbn [json_loads lift]. unfold bind at 1.
    destruct (image_metadata_loop_flag E context test_type image response
                (metadata_types E) false w2) as (res & w3 & -> & Hpp & Hres).
    rewrite Hl2 in Hpp.
    destruct res as [[|]|e].
    - cbn [negb ret]. eexists _, _. split; [reflexivity|]. left. exact Hpp.
    - cbn [negb]. destruct (Hres eq_refl) as [_ Hl3]. rewrite Hl2 in Hl3.
      rewrite log_results_simple_classify.
      eexists _, _. split; [reflexivity|]. unfold good. cbn [filed ledger].
      rewrite Hl3. unfold classify. cbn [py_eq String.eqb Ascii.eqb Bool.eqb].
      destruct (test_type =? "positive").
      + right. eexists. reflexivity.
      + left. reflexivity.
    - destruct (is_Exception e).
      + apply Hfailure. exact Hpp.
      + eexists _, _. split; [reflexivity|]. left. exact Hpp. }
  destruct Hrun as (res & w' & -> & Hgood). exact Hgood.
Qed.

(** ** Scanning a listing as the tool prints it *)

Lemma printed_group_shown (g : Group) : group_shown g (printed_group g).
Proof. eexists. split; [reflexivity|]. split; reflexivity. Qed.

Lemma printed_feed_shown (f : Feed) : feed_shown f (printed_feed f).
Proof.
  eexists _, _. split; [reflexivity|]. split; [reflexivity|]. split; [reflexivity|].
  induction (feed_groups f) as [|g rest IH]; constructor;
    [apply printed_group_shown | exact IH].
Qed.

Lemma printed_listing_shows (feeds : list Feed) :
  listing_shows feeds (map printed_feed feeds).
Proof.
  induction feeds as [|f rest IH]; constructor; [apply printed_feed_shown | exact IH].
Qed.

Lemma listing_shows_truthy (feeds : list Feed) (listing : list json) :
  listing_shows feeds listing -> feeds <> [] ->
  negb (truthy (JList listing)) = false.
Proof.
  intros Hshows Hne. destruct Hshows; [contradiction | reflexivity].
Qed.

(** The inner loop on a listing that shows [groups]: it ends, and its loop
    variable is the decoded form of the group [groups_after] gives. *)
Lemma scan_groups_shown (stop : json -> bool) (groups : list Group)
    (decoded : list json) :
  Forall2 group_shown groups decoded ->
  forall (group : option Group) (current : option json),
    shown_as group_shown group current ->
    exists result,
      scan_groups stop decoded current = Ok result
      /\ shown_as group_shown
           (groups_after (fun enabled => stop (JBool enabled)) groups group) result.
Proof.
  induction 1 as [|g j groups decoded Hg _ IH]; intros group current Hcurrent.
  - exists current. split; [reflexivity | exact Hcurrent].
  - destruct Hg as (entries & -> & Hname & Henabled).
    cbn [scan_groups groups_after py_item]. rewrite Henabled. cbn [rbind].
    destruct (stop (JBool (group_enabled g))).
    + eexists. split; [reflexivity|]. exists entries.
      split; [reflexivity|]. split; assumption.
    + apply IH. exists entries. split; [reflexivity|]. split; assumption.
Qed.

(** The two nested loops on a listing that shows [feeds]. *)
Lemma scan_feeds_shown (stop : json -> bool) (feeds : list Feed)
    (listing : list json) :
  listing_shows feeds listing ->
  forall (feed : option Feed) (current_feed : option json)
         (group : option Group) (current_group : option json),
    shown_as feed_shown feed current_feed ->
    shown_as group_shown group current_group ->
    exists feed_result group_result,
      scan_feeds stop listing current_feed current_group
        = Ok (feed_result, group_result)
      /\ shown_as feed_shown
           (fst (feeds_after (fun enabled => stop (JBool enabled)) feeds feed group))
           feed_result
      /\ shown_as group_shown
           (snd (feeds_after (fun enabled => stop (JBool enabled)) feeds feed group))
           group_result.
Proof.
  induction 1 as [|f j feeds listing Hf _ IH];
    intros feed current_feed group current_group Hfeed Hgroup.
  - exists current_feed, current_group. split; [reflexivity|]. split; assumption.
  - pose proof Hf as (entries & decoded & -> & Hname & Hgroups & Hshown).
    cbn [scan_feeds feeds_after py_item]. rewrite Hgroups. cbn [rbind py_iter].
    destruct (scan_groups_shown stop (feed_groups f) decoded Hshown group current_group
                Hgroup) as (result & -> & Hresult).
    cbn [rbind]. apply IH; [exact Hf | exact Hresult].
Qed.

Lemma after_groups_as_scan (groups : list Group) (group : option Group) :
  after_groups groups group
  = groups_after (fun enabled => py_eq (JBool enabled) (JBool false)) groups group.
Proof.
  revert group. induction groups as [|g rest IH]; intros group; [reflexivity|].
  cbn [after_groups groups_after py_eq]. destruct (group_enabled g); cbn [Bool.eqb].
  - apply IH.
  - reflexivity.
Qed.

Lemma after_feeds_as_scan (feeds : list Feed) (feed : option Feed)
    (group : option Group) :
  after_feeds feeds feed group
  = feeds_after (fun enabled => py_eq (JBool enabled) (JBool false)) feeds feed group.
Proof.
  revert feed group. induction feeds as [|f rest IH]; intros feed group; [reflexivity|].
  cbn [after_feeds feeds_after]. rewrite after_groups_as_scan. apply IH.
Qed.

(** What [system_feeds_delete] does with a non-empty listing that shows
    [feeds]: with the variables the loops end on, it either goes on to the
    [try] around the delete command for that feed and that group, or stops
    on the unbound [group]. *)
Lemma system_feeds_delete_selection :
  forall (E : Env) (context : Context) (test_type : string) (w : World)
         (feeds : list Feed) (listing : list json),
    let list_command := assemble_command E context " system feeds list" in
    tool E (calls w) list_command = Exited 0 (Decodes (JList listing)) ->
    listing_shows feeds listing ->
    feeds <> [] ->
    match after_feeds feeds None None with
    | (Some f, Some g) =>
        system_feeds_delete E context test_type w
        = try_except
            (bind (subprocess_run E (feeds_delete_command E context f g))
               (fun completed_proc =>
                bind (lift (json_loads completed_proc)) (fun response =>
                bind (lift (py_index response 0)) (fun first =>
                bind (lift (py_item first "enabled")) (fun enabled =>
                if py_eq enabled (JBool false) then
                  log_results_simple (JStr "ok") (JStr "ok") test_type
                    "system_feeds_delete"
                    ("Deleted feed " ++ py_str E (JStr (feed_name f)) ++ " group "
                     ++ py_str E (JStr (group_name g)))
                else
                  log_explicit_failure test_type "system_feeds_delete"
                    ("Failed deleting feed " ++ py_str E (JStr (feed_name f))
                     ++ " group " ++ py_str E (JStr (group_name g))))))))
            (fun e => raise (NameError "action"))
            (called list_command w)
    | (Some f, None) =>
        system_feeds_delete E context test_type w
          = (Raise (UnboundLocalError "group"), called list_command w)
    | (None, _) => False
    end.
Proof.
  intros E context test_type w feeds listing list_command Ht Hshows Hne.
  pose proof (listing_shows_truthy feeds listing Hshows Hne) as Htruthy.
  destruct (scan_feeds_shown (fun enabled => py_eq enabled (JBool false)) feeds listing
              Hshows None None None None I I)
    as (feed_result & group_result & Hscan & Hfeed & Hgroup).
  rewrite <- after_feeds_as_scan in Hfeed, Hgroup.
  pose proof (after_feeds_last (removelast feeds) (last feeds (mkFeed "" [])) None None)
    as Hlast.
  rewrite <- (app_removelast_last (mkFeed "" []) Hne) in Hlast.
  assert (Hstart : forall rest : option json * option json -> M unit,
            bind (system_feeds_list E context "positive" true false) (fun found =>
              if negb (truthy found) then
                log_explicit_failure test_type "system_feeds_delete" "No feeds available"
              else
                bind (lift (py_iter found)) (fun feed_list =>
                bind (lift (scan_feeds (fun enabled => py_eq enabled (JBool false))
                              feed_list None None)) rest)) w
            = rest (feed_result, group_result) (called list_command w)).
  { intros rest. unfold bind at 1.
    rewrite (system_feeds_list_feeds E context w _ Ht). fold list_command.
    rewrite Htruthy. unfold bind at 1. cbn [py_iter lift]. unfold bind at 1.
    rewrite Hscan. reflexivity. }
  unfold system_feeds_delete. rewrite Hstart. clear Hstart Hscan.
  destruct (after_feeds feeds None None) as [[f|] [g|]]; cbn [fst snd] in *;
    try discriminate Hlast.
  - destruct feed_result as [feed_value|]; [|contradiction].
    destruct group_result as [group_value|]; [|contradiction].
    destruct Hfeed as (fe & fgroups & -> & Hfname & _).
    destruct Hgroup as (ge & -> & Hgname & _).
    unfold bind at 1. cbn [read_local lift]. unfold bind at 1.
    cbn [py_item]. rewrite Hfname. cbn [lift].
    unfold bind at 1. cbn [read_local lift]. unfold bind at 1.
    cbn [py_item]. rewrite Hgname. cbn [lift].
    reflexivity.
  - destruct feed_result as [feed_value|]; [|contradiction].
    destruct group_result as [group_value|]; [contradiction|].
    destruct Hfeed as (fe & fgroups & -> & Hfname & _).
    unfold bind at 1. cbn [read_local lift]. unfold bind at 1.
    cbn [py_item]. rewrite Hfname. cbn [lift].
    reflexivity.
Qed.

(** C10, as the code has it.  The inner [break] leaves only the inner loop,
    so the outer loop always runs to the last feed and the two variables keep
    what they were last bound to.  When every group of every feed is enabled
    and the last feed has a group, the delete command is issued all the same,
    against the last feed and its last group.  When no feed has any group (the
    first feed alone being empty is not enough), [group] was never bound and
    reading it raises [UnboundLocalError], a [NameError], before the [try]:
    nothing handles it and no delete command is run.  The listing is any
    decoded list that shows the feeds, whatever other keys its objects
    carry. *)
Theorem system_feeds_delete_stale_variables :
  forall (E : Env) (context : Context) (test_type : string) (w : World)
         (feeds : list Feed) (listing : list json),
    let list_command := assemble_command E context " system feeds list" in
    tool E (calls w) list_command = Exited 0 (Decodes (JList listing)) ->
    listing_shows feeds listing ->
    (forall (before : list Feed) (last_feed : Feed)
            (groups : list Group) (last_group : Group),
        feeds = (before ++ [last_feed])%list ->
        feed_groups last_feed = (groups ++ [last_group])%list ->
        Forall (fun f => Forall (fun g => group_enabled g = true) (feed_groups f)) feeds ->
        calls (snd (system_feeds_delete E context test_type w))
          = (calls w
             ++ [list_command; feeds_delete_command E context last_feed last_group])%list)
    /\ (feeds <> [] ->
        Forall (fun f => feed_groups f = []) feeds ->
        system_feeds_delete E context test_type w
          = (Raise (UnboundLocalError "group"), called list_command w)
        /\ is_NameError (UnboundLocalError "group") = true).
Proof.
  intros E context test_type w feeds listing list_command Ht Hshows. split.
  - intros before last_feed groups last_group Hfeeds Hgroups Hall.
    assert (Hne : feeds <> []) by (subst feeds; destruct before; discriminate).
    pose proof (system_feeds_delete_selection E context test_type w feeds listing
                  Ht Hshows Hne) as Hsel.
    assert (Hlast : Forall (fun g => group_enabled g = true) (feed_groups last_feed)).
    { rewrite Forall_forall in Hall. apply Hall. subst feeds.
      apply in_or_app. right. now left. }
    rewrite Hfeeds in Hsel.
    rewrite (after_feeds_all_enabled before last_feed groups last_group None None
               Hgroups Hlast) in Hsel.
    rewrite Hsel. rewrite try_one_command.
    + unfold called. cbn [calls]. rewrite <- app_assoc. reflexivity.
    + intros out. keeps_calls_tac.
    + intros e. keeps_calls_tac.
  - intros Hne Hempty. split; [|reflexivity].
    pose proof (system_feeds_delete_selection E context test_type w feeds listing
                  Ht Hshows Hne) as Hsel.
    pose proof (after_feeds_no_groups feeds None None Hempty) as Hnone.
    destruct (after_feeds feeds None None) as [[f|] [g|]]; cbn [snd] in Hnone;
      try discriminate Hnone; [exact Hsel | contradiction].
Qed.

Lemma system_feeds_delete_stale_variables_witness :
  calls (snd (system_feeds_delete
                (env_of [] (feeds_printed [mkFeed "a" [mkGroup "g1" true];
                                           mkFeed "b" [mkGroup "g2" true; mkGroup "g3" true]]))
                admin "positive" fresh))
  = ["cli --u admin --p foobar --url http://localhost/v1  system feeds list";
     "cli --u admin --p foobar --url http://localhost/v1  system feeds delete --group g3 b"]
  /\ system_feeds_delete (env_of [] (feeds_printed [mkFeed "a" []; mkFeed "b" []]))
       admin "positive" fresh
     = (Raise (UnboundLocalError "group"),
        mkWorld empty_ledger
          ["cli --u admin --p foobar --url http://localhost/v1  system feeds list"] []).
Proof.
  split.
  - refine (proj1 (system_feeds_delete_stale_variables
             (env_of [] (feeds_printed [mkFeed "a" [mkGroup "g1" true];
                                        mkFeed "b" [mkGroup "g2" true; mkGroup "g3" true]]))
             admin "positive" fresh
             [mkFeed "a" [mkGroup "g1" true];
              mkFeed "b" [mkGroup "g2" true; mkGroup "g3" true]]
             _ eq_refl (printed_listing_shows _))
             [mkFeed "a" [mkGroup "g1" true]]
             (mkFeed "b" [mkGroup "g2" true; mkGroup "g3" true])
             [mkGroup "g2" true] (mkGroup "g3" true) eq_refl eq_refl _).
    repeat constructor.
  - refine (proj1 (proj2 (system_feeds_delete_stale_variables
             (env_of [] (feeds_printed [mkFeed "a" []; mkFeed "b" []]))
             admin "positive" fresh [mkFeed "a" []; mkFeed "b" []]
             _ eq_refl (printed_listing_shows _)) _ _)).
    + discriminate.
    + repeat constructor.
Defined.

(** Two listings, printed in full.  In the first, the first feed has no
    group and the second has a disabled one: [group] is bound by the second
    feed, nothing is raised, and the delete command goes out for that group.
    In the second, every group is enabled and the last feed has none: the
    delete command goes out for the last feed with the group left over from
    the feed before it. *)
Lemma system_feeds_delete_first_feed_without_groups :
  system_feeds_delete
    (env_of [] (feeds_printed [mkFeed "a" []; mkFeed "b" [mkGroup "g" false]]))
    admin "positive" fresh
  = (Ok tt,
     mkWorld (mkLedger ["system_feeds_delete - Deleted feed b group g"] [] [] [])
       ["cli --u admin --p foobar --url http://localhost/v1  system feeds list";
        "cli --u admin --p foobar --url http://localhost/v1  system feeds delete --group g b"]
       [])
  /\ system_feeds_delete
       (env_of [] (feeds_printed [mkFeed "a" [mkGroup "g1" true]; mkFeed "b" []]))
       admin "positive" fresh
     = (Ok tt,
        mkWorld (mkLedger ["system_feeds_delete - Deleted feed b group g1"] [] [] [])
          ["cli --u admin --p foobar --url http://localhost/v1  system feeds list";
           "cli --u admin --p foobar --url http://localhost/v1  system feeds delete --group g1 b"]
          []).
Proof. split; reflexivity. Qed.

(** X10. On a listing whose last feed has groups, the last feed alone
    decides what [system_feeds_config_toggle] does, although its message
    speaks of any feed.  If the last feed has a group in the state looked
    for, the first such group is toggled, under the name of the last feed,
    and one record is filed; if it has none, the scenario files the explicit
    failure and runs no toggle, whatever groups the feeds before it have.
    The listing is any decoded list that shows the feeds, whatever other
    keys its objects carry. *)
Theorem system_feeds_config_toggle_last_feed_decides :
  forall (E : Env) (context : Context) (test_type : string) (enable : bool)
         (w : World) (before : list Feed) (last_feed : Feed) (listing : list json),
    let list_command := assemble_command E context " system feeds list" in
    tool E (calls w) list_command = Exited 0 (Decodes (JList listing)) ->
    listing_shows (before ++ [last_feed]) listing ->
    feed_groups last_feed <> [] ->
    match find (fun g => negb (Bool.eqb (group_enabled g) enable))
               (feed_groups last_feed) with
    | Some g =>
        exists b r,
          pass_or_declared_fail test_type b
          /\ system_feeds_config_toggle E context test_type enable w
          = (Ok tt,
             filed b r
               (called (feeds_config_command E context enable last_feed g)
                  (called list_command w)))
    | None =>
        system_feeds_config_toggle E context test_type enable w
        = (Ok tt,
           filed (fail_bucket test_type)
             (record_text "system_feeds_config_toggle"
                ("failed to find a " ++ (if enable then "disabled" else "enabled")
                 ++ " group in any feed"))
             (called list_command w))
    end.
Proof.
  intros E context test_type enable w before last_feed listing list_command Ht
    Hshows Hgroups.
  set (stop := fun enabled : json => negb (py_eq enabled (JBool enable))).
  assert (Hne : (before ++ [last_feed])%list <> []) by (destruct before; discriminate).
  pose proof (listing_shows_truthy _ listing Hshows Hne) as Htruthy.
  destruct (scan_feeds_shown stop (before ++ [last_feed]) listing Hshows
              None None None None I I)
    as (feed_result & group_result & Hscan & Hfeed & Hgroup).
  destruct (feeds_after_last (fun enabled => stop (JBool enabled)) before last_feed
              None None) as [group' Hafter].
  rewrite Hafter in Hfeed, Hgroup. cbn [fst snd] in Hfeed, Hgroup.
  destruct feed_result as [feed_value|]; [|contradiction].
  destruct Hfeed as (fe & fgroups & -> & Hfname & _).
  assert (Hstart : forall rest : option json * option json -> M unit,
            bind (system_feeds_list E context "positive" true false) (fun found =>
              if negb (truthy found) then
                log_explicit_failure test_type "system_feeds_config_toggle"
                  "No feeds available"
              else
                bind (lift (py_iter found)) (fun feed_list =>
                bind (lift (scan_feeds stop feed_list None None)) rest)) w
            = rest (Some (JDict fe), group_result) (called list_command w)).
  { intros rest. unfold bind at 1.
    rewrite (system_feeds_list_feeds E context w _ Ht). fold list_command.
    rewrite Htruthy. unfold bind at 1. cbn [py_iter lift]. unfold bind at 1.
    rewrite Hscan. reflexivity. }
  unfold system_feeds_config_toggle. cbv zeta. fold stop. rewrite Hstart.
  change (fun g : Group => negb (Bool.eqb (group_enabled g) enable))
    with (fun g : Group => (fun enabled => stop (JBool enabled)) (group_enabled g)).
  destruct (find (fun g : Group => (fun enabled => stop (JBool enabled)) (group_enabled g))
              (feed_groups last_feed)) as [g|] eqn:Hfind.
  - destruct (groups_after_found (fun enabled => stop (JBool enabled))
                (feed_groups last_feed) g group' Hfind) as [Hafter_g Hstop].
    rewrite Hafter_g in Hgroup.
    destruct group_result as [group_value|]; [|contradiction].
    destruct Hgroup as (ge & -> & Hgname & Hgenabled).
    unfold bind at 1. cbn [read_local lift]. unfold bind at 1.
    cbn [py_item]. rewrite Hgenabled. cbn [lift].
    unfold stop in Hstop. apply negb_true_iff in Hstop. rewrite Hstop.
    unfold bind at 1. cbn [read_local lift]. unfold bind at 1.
    cbn [py_item]. rewrite Hfname. cbn [lift].
    unfold bind at 1. rewrite Hgname. cbn [lift].
    fold (feeds_config_command E context enable last_feed g).
    match goal with
    | |- exists b r, _ /\ try_except (bind (subprocess_run E ?c) ?k) ?h ?w0 = _ =>
        apply (command_then_file E (pass_or_declared_fail test_type) c k h)
    end.
    + intros out. files_into_tac.
    + intros e. apply explicit_failure_handler. apply declared_fail_allowed.
  - destruct (groups_after_not_found (fun enabled => stop (JBool enabled))
                (feed_groups last_feed) group' Hfind Hgroups) as (g & Hafter_g & Hstop).
    rewrite Hafter_g in Hgroup.
    destruct group_result as [group_value|]; [|contradiction].
    destruct Hgroup as (ge & -> & Hgname & Hgenabled).
    unfold bind at 1. cbn [read_local lift]. unfold bind at 1.
    cbn [py_item]. rewrite Hgenabled. cbn [lift].
    unfold stop in Hstop. apply negb_false_iff in Hstop. rewrite Hstop.
    apply log_explicit_failure_fail_bucket.
Qed.

Lemma system_feeds_config_toggle_last_feed_decides_witness :
  system_feeds_config_toggle
    (env_of ["alpine"]
       (feeds_printed [mkFeed "vulnerabilities" [mkGroup "alpine:3.10" false];
                       mkFeed "nvdv2" [mkGroup "nvdv2:cves" true]]))
    admin "positive" true fresh
  = (Ok tt,
     filed PositiveFail
       "system_feeds_config_toggle - failed to find a disabled group in any feed"
       (called "cli --u admin --p foobar --url http://localhost/v1  system feeds list"
          fresh)).
Proof.
  refine (system_feeds_config_toggle_last_feed_decides
            (env_of ["alpine"]
               (feeds_printed [mkFeed "vulnerabilities" [mkGroup "alpine:3.10" false];
                               mkFeed "nvdv2" [mkGroup "nvdv2:cves" true]]))
            admin "positive" true fresh
            [mkFeed "vulnerabilities" [mkGroup "alpine:3.10" false]]
            (mkFeed "nvdv2" [mkGroup "nvdv2:cves" true]) _ eq_refl
            (printed_listing_shows
               [mkFeed "vulnerabilities" [mkGroup "alpine:3.10" false];
                mkFeed "nvdv2" [mkGroup "nvdv2:cves" true]]) _).
  discriminate.
Defined.

(** X11. [system_feeds_delete] cannot record a failed delete.  Once a feed
    and a group are selected from the listing, a delete command that does
    not exit with 0 sends the scenario into its handler, and the handler
    raises [NameError] for the name [action]: the scenario ends on that
    exception with nothing filed.  The listing is any decoded list that
    shows the feeds, whatever other keys its objects carry. *)
Theorem system_feeds_delete_failure_raises :
  forall (E : Env) (context : Context) (test_type : string) (w : World)
         (feeds : list Feed) (listing : list json) (f : Feed) (g : Group),
    let list_command := assemble_command E context " system feeds list" in
    let delete_command := feeds_delete_command E context f g in
    tool E (calls w) list_command = Exited 0 (Decodes (JList listing)) ->
    listing_shows feeds listing ->
    after_feeds feeds None None = (Some f, Some g) ->
    (forall out, tool E (calls w ++ [list_command]) delete_command <> Exited 0 out) ->
    system_feeds_delete E context test_type w
    = (Raise (NameError "action"), called delete_command (called list_command w)).
Proof.
  intros E context test_type w feeds listing f g list_command delete_command
    Ht Hshows Hafter Hfail.
  assert (Hne : feeds <> []) by (destruct feeds; [discriminate Hafter | discriminate]).
  pose proof (system_feeds_delete_selection E context test_type w feeds listing
                Ht Hshows Hne) as Hsel.
  cbv zeta in Hsel. rewrite Hafter in Hsel. rewrite Hsel.
  subst list_command delete_command.
  destruct (subprocess_run_fails E (feeds_delete_command E context f g)
              (called (assemble_command E context " system feeds list") w) Hfail)
    as (e & He & Hrun).
  unfold try_except, bind at 1. rewrite Hrun, He. reflexivity.
Qed.

Lemma system_feeds_delete_failure_raises_witness :
  system_feeds_delete
    (env_of ["alpine"] (feeds_printed_only [mkFeed "nvdv2" [mkGroup "nvdv2:cves" false]]))
    admin "positive" fresh
  = (Raise (NameError "action"),
     mkWorld empty_ledger
       ["cli --u admin --p foobar --url http://localhost/v1  system feeds list";
        "cli --u admin --p foobar --url http://localhost/v1  system feeds delete --group nvdv2:cves nvdv2"]
       []).
Proof.
  refine (system_feeds_delete_failure_raises
            (env_of ["alpine"]
               (feeds_printed_only [mkFeed "nvdv2" [mkGroup "nvdv2:cves" false]]))
            admin "positive" fresh [mkFeed "nvdv2" [mkGroup "nvdv2:cves" false]]
            _ (mkFeed "nvdv2" [mkGroup "nvdv2:cves" false]) (mkGroup "nvdv2:cves" false)
            eq_refl (printed_listing_shows _) eq_refl _).
  intros out H. discriminate H.
Defined.

(** ** The poll for the drawn image *)

(** What [random.choice] leaves behind: the value is one of the list, and
    neither the ledger nor the commands on record change. *)
Lemma random_choice_keeps {A : Type} (xs : list A) (x : A) (w w1 : World) :
  random_choice xs w = (Ok x, w1) ->
  In x xs /\ ledger w1 = ledger w /\ calls w1 = calls w.
Proof.
  intros Hdraw. destruct xs as [|x0 rest]; [discriminate Hdraw|].
  destruct (random_choice_returns (x0 :: rest) w) as (y & w2 & Hrun & Hin & Hl & Hc);
    [discriminate|].
  rewrite Hrun in Hdraw. inversion Hdraw; subst. repeat split; assumption.
Qed.

Lemma wait_for_image_ready (E : Env) (context : Context) (image : string) (w : World) :
  poll_fails E context (calls w) image = false ->
  wait_for_image E context image w = (Ok true, called (wait_command E context image) w).
Proof.
  intros Hpoll. unfold wait_for_image. cbv zeta. fold (wait_command E context image).
  unfold poll_fails in Hpoll.
  destruct (tool E (calls w) (wait_command E context image)) as [[|p|p] out|] eqn:Hw;
    try discriminate Hpoll.
  unfold try_except, bind. rewrite (subprocess_run_ok E _ w out Hw). reflexivity.
Qed.

(** A scenario that starts by choosing an image and polling for it: when the
    poll for the image that was drawn fails, the scenario returns with that
    poll as its one command, whatever the polls for the other images would
    have given. *)
Lemma choose_then_poll_drawn (E : Env) (context : Context) (images : list string)
    (rest : string -> M unit) (w w1 : World) (image : string) :
  random_choice images w = (Ok image, w1) ->
  poll_fails E context (calls w1) image = true ->
  bind (random_choice images) (fun image =>
  bind (wait_for_image E context image) (fun ready =>
  if (ready : bool) then rest image else ret tt)) w
  = (Ok tt, called (wait_command E context image) w1).
Proof.
  intros Hdraw Hpoll. unfold bind at 1. rewrite Hdraw. unfold bind at 1.
  rewrite (wait_for_image_fails E context image w1 Hpoll). reflexivity.
Qed.

(** C7, as the code has it.  In each of the eight scenarios guarded by an
    [image wait] poll, a failing poll for the image the scenario works on
    makes the function return without invoking the dependent operation and
    without filing anything from the poll on.  The six scenarios that start
    by drawing the image and polling for it end with the four buckets as at
    entry and the poll for the drawn image as the only command run; nothing
    is assumed of the other images.  The two archive scenarios first pick an
    image through [image_get], whose handler files without asking [log]:
    what that step filed stays, a positive-fail record for each image it
    could not get, so these two do not end with the four buckets as at
    entry; after the pick only the poll is run and nothing more is filed. *)
Theorem failed_poll_skips_dependent_check :
  forall (E : Env) (context : Context) (test_type : string) (w : World),
    (forall (image : string) (w1 : World),
        random_choice (test_images E) w = (Ok image, w1) ->
        poll_fails E context (calls w1) image = true ->
        let skipped := (Ok tt, called (wait_command E context image) w1) in
        ledger w1 = ledger w
        /\ calls w1 = calls w
        /\ (forall force, image_del E context force test_type w = skipped)
        /\ evaluate_check E context test_type w = skipped
        /\ image_metadata E context test_type w = skipped
        /\ image_vuln E context test_type w = skipped
        /\ (forall timeout interval,
              image_wait E context timeout interval test_type w = skipped))
    /\ (forall (content_type image : string) (w1 : World),
          random_choice (content_images E content_type) w = (Ok image, w1) ->
          poll_fails E context (calls w1) image = true ->
          ledger w1 = ledger w
          /\ calls w1 = calls w
          /\ image_content E context test_type content_type w
             = (Ok tt, called (wait_command E context image) w1))
    /\ archive_skipped_at_poll E context test_type "analysis_archive_images_add"
         (analysis_archive_images_add E context test_type) w
    /\ archive_skipped_at_poll E context test_type "analysis_archive_images_del"
         (analysis_archive_images_del E context test_type) w.
Proof.
  intros E context test_type w.
  split; [|split].
  - intros image w1 Hdraw Hpoll skipped.
    destruct (random_choice_keeps _ _ _ _ Hdraw) as (_ & Hl & Hc).
    split; [exact Hl|]. split; [exact Hc|].
    split; [intros force; unfold image_del; cbv zeta;
            apply choose_then_poll_drawn; assumption|].
    split; [unfold evaluate_check; apply choose_then_poll_drawn; assumption|].
    split; [unfold image_metadata; cbv zeta; apply choose_then_poll_drawn; assumption|].
    split; [unfold image_vuln; apply choose_then_poll_drawn; assumption|].
    intros timeout interval. unfold image_wait. cbv zeta.
    apply choose_then_poll_drawn; assumption.
  - intros content_type image w1 Hdraw Hpoll.
    destruct (random_choice_keeps _ _ _ _ Hdraw) as (_ & Hl & Hc).
    split; [exact Hl|]. split; [exact Hc|].
    unfold image_content, content_images in *.
    destruct (content_type =? "malware"); apply choose_then_poll_drawn; assumption.
  - split; intros Hpoll.
    + pose proof (analysis_archive_images_add_skipped E context test_type w Hpoll)
        as Hskip.
      split; [exact Hskip|]. intros picked w1 Hpick.
      destruct (pick_archive_image_files E context test_type _ w picked w1 Hpick)
        as (failed & Hall & Hl).
      exists failed. split; [exact Hall|].
      destruct Hskip as (_ & Hledger & _). rewrite Hledger, Hpick. exact Hl.
    + pose proof (analysis_archive_images_del_skipped E context test_type w Hpoll)
        as Hskip.
      split; [exact Hskip|]. intros picked w1 Hpick.
      destruct (pick_archive_image_files E context test_type _ w picked w1 Hpick)
        as (failed & Hall & Hl).
      exists failed. split; [exact Hall|].
      destruct Hskip as (_ & Hledger & _). rewrite Hledger, Hpick. exact Hl.
Qed.

(** Two runs.  With two configured images of which only the drawn one is
    not ready, [evaluate_check] is skipped; and with [image get] failing for
    one of two images, [analysis_archive_images_add] is skipped at the poll
    with the record of [image_get] in its ledger. *)
Lemma failed_poll_skips_dependent_check_witness :
  evaluate_check
    (env_of ["alpine"; "busybox"]
       (fun _ command =>
          if is_substring " image wait busybox" command then Exited 1 Undecodable
          else Exited 0 (Decodes (JDict []))))
    admin "positive" (mkWorld empty_ledger [] [1%nat])
  = (Ok tt,
     mkWorld empty_ledger
       ["cli --u admin --p foobar --url http://localhost/v1  image wait busybox"] [])
  /\ exists failed,
       Forall image_get_failure failed
       /\ ledger (snd (analysis_archive_images_add
                         (env_of ["alpine"; "busybox"] one_image_known) admin
                         "positive" fresh))
          = with_positive_fails failed (ledger fresh).
Proof.
  split.
  - exact (proj1 (proj2 (proj2 (proj2
      (proj1 (failed_poll_skips_dependent_check
                (env_of ["alpine"; "busybox"]
                   (fun _ command =>
                      if is_substring " image wait busybox" command
                      then Exited 1 Undecodable
                      else Exited 0 (Decodes (JDict []))))
                admin "positive" (mkWorld empty_ledger [] [1%nat]))
         "busybox" (mkWorld empty_ledger [] []) eq_refl eq_refl))))).
  - exact (proj2 (proj1 (proj2 (proj2
      (failed_poll_skips_dependent_check
         (env_of ["alpine"; "busybox"] one_image_known) admin "positive" fresh)))
      eq_refl) _ _ eq_refl).
Defined.

(** ** One invocation for every timeout *)

Lemma invocations_one (w w' : World) (command : string) :
  calls w' = (calls w ++ [command])%list -> invocations w w' = 1%nat.
Proof.
  intros Hc. unfold invocations. rewrite Hc, length_app. cbn [length]. lia.
Qed.

Lemma invocations_two (w w' : World) (first second : string) :
  calls w' = (calls w ++ [first; second])%list -> invocations w w' = 2%nat.
Proof.
  intros Hc. unfold invocations. rewrite Hc, length_app. cbn [length]. lia.
Qed.

Lemma ceil_div_positive (T I : Z) : (0 < T)%Z -> (0 < I)%Z -> (1 <= ceil_div T I)%Z.
Proof.
  intros HT HI. unfold ceil_div.
  apply Z.div_le_lower_bound; lia.
Qed.

(** [system_wait] once its image is drawn: the one command, then the record
    when [log] is set and the command came back, and a normal return in
    every case. *)
Lemma system_wait_run (E : Env) (context : Context) (log : bool) (w w1 : World)
    (image : string) :
  random_choice (test_images E) w = (Ok image, w1) ->
  system_wait E context log w
  = (Ok tt,
     match tool E (calls w1) (system_wait_command E context) with
     | Exited 0 _ =>
         if log then
           filed PositivePass (record_text "system_wait" "waited for system")
             (called (system_wait_command E context) w1)
         else called (system_wait_command E context) w1
     | _ => called (system_wait_command E context) w1
     end).
Proof.
  intros Hdraw. unfold system_wait. cbv zeta. fold (system_wait_command E context).
  unfold bind at 1. rewrite Hdraw.
  unfold try_except, bind, subprocess_run.
  destruct (tool E (calls w1) (system_wait_command E context)) as [[|p|p] out|];
    try reflexivity.
  destruct log; [|reflexivity].
  cbv beta. rewrite log_results_simple_classify. reflexivity.
Qed.

(** A command whose output is decoded, under a [try]: a failure the
    scenario did not anticipate (a return code other than 0, a command that
    could not be started, an output that does not decode) ends in the
    handler, with the command on record and nothing else changed. *)
Lemma unanticipated_failure_handled {A : Type} (E : Env) (command : string)
    (k : json -> M A) (h : exn -> M A) (w : World) :
  unanticipated_failure (tool E (calls w) command) = true ->
  exists e,
    is_Exception e = true
    /\ try_except
         (bind (subprocess_run E command) (fun out => bind (lift (json_loads out)) k))
         h w
       = h e (called command w).
Proof.
  intros Hfail. unfold try_except, bind, subprocess_run. fold (called command w).
  destruct (tool E (calls w) command) as [[|p|p] [response|]|];
    try discriminate Hfail; cbn [json_loads lift];
    eexists; (split; [|reflexivity]); reflexivity.
Qed.

(** The same command when it comes back with an output that decodes: what
    follows decides. *)
Lemma decoded_output_continues {A : Type} (E : Env) (command : string)
    (k : json -> M A) (h : exn -> M A) (w : World) (response : json) :
  tool E (calls w) command = Exited 0 (Decodes response) ->
  try_except
    (bind (subprocess_run E command) (fun out => bind (lift (json_loads out)) k)) h w
  = try_except (k response) h (called command w).
Proof.
  intros Ht. unfold try_except, bind, subprocess_run. fold (called command w).
  rewrite Ht. reflexivity.
Qed.

Lemma unanticipated_failure_or_decoded (p : proc_result) :
  unanticipated_failure p = true \/ exists response, p = Exited 0 (Decodes response).
Proof.
  destruct p as [[|q|q] [response|]|]; try (left; reflexivity).
  right. exists response. reflexivity.
Qed.

(** The second command of [image_wait], after a poll that came back: the
    function returns whatever the command does, and when the command fails
    nothing is filed. *)
Lemma image_wait_run (E : Env) (context : Context) (timeout interval : Z)
    (test_type : string) (w w1 : World) (image : string) :
  random_choice (test_images E) w = (Ok image, w1) ->
  poll_fails E context (calls w1) image = false ->
  let polled := called (wait_command E context image) w1 in
  let command := image_wait_command E context image timeout interval in
  exists w',
    image_wait E context timeout interval test_type w = (Ok tt, w')
    /\ calls w' = (calls w1 ++ [wait_command E context image; command])%list
    /\ (unanticipated_failure (tool E (calls polled) command) = true ->
        w' = called command polled).
Proof.
  intros Hdraw Hpoll polled command.
  assert (Hcalls : calls (called command polled)
                   = (calls w1 ++ [wait_command E context image; command])%list).
  { unfold polled, called. cbn [calls]. rewrite <- app_assoc. reflexivity. }
  unfold image_wait. cbv zeta.
  fold (image_wait_command E context image timeout interval).
  unfold bind at 1. rewrite Hdraw. unfold bind at 1.
  rewrite (wait_for_image_ready E context image w1 Hpoll). fold polled.
  fold (image_wait_command E context image timeout interval). fold command.
  destruct (unanticipated_failure_or_decoded (tool E (calls polled) command))
    as [Hfail | [response Ht]].
  - destruct (unanticipated_failure_handled E command
                (fun response =>
                   bind (lift (py_index response 0)) (fun first =>
                   bind (lift (py_item first "analysis_status")) (fun status =>
                   log_results_simple (JStr "analyzed") status test_type "image_wait"
                     ("waited for image " ++ image))))
                (fun _ => ret tt) polled Hfail) as (e & _ & Hrun).
    rewrite Hrun. exists (called command polled).
    split; [reflexivity|]. split; [exact Hcalls | reflexivity].
  - rewrite (decoded_output_continues E command _ _ polled response Ht).
    rewrite Ht. cbn [unanticipated_failure].
    unfold try_except. unfold bind at 1.
    destruct (py_index response 0) as [first|e] eqn:Hfirst; cbn [lift].
    + unfold bind at 1.
      destruct (py_item first "analysis_status") as [status|e] eqn:Hstatus; cbn [lift].
      * rewrite log_results_simple_classify.
        eexists; split; [reflexivity|]. split; [exact Hcalls | discriminate].
      * rewrite (fails_only_py_item _ _ e Hstatus).
        eexists; split; [reflexivity|]. split; [exact Hcalls | discriminate].
    + rewrite (fails_only_py_index _ _ e Hfirst).
      eexists; split; [reflexivity|]. split; [exact Hcalls | discriminate].
Qed.

(** C8, as the code has it.  The driver has no retry loop: [system_wait] and
    [image_wait] hand the timeout and the interval to the tool's own wait
    command and invoke it once, for every value of the two.  So the number
    of invocations is one when the timeout is 0, and within ceil(T/I) + 1
    when T and I are positive.  [image_wait] first runs the poll without the
    two options, once, and the command with them only when the poll came
    back.  With any timeout, a negative one included, both functions return
    normally also when the wait command fails, in a world with that command
    on record and nothing filed: they do not wait for readiness and do not
    tell their caller how the wait ended. *)
Theorem poller_attempts_and_timeout :
  forall (E : Env) (context : Context) (w w1 : World) (image : string),
    random_choice (test_images E) w = (Ok image, w1) ->
    let T := default_system_wait_timeout E in
    let I := default_system_wait_interval E in
    (forall log : bool,
        exists w',
          system_wait E context log w = (Ok tt, w')
          /\ calls w' = (calls w ++ [system_wait_command E context])%list
          /\ invocations w w' = 1%nat
          /\ ((0 < T)%Z -> (0 < I)%Z ->
              (Z.of_nat (invocations w w') <= ceil_div T I + 1)%Z)
          /\ ((forall out, tool E (calls w) (system_wait_command E context)
                           <> Exited 0 out) ->
              w' = called (system_wait_command E context) w1))
    /\ (forall (timeout interval : Z) (test_type : string),
          let poll := wait_command E context image in
          let command := image_wait_command E context image timeout interval in
          exists w',
            image_wait E context timeout interval test_type w = (Ok tt, w')
            /\ if poll_fails E context (calls w) image then
                 w' = called poll w1 /\ invocations w w' = 1%nat
               else
                 calls w' = (calls w ++ [poll; command])%list
                 /\ invocations w w' = 2%nat
                 /\ (unanticipated_failure (tool E (calls w ++ [poll]) command) = true ->
                     w' = called command (called poll w1))).
Proof.
  intros E context w w1 image Hdraw T I.
  destruct (random_choice_keeps _ _ _ _ Hdraw) as (_ & Hl & Hc).
  split.
  - intros log. eexists. split; [apply (system_wait_run E context log w w1 image Hdraw)|].
    rewrite Hc.
    assert (Hcalls :
      calls (match tool E (calls w) (system_wait_command E context) with
             | Exited 0 _ =>
                 if log then
                   filed PositivePass (record_text "system_wait" "waited for system")
                     (called (system_wait_command E context) w1)
                 else called (system_wait_command E context) w1
             | _ => called (system_wait_command E context) w1
             end)
      = (calls w ++ [system_wait_command E context])%list).
    { destruct (tool E (calls w) (system_wait_command E context)) as [[|p|p] out|];
        try destruct log; unfold filed, called; cbn [calls]; rewrite Hc; reflexivity. }
    split; [exact Hcalls|].
    split; [apply (invocations_one _ _ _ Hcalls)|].
    split.
    + intros HT HI. rewrite (invocations_one _ _ _ Hcalls).
      pose proof (ceil_div_positive T I HT HI). cbn. lia.
    + intros Hfail.
      destruct (tool E (calls w) (system_wait_command E context)) as [[|p|p] out|];
        try reflexivity.
      exfalso. apply (Hfail out). reflexivity.
  - intros timeout interval test_type poll command.
    rewrite <- Hc.
    destruct (poll_fails E context (calls w1) image) eqn:Hpoll.
    + exists (called poll w1). split.
      * unfold image_wait. cbv zeta. apply choose_then_poll_drawn; assumption.
      * split; [reflexivity|]. apply (invocations_one _ _ poll).
        unfold called. cbn [calls]. rewrite Hc. reflexivity.
    + destruct (image_wait_run E context timeout interval test_type w w1 image
                  Hdraw Hpoll) as (w' & Hrun & Hcalls & Hfail).
      exists w'. split; [exact Hrun|].
      split; [exact Hcalls|].
      split; [apply (invocations_two _ _ poll command); rewrite <- Hc; exact Hcalls|].
      exact Hfail.
Qed.

Lemma poller_attempts_and_timeout_witness :
  random_choice (test_images (env_of ["alpine"] nothing_works)) fresh = (Ok "alpine", fresh)
  /\ exists w',
       system_wait (env_of ["alpine"] nothing_works) admin true fresh = (Ok tt, w')
       /\ invocations fresh w' = 1%nat
       /\ w' = called "cli --u admin --p foobar --url http://localhost/v1  system wait --timeout -1 --interval 5"
                 fresh.
Proof.
  split; [reflexivity|].
  destruct (proj1 (poller_attempts_and_timeout (env_of ["alpine"] nothing_works) admin
                     fresh fresh "alpine" eq_refl) true)
    as (w' & Hrun & _ & Hone & _ & Hfail).
  exists w'. split; [exact Hrun|]. split; [exact Hone|].
  apply Hfail. intros out H. discriminate H.
Defined.

(** The configured timeout is -1, no command ever succeeds, and both
    functions return all the same: [system_wait] after its one command,
    [image_wait], whose poll comes back here, after the wait with
    [--timeout -1] has failed.  Nothing is filed and nothing tells the
    caller that the wait did not end in readiness. *)
Lemma system_wait_returns_when_never_ready :
  default_system_wait_timeout (env_of ["alpine"] nothing_works) = (-1)%Z
  /\ system_wait (env_of ["alpine"] nothing_works) admin true fresh
     = (Ok tt,
        mkWorld empty_ledger
          ["cli --u admin --p foobar --url http://localhost/v1  system wait --timeout -1 --interval 5"]
          [])
  /\ image_wait
       (env_of ["alpine"]
          (fun _ command =>
             if is_substring " --timeout " command then Exited 1 Undecodable
             else Exited 0 (Decodes (JDict []))))
       admin (-1) 5 "positive" fresh
     = (Ok tt,
        mkWorld empty_ledger
          ["cli --u admin --p foobar --url http://localhost/v1  image wait alpine";
           "cli --u admin --p foobar --url http://localhost/v1  image wait alpine --timeout -1 --interval 5"]
          []).
Proof. repeat split. Qed.

(** ** Handlers and the failures they are given *)

Lemma plain_handler_files_failure (E : Env) (test_type command action message : string)
    (k : json -> M unit) :
  files_every_failure E test_type command action message
    (try_except
       (bind (subprocess_run E command) (fun out => bind (lift (json_loads out)) k))
       (fun _ => log_explicit_failure test_type action message)).
Proof.
  intros w Hfail.
  destruct (unanticipated_failure_handled E command k
              (fun _ => log_explicit_failure test_type action message) w Hfail)
    as (e & _ & Hrun).
  rewrite Hrun. apply log_explicit_failure_fail_bucket.
Qed.

(** A scenario that starts by choosing an image and polling for it, when
    the poll for the drawn image came back: the rest runs, with the poll on
    record. *)
Lemma choose_then_poll_ready (E : Env) (context : Context) (images : list string)
    (rest : string -> M unit) (w w1 : World) (image : string) :
  random_choice images w = (Ok image, w1) ->
  poll_fails E context (calls w1) image = false ->
  bind (random_choice images) (fun image =>
  bind (wait_for_image E context image) (fun ready =>
  if (ready : bool) then rest image else ret tt)) w
  = rest image (called (wait_command E context image) w1).
Proof.
  intros Hdraw Hpoll. unfold bind at 1. rewrite Hdraw. unfold bind at 1.
  rewrite (wait_for_image_ready E context image w1 Hpoll). reflexivity.
Qed.

(** The handler of a command whose output is decoded, at the failure [Hfail]
    of that command. *)
Ltac to_handler Hfail :=
  match goal with
  | |- context [try_except
                  (bind (subprocess_run ?E ?c) (fun out => bind (lift (json_loads out)) ?k))
                  ?h ?w] =>
      let e := fresh "e" in
      let He := fresh "He" in
      let Hrun := fresh "Hrun" in
      destruct (unanticipated_failure_handled E c k h w Hfail) as (e & He & Hrun);
      rewrite Hrun
  end.

Lemma evaluate_check_drops_failure (E : Env) (context : Context) (test_type : string) :
  drops_every_failure E context (test_images E)
    (fun image => assemble_command E context (" evaluate check " ++ image))
    (evaluate_check E context test_type).
Proof.
  intros w w1 image Hdraw Hpoll Hfail.
  unfold evaluate_check. rewrite (choose_then_poll_ready _ _ _ _ _ _ _ Hdraw Hpoll).
  cbv zeta.
  change (calls w1 ++ [wait_command E context image])%list
    with (calls (called (wait_command E context image) w1)) in Hfail.
  to_handler Hfail. reflexivity.
Qed.

Lemma image_wait_drops_failure (E : Env) (context : Context) (timeout interval : Z)
    (test_type : string) :
  drops_every_failure E context (test_images E)
    (fun image => image_wait_command E context image timeout interval)
    (image_wait E context timeout interval test_type).
Proof.
  intros w w1 image Hdraw Hpoll Hfail.
  destruct (image_wait_run E context timeout interval test_type w w1 image Hdraw Hpoll)
    as (w' & Hrun & _ & Hdrop).
  rewrite Hrun, (Hdrop Hfail). reflexivity.
Qed.

Lemma image_content_drops_failure (E : Env) (context : Context)
    (test_type content_type : string) :
  drops_every_failure E context (content_images E content_type)
    (fun image => assemble_command E context (" image content " ++ image))
    (image_content E context test_type content_type).
Proof.
  intros w w1 image Hdraw Hpoll Hfail.
  change (calls w1 ++ [wait_command E context image])%list
    with (calls (called (wait_command E context image) w1)) in Hfail.
  unfold image_content.
  fold (content_images E content_type).
  assert (Hstart :
    (if content_type =? "malware" then random_choice (malware_images E)
     else random_choice (test_images E))
    = random_choice (content_images E content_type)).
  { unfold content_images. destruct (content_type =? "malware"); reflexivity. }
  rewrite Hstart.
  rewrite (choose_then_poll_ready _ _ _ _ _ _ _ Hdraw Hpoll).
  cbv zeta. unfold bind at 1. to_handler Hfail. reflexivity.
Qed.

Lemma image_metadata_files_failure (E : Env) (context : Context) (test_type : string) :
  files_failure_after_poll E context (test_images E) test_type "image_metadata"
    (fun image => assemble_command E context (" image metadata " ++ image))
    (fun image => "failed to get image metadata for " ++ image)
    (image_metadata E context test_type).
Proof.
  intros w w1 image Hdraw Hpoll Hfail.
  change (calls w1 ++ [wait_command E context image])%list
    with (calls (called (wait_command E context image) w1)) in Hfail.
  unfold image_metadata. cbv zeta.
  rewrite (choose_then_poll_ready _ _ _ _ _ _ _ Hdraw Hpoll).
  to_handler Hfail. apply log_explicit_failure_fail_bucket.
Qed.

(** The archive scenarios once their image is picked and the poll for it
    came back. *)
Lemma analysis_archive_images_add_ready (E : Env) (context : Context)
    (test_type : string) (w w1 : World) (image : string) (image_sha : json) :
  pick_archive_image E context test_type "analysis_archive_images_add" w
    = (Ok (Some (image, image_sha)), w1) ->
  poll_fails E context (calls w1) image = false ->
  let polled := called (wait_command E context image) w1 in
  let command :=
    assemble_command E context (" analysis-archive images add " ++ py_str E image_sha) in
  unanticipated_failure (tool E (calls polled) command) = true ->
  analysis_archive_images_add E context test_type w = (Ok tt, called command polled).
Proof.
  intros Hpick Hpoll polled command Hfail.
  unfold analysis_archive_images_add. unfold bind at 1. rewrite Hpick.
  unfold bind at 1. rewrite (wait_for_image_ready E context image w1 Hpoll).
  fold polled. cbv zeta. fold command.
  to_handler Hfail. reflexivity.
Qed.

Lemma analysis_archive_images_del_ready (E : Env) (context : Context)
    (test_type : string) (w w1 : World) (image : string) (image_sha : json) :
  pick_archive_image E context test_type "analysis_archive_images_del" w
    = (Ok (Some (image, image_sha)), w1) ->
  poll_fails E context (calls w1) image = false ->
  let polled := called (wait_command E context image) w1 in
  let command :=
    assemble_command E context (" analysis-archive images del " ++ py_str E image_sha) in
  (forall (returncode : Z) (entries : list (string * json)),
      returncode <> 0%Z ->
      tool E (calls polled) command = Exited returncode (Decodes (JDict entries)) ->
      exists message,
        analysis_archive_images_del E context test_type w
        = (Ok tt,
           filed (if test_type =? "positive" then PositivePass else NegativeFail)
             (record_text "analysis_archive_images_del"
                ("Attempted to delete image " ++ image
                 ++ " from archive, but it was not in the archive; " ++ message))
             (called command polled)))
  /\ (tool E (calls polled) command = NotStarted
      \/ tool E (calls polled) command = Exited 0 Undecodable ->
      analysis_archive_images_del E context test_type w = (Ok tt, called command polled)).
Proof.
  intros Hpick Hpoll polled command.
  assert (Hstart : analysis_archive_images_del E context test_type w
    = try_except
        (bind (subprocess_run E command) (fun completed_proc =>
         bind (lift (json_loads completed_proc)) (fun response =>
         if negb (truthy response) then
           log_results_simple (JStr "ok") (JStr "ok") test_type
             "analysis_archive_images_del"
             ("deleted image " ++ image ++ " from archive")
         else ret tt)))
        (fun e =>
           match e with
           | CalledProcessError _ out =>
               bind (lift (json_loads out)) (fun response =>
               bind (lift (py_get response "httpcode")) (fun status_code =>
               bind (lift (py_get response "message")) (fun message =>
               log_results_simple (JStr "ok") (JStr "ok") test_type
                 "analysis_archive_images_del"
                 ("Attempted to delete image " ++ image
                  ++ " from archive, but it was not in the archive; message: "
                  ++ py_str E status_code ++ " HTTP status code: "
                  ++ py_str E message))))
           | _ => ret tt
           end)
        polled).
  { unfold analysis_archive_images_del. unfold bind at 1. rewrite Hpick.
    unfold bind at 1. rewrite (wait_for_image_ready E context image w1 Hpoll).
    reflexivity. }
  rewrite Hstart. split.
  - intros returncode entries Hrc Ht.
    unfold try_except. unfold bind at 1.
    rewrite (subprocess_run_nonzero E command polled returncode _ Ht Hrc).
    cbn [is_Exception json_loads lift py_get]. unfold bind.
    cbn [lift py_get]. rewrite log_results_simple_classify.
    unfold classify. rewrite py_eq_refl.
    eexists. reflexivity.
  - intros Ht. unfold try_except, bind, subprocess_run. fold (called command polled).
    destruct Ht as [-> | ->]; reflexivity.
Qed.

(** C6, as the code has it.  An explicit failure is exactly one record in
    the fail bucket of the polarity [log_explicit_failure] is given:
    "positive" gives a positive-fail record and "negative" a negative-fail
    record.  Which failures reach it is decided by each handler.  The nine
    scenarios with one command and the plain handler file that one record
    for every failure of the command they did not anticipate (a return code
    other than 0, a command that could not be started, an output that does
    not decode), and so does [image_metadata] once its poll came back.
    [evaluate_check], [image_wait], [image_content] and
    [analysis_archive_images_add] have a handler that only logs: for such a
    failure of the dependent command they return with nothing filed.
    [analysis_archive_images_del] files a rejection with a JSON object as
    its body as a record classified "ok" against "ok", a positive pass or
    a negative fail, and files nothing when the command could not be started
    or its output does not decode. *)
Theorem log_explicit_failure_by_polarity :
  forall (action message : string) (w : World),
    log_explicit_failure "positive" action message w
      = (Ok tt, filed PositiveFail (record_text action message) w)
    /\ log_explicit_failure "negative" action message w
      = (Ok tt, filed NegativeFail (record_text action message) w)
    /\ (forall b, total (ledger (filed b (record_text action message) w))
                  = S (total (ledger w)))
    /\ (forall (E : Env) (context : Context) (name test_type : string),
          files_every_failure E test_type
            (assemble_command E context (" account get " ++ name))
            "account_get" ("failed to get account " ++ name)
            (account_get E context name test_type)
          /\ files_every_failure E test_type
               (assemble_command E context (" account disable " ++ name))
               "account_disable" ("failed to disable account " ++ name)
               (account_disable E context name test_type)
          /\ files_every_failure E test_type
               (assemble_command E context (" account enable " ++ name))
               "account_enable" ("failed to enable account " ++ name)
               (account_enable E context name test_type)
          /\ files_every_failure E test_type
               (assemble_command E context " image list")
               "image_list" "failed to list images"
               (image_list E context test_type)
          /\ files_every_failure E test_type
               (assemble_command E context " repo list")
               "repo_list" "failed to list repos"
               (repo_list E context test_type)
          /\ files_every_failure E test_type
               (assemble_command E context " subscription list")
               "subscription_list" "failed to list subscriptions"
               (subscription_list E context test_type)
          /\ files_every_failure E test_type
               (assemble_command E context " system status")
               "system_status" "failed to get system status"
               (system_status E context test_type)
          /\ files_every_failure E test_type
               (assemble_command E context " system errorcodes")
               "system_errorcodes" "failed to get system error codes"
               (system_errorcodes E context test_type)
          /\ files_every_failure E test_type
               (assemble_command E context " registry list")
               "registry_list" "failed to list registries"
               (registry_list E context test_type)
          /\ files_failure_after_poll E context (test_images E) test_type
               "image_metadata"
               (fun image => assemble_command E context (" image metadata " ++ image))
               (fun image => "failed to get image metadata for " ++ image)
               (image_metadata E context test_type))
    /\ (forall (E : Env) (context : Context) (test_type : string),
          drops_every_failure E context (test_images E)
            (fun image => assemble_command E context (" evaluate check " ++ image))
            (evaluate_check E context test_type)
          /\ (forall timeout interval,
                drops_every_failure E context (test_images E)
                  (fun image => image_wait_command E context image timeout interval)
                  (image_wait E context timeout interval test_type))
          /\ (forall content_type,
                drops_every_failure E context (content_images E content_type)
                  (fun image => assemble_command E context (" image content " ++ image))
                  (image_content E context test_type content_type)))
    /\ (forall (E : Env) (context : Context) (test_type : string) (w0 w1 : World)
               (image : string) (image_sha : json),
          let polled := called (wait_command E context image) w1 in
          let command :=
            assemble_command E context
              (" analysis-archive images add " ++ py_str E image_sha) in
          pick_archive_image E context test_type "analysis_archive_images_add" w0
            = (Ok (Some (image, image_sha)), w1) ->
          poll_fails E context (calls w1) image = false ->
          unanticipated_failure (tool E (calls polled) command) = true ->
          analysis_archive_images_add E context test_type w0
            = (Ok tt, called command polled))
    /\ (forall (E : Env) (context : Context) (test_type : string) (w0 w1 : World)
               (image : string) (image_sha : json),
          let polled := called (wait_command E context image) w1 in
          let command :=
            assemble_command E context
              (" analysis-archive images del " ++ py_str E image_sha) in
          pick_archive_image E context test_type "analysis_archive_images_del" w0
            = (Ok (Some (image, image_sha)), w1) ->
          poll_fails E context (calls w1) image = false ->
          (forall (returncode : Z) (entries : list (string * json)),
              returncode <> 0%Z ->
              tool E (calls polled) command
                = Exited returncode (Decodes (JDict entries)) ->
              exists text,
                analysis_archive_images_del E context test_type w0
                = (Ok tt,
                   filed (if test_type =? "positive" then PositivePass
                          else NegativeFail)
                     (record_text "analysis_archive_images_del"
                        ("Attempted to delete image " ++ image
                         ++ " from archive, but it was not in the archive; " ++ text))
                     (called command polled)))
          /\ (tool E (calls polled) command = NotStarted
              \/ tool E (calls polled) command = Exited 0 Undecodable ->
              analysis_archive_images_del E context test_type w0
                = (Ok tt, called command polled))).
Proof.
  intros action message w.
  split; [reflexivity|]. split; [reflexivity|].
  split; [intros b; apply file_total|].
  split; [|split; [|split]].
  - intros E context name test_type.
    repeat split.
    + unfold account_get. cbv zeta. apply plain_handler_files_failure.
    + unfold account_disable. cbv zeta. apply plain_handler_files_failure.
    + unfold account_enable. cbv zeta. apply plain_handler_files_failure.
    + unfold image_list. cbv zeta. apply plain_handler_files_failure.
    + unfold repo_list. cbv zeta. apply plain_handler_files_failure.
    + unfold subscription_list. cbv zeta. apply plain_handler_files_failure.
    + unfold system_status. cbv zeta. apply plain_handler_files_failure.
    + unfold system_errorcodes. cbv zeta. apply plain_handler_files_failure.
    + unfold registry_list. cbv zeta. apply plain_handler_files_failure.
    + apply image_metadata_files_failure.
  - intros E context test_type.
    split; [apply evaluate_check_drops_failure|].
    split; [intros timeout interval; apply image_wait_drops_failure|].
    intros content_type. apply image_content_drops_failure.
  - intros E context test_type w0 w1 image image_sha polled command Hpick Hpoll Hfail.
    apply (analysis_archive_images_add_ready E context test_type w0 w1 image image_sha
             Hpick Hpoll Hfail).
  - intros E context test_type w0 w1 image image_sha polled command Hpick Hpoll.
    apply (analysis_archive_images_del_ready E context test_type w0 w1 image image_sha
             Hpick Hpoll).
Qed.

Lemma log_explicit_failure_by_polarity_witness :
  account_get (env_of [] nothing_works) admin "acme" "negative" fresh
    = (Ok tt,
       mkWorld (mkLedger [] [] [] ["account_get - failed to get account acme"])
               ["cli --u admin --p foobar --url http://localhost/v1  account get acme"]
               [])
  /\ evaluate_check (env_of ["alpine"] evaluate_check_rejected) admin "positive" fresh
     = (Ok tt,
        mkWorld empty_ledger
          ["cli --u admin --p foobar --url http://localhost/v1  image wait alpine";
           "cli --u admin --p foobar --url http://localhost/v1  evaluate check alpine"]
          []).
Proof.
  pose proof (log_explicit_failure_by_polarity "" "" fresh)
    as (_ & _ & _ & Hfiles & Hdrops & _).
  split.
  - exact (proj1 (Hfiles (env_of [] nothing_works) admin "acme" "negative")
             fresh eq_refl).
  - exact (proj1 (Hdrops (env_of ["alpine"] evaluate_check_rejected) admin "positive")
             fresh fresh "alpine" eq_refl eq_refl eq_refl).
Defined.

(** [analysis_archive_images_del] when the image is picked, the poll comes
    back and the delete is rejected with an internal error: the rejection is
    filed as a positive pass. *)
Lemma analysis_archive_images_del_rejection_passes :
  analysis_archive_images_del
    (env_of ["alpine"]
       (fun _ command =>
          if is_substring " analysis-archive images del " command then
            Exited 1 (Decodes (JDict [("message", JStr "Internal error");
                                      ("httpcode", JInt 500)]))
          else one_image_known [] " image get alpine"))
    admin "positive" fresh
  = (Ok tt,
     mkWorld
       (mkLedger
          ["analysis_archive_images_del - Attempted to delete image alpine:latest from archive, but it was not in the archive; message: 500 HTTP status code: Internal error"]
          [] [] [])
       ["cli --u admin --p foobar --url http://localhost/v1  image get alpine";
        "cli --u admin --p foobar --url http://localhost/v1  image wait alpine:latest";
        "cli --u admin --p foobar --url http://localhost/v1  analysis-archive images del sha256:0"]
       []).
Proof. reflexivity. Qed.
